(** * TaskManager PRO: role-based access control and the task and user routes

    A shallow embedding of the backend of TaskManager PRO (Express routes
    over Mongoose models) and the properties of its permission table, its
    task routes and its user-management routes.

    Layout:
    - [Js]        the few JavaScript notions the routes rely on (completions,
                  body values, truthiness, property reads through the
                  prototype, objects as key/value lists);
    - [Model]     the documents of the three collections and the store;
    - [Rbac]      middleware/rbac: [rolePermissions] and [hasPermission];
    - [Validator] the express-validator chains of the routes;
    - [Http]      responses, [errorHandler] and [checkPermission];
    - [Server]    index: [connectWithRetry] and [createNotification];
    - [Frontend]  lib/socket: the options of the socket client;
    - [Recovery]  which parts of the system retry after a failure;
    - [Recurring] the recurring-task service;
    - [Tasks]     routes/tasks;
    - [Users]     routes/users;
    - [Reference] an implementation of the libraries, to run the routes;
    - [Sample]    users, tasks and requests to run them on;
    - [Middleware] the other middlewares of middleware/rbac and
                  middleware/auth;
    - [TaskView]  GET /api/tasks/:id;
    - [Notifications], [Sockets] the notification routes without an id and
                  the map of connected users of index;
    - [Auth]      routes/auth and POST /api/users;
    - [Text], [Cors], [Routing] string cutting, the CORS origins and the
                  route tables;
    - [Browser], [Pages] the frontend: lib/auth, lib/api, lib/socket and
                  the pages that call the backend;
    - [Measure], [Fixture] vocabulary of the statistics and more data to
                  run the definitions on;
    followed by the properties, one module per subject. *)

From Stdlib Require Import String Ascii List Bool ZArith.
From Stdlib Require Import DecimalString Lia.
Import ListNotations.
Open Scope string_scope.

(** ** JavaScript notions *)

Module Js.

(** A thrown exception; the routes only ever meet [TypeError]. *)
Inductive exn : Type :=
| TypeError (msg : string).

(** The completion of an expression: a value or a throw. *)
Inductive completion (A : Type) : Type :=
| Return (a : A)
| Throw (e : exn).
Arguments Return {A} a.
Arguments Throw {A} e.

(** JSON values of a request body.  Numbers are integers and arrays hold
    scalars; fractions, nested arrays and objects do not occur in the
    requests of this application. *)
Inductive scalar : Type :=
| SNull
| SBool (b : bool)
| SNum (n : Z)
| SStr (s : string).

Inductive jsval : Type :=
| JScalar (v : scalar)
| JArr (items : list scalar).

Coercion JScalar : scalar >-> jsval.

(** A JavaScript object used as a record of named fields: assignment to
    an existing key overwrites it in place, a new key is appended. *)
Definition object (A : Type) : Type := list (string * A).

Fixpoint lookup {A} (o : object A) (k : string) : option A :=
  match o with
  | [] => None
  | (k', v) :: rest => if String.eqb k k' then Some v else lookup rest k
  end.

Fixpoint assign {A} (k : string) (v : A) (o : object A) : object A :=
  match o with
  | [] => [(k, v)]
  | (k', v') :: rest =>
      if String.eqb k k' then (k, v) :: rest else (k', v') :: assign k v rest
  end.

(** The object without a key: the same request with one parameter left out. *)
Definition without {A} (k : string) (o : object A) : object A :=
  filter (fun kv => negb (String.eqb (fst kv) k)) o.

(** Truthiness, as [if (x)], [!x] and [&&] see it; [None] is [undefined]. *)
Definition truthy_scalar (v : scalar) : bool :=
  match v with
  | SNull => false
  | SBool b => b
  | SNum n => negb (Z.eqb n 0)
  | SStr s => negb (String.eqb s "")
  end.

Definition truthy (v : option jsval) : bool :=
  match v with
  | None => false
  | Some (JScalar s) => truthy_scalar s
  | Some (JArr _) => true
  end.

Definition truthy_string (v : option string) : bool :=
  match v with
  | None => false
  | Some s => negb (String.eqb s "")
  end.

(** [a === s] for a body value [a] and a string [s]. *)
Definition strict_eq_string (a : option jsval) (s : string) : bool :=
  match a with
  | Some (JScalar (SStr s')) => String.eqb s' s
  | _ => false
  end.

(** [b !== a] for a stored boolean [b] and a body value [a]. *)
Definition strict_neq_bool (b : bool) (a : option jsval) : bool :=
  match a with
  | Some (JScalar (SBool b')) => negb (Bool.eqb b b')
  | _ => true
  end.

(** [o !== a] for a stored optional string [o] and a body value [a]. *)
Definition strict_neq_optstring (o : option string) (a : option jsval) : bool :=
  match o, a with
  | None, None => false
  | Some s, Some (JScalar (SStr s')) => negb (String.eqb s s')
  | _, _ => true
  end.

Definition numToString (n : Z) : string :=
  NilZero.string_of_int (Z.to_int n).

(** [String(v)], as a template literal converts a body value. *)
Definition scalarString (v : scalar) : string :=
  match v with
  | SNull => "null"
  | SBool true => "true"
  | SBool false => "false"
  | SNum n => numToString n
  | SStr s => s
  end.

Definition jsString (v : option jsval) : string :=
  match v with
  | None => "undefined"
  | Some (JScalar x) => scalarString x
  | Some (JArr items) => String.concat "," (map scalarString items)
  end.

(** The fields a destructuring picks out of an object; absent ones stay
    absent. *)
Definition pick {A} (names : list string) (o : object A) : object A :=
  flat_map (fun k => match lookup o k with
                     | Some v => [(k, v)]
                     | None => []
                     end) names.

(** What reading a property of an object literal of arrays can give:
    nothing, one of the arrays of the literal, or a member inherited from
    [Object.prototype] (a function, or the prototype itself). *)
Inductive value : Type :=
| VUndefined
| VArray (items : list string)
| VInherited (name : string).

(** The property names every object literal inherits. *)
Definition objectPrototypeKeys : list string :=
  [ "constructor"; "hasOwnProperty"; "isPrototypeOf";
    "propertyIsEnumerable"; "toLocaleString"; "toString"; "valueOf";
    "__defineGetter__"; "__defineSetter__"; "__lookupGetter__";
    "__lookupSetter__"; "__proto__" ].

Definition str_mem (s : string) (l : list string) : bool :=
  existsb (String.eqb s) l.

(** [o[k]] for an object literal [o]: own properties first, then the
    prototype chain. *)
Definition get (o : object (list string)) (k : string) : value :=
  match lookup o k with
  | Some v => VArray v
  | None => if str_mem k objectPrototypeKeys then VInherited k else VUndefined
  end.

(** [Array.prototype.includes] on an array of strings. *)
Definition includes (l : list string) (x : string) : bool := str_mem x l.

(** [v?.includes(x)]: [undefined] short-circuits, an array answers, and
    any other object has no [includes] member, so the call throws. *)
Definition optional_includes (v : value) (x : string)
  : completion (option bool) :=
  match v with
  | VUndefined => Return None
  | VArray l => Return (Some (includes l x))
  | VInherited _ => Throw (TypeError "permissions.includes is not a function")
  end.

End Js.

(** ** The documents and the store *)

Module Model.

(** Modelled from the spec: the schemas models/User and models/Task are
    not among the sources; the records carry the fields that the routes
    read and write.  Object ids are kept in their string form, the form
    in which the routes compare them.  [role] is optional because
    [hasPermission] tests [!user.role]. *)
Record User : Type := mkUser {
  _id : string;
  name : string;
  email : string;
  password : string;
  role : option string
}.

(** Modelled from the spec: models/Task is not among the sources; a task
    carries its descriptive fields, its schedule (the recurring fields)
    and [parentTaskId], the link of a spawned instance to its template. *)
Record Task : Type := mkTask {
  task_id : string;
  title : string;
  description : string;
  dueDate : Z;
  priority : string;
  status : string;
  assignedTo : string;
  createdBy : string;
  isRecurring : bool;
  recurringType : option string;
  recurringInterval : option Z;
  recurringDays : list Z;
  recurringDate : option Z;
  recurringEndDate : option Z;
  parentTaskId : option string
}.

(** models/Notification; [recipient] is its [user] field. *)
Record Notification : Type := mkNotification {
  recipient : string;
  message : string;
  type : string;
  read : bool;
  taskId : option string
}.

Record Store : Type := mkStore {
  users : list User;
  tasks : list Task;
  notifications : list Notification
}.

Definition with_users (us : list User) (st : Store) : Store :=
  mkStore us (tasks st) (notifications st).
Definition with_tasks (ts : list Task) (st : Store) : Store :=
  mkStore (users st) ts (notifications st).
Definition with_notifications (ns : list Notification) (st : Store) : Store :=
  mkStore (users st) (tasks st) ns.

(** [User.findById] and [Task.findById] on a well-formed id. *)
Definition findUser (id : string) (st : Store) : option User :=
  find (fun u => String.eqb (_id u) id) (users st).

Definition findTask (id : string) (st : Store) : option Task :=
  find (fun t => String.eqb (task_id t) id) (tasks st).

(** [task.deleteOne()] and [user.deleteOne()]. *)
Definition deleteTask (id : string) (st : Store) : Store :=
  with_tasks (filter (fun t => negb (String.eqb (task_id t) id)) (tasks st)) st.

Definition deleteUser (id : string) (st : Store) : Store :=
  with_users (filter (fun u => negb (String.eqb (_id u) id)) (users st)) st.

(** [Task.deleteMany({ parentTaskId: id })]. *)
Definition deleteChildren (id : string) (st : Store) : Store :=
  with_tasks
    (filter (fun t => match parentTaskId t with
                      | Some p => negb (String.eqb p id)
                      | None => true
                      end) (tasks st)) st.

(** Saving a document: a new one is appended, an existing one replaced. *)
Definition insertTask (t : Task) (st : Store) : Store :=
  with_tasks (tasks st ++ [t]) st.

Definition replaceTask (t : Task) (st : Store) : Store :=
  with_tasks
    (map (fun t' => if String.eqb (task_id t') (task_id t) then t else t')
         (tasks st)) st.

Definition replaceUser (u : User) (st : Store) : Store :=
  with_users
    (map (fun u' => if String.eqb (_id u') (_id u) then u else u')
         (users st)) st.

End Model.

(** ** The libraries the routes call

    validator.js, Mongoose and the JavaScript [Date] and [parseInt] are not
    part of this repository.  The routes are modelled over any
    implementation of the operations they use. *)

Class Libraries : Type := {
  (** validator.js *)
  isISO8601 : string -> bool;
  isInt : option Z -> option Z -> string -> bool;
  (** [mongoose.Types.ObjectId.isValid] *)
  isValidObjectId : string -> bool;
  (** the id Mongoose gives a new document *)
  newObjectId : Model.Store -> string;
  (** [new Task(fields)] followed by [save()]: schema casting and
      validation of the fields, [None] when [save] rejects *)
  castTask : string -> Js.object Js.jsval -> option Model.Task;
  (** [findByIdAndUpdate(id, { $set: body })]: the document after the
      update, [None] when casting the update fails *)
  castUpdate : Js.object Js.jsval -> Model.Task -> option Model.Task;
  (** [{ $regex: pattern, $options: 'i' }] on a string field *)
  regexTest : string -> string -> bool;
  (** [.sort({ [field]: order })] *)
  sortDocs : string -> Z -> list Model.Task -> list Model.Task;
  (** [parseInt(s, 10)], [None] for [NaN] *)
  parseInt : string -> option Z;
  (** [.limit(n)], [None] when the driver rejects the limit *)
  limitDocs : option Z -> list Model.Task -> option (list Model.Task);
  (** [d.setHours(0, 0, 0, 0)] and [d.setDate(d.getDate() + n)] *)
  startOfDay : Z -> Z;
  addDays : Z -> Z -> Z;
  (** the step of a monthly schedule *)
  addMonths : Z -> Z -> Z
}.

(** ** middleware/rbac *)

Module Rbac.
Import Js Model.

Definition rolePermissions : object (list string) :=
  [ ("admin",
     [ "tasks:create"; "tasks:read"; "tasks:update"; "tasks:delete";
       "tasks:assign"; "tasks:read-all"; "tasks:update-all";
       "tasks:delete-all"; "users:read"; "users:update"; "users:create";
       "users:delete"; "users:manage-roles"; "reports:view";
       "reports:export"; "system:settings" ]);
    ("manager",
     [ "tasks:create"; "tasks:read"; "tasks:update"; "tasks:delete";
       "tasks:assign"; "tasks:read-all"; "tasks:update-all";
       "tasks:delete-all"; "users:read"; "reports:view";
       "reports:export" ]);
    ("user",
     [ "tasks:create"; "tasks:read"; "tasks:update"; "tasks:delete";
       "tasks:assign" ]) ].

(** [hasPermission(user, permission)]:
    [if (!user || !user.role) return false;
     const permissions = rolePermissions[user.role];
     return permissions?.includes(permission) || false;] *)
Definition hasPermission (u : option User) (permission : string)
  : completion bool :=
  match u with
  | None => Return false
  | Some u =>
      if negb (truthy_string (role u)) then Return false
      else
        match role u with
        | None => Return false
        | Some r =>
            let permissions := get rolePermissions r in
            match optional_includes permissions permission with
            | Throw e => Throw e
            | Return None => Return false
            | Return (Some b) => Return (b || false)
            end
        end
  end.

(** The keys of the table. *)
Definition isRoleKey (r : string) : Prop :=
  r = "admin" \/ r = "manager" \/ r = "user".

(** [p] is an element of the table at key [r]. *)
Definition inTable (r p : string) : Prop :=
  exists perms, lookup rolePermissions r = Some perms /\ In p perms.

End Rbac.

(** ** express-validator *)

Module Validator.
Import Js.

(** The validators the routes chain. *)
Inductive validator : Type :=
| NotEmpty
| IsISO8601
| IsIn (allowed : list string)
| IsBoolean
| IsInt (min max : option Z)
| IsArray.

(** [body('field')] or [body('field.*')]. *)
Inductive selector : Type :=
| Field (f : string)
| Each (f : string).

(** A chain: the selected field, whether [.optional()] was called, and
    the validators, each with the message of its [.withMessage]. *)
Record chain : Type := mkChain {
  selected : selector;
  isOptional : bool;
  steps : list (validator * string)
}.

Record ValidationError : Type := mkError {
  path : string;
  msg : string
}.

(** The string a standard validator is run on; an absent field gives the
    empty string. *)
Definition stringify (v : option scalar) : string :=
  match v with
  | None => ""
  | Some SNull => ""
  | Some (SBool true) => "true"
  | Some (SBool false) => "false"
  | Some (SNum n) => numToString n
  | Some (SStr s) => s
  end.

Section WithLibraries.
Context `{Libraries}.

Definition standard (v : validator) (s : string) : bool :=
  match v with
  | NotEmpty => negb (String.eqb s "")
  | IsISO8601 => isISO8601 s
  | IsIn allowed => str_mem s allowed
  | IsBoolean => str_mem s ["true"; "false"; "1"; "0"]
  | IsInt lo hi => isInt lo hi s
  | IsArray => false
  end.

(** One validator on one field value: a standard validator is run on
    every element of an array value, [isArray] looks at the value
    itself. *)
Definition passes (v : validator) (value : option jsval) : bool :=
  match v, value with
  | IsArray, Some (JArr _) => true
  | IsArray, _ => false
  | _, Some (JArr items) => forallb (fun x => standard v (stringify (Some x))) items
  | _, Some (JScalar x) => standard v (stringify (Some x))
  | _, None => standard v (stringify None)
  end.

Definition run_steps (p : string) (value : option jsval)
           (l : list (validator * string)) : list ValidationError :=
  flat_map (fun '(v, m) => if passes v value then [] else [mkError p m]) l.

(** The field instances a selector picks in a body. *)
Definition instances (sel : selector) (b : object jsval)
  : list (string * option jsval) :=
  match sel with
  | Field f => [(f, lookup b f)]
  | Each f =>
      match lookup b f with
      | Some (JArr items) => map (fun x => (f ++ ".*", Some (JScalar x))) items
      | _ => []
      end
  end.

(** Running a chain: [.optional()] skips an [undefined] value. *)
Definition run_chain (b : object jsval) (c : chain) : list ValidationError :=
  flat_map
    (fun '(p, value) =>
       match isOptional c, value with
       | true, None => []
       | _, _ => run_steps p value (steps c)
       end)
    (instances (selected c) b).

(** [validationResult(req).array()]. *)
Definition validationResult (cs : list chain) (b : object jsval)
  : list ValidationError :=
  flat_map (run_chain b) cs.

End WithLibraries.

Definition isEmpty (errors : list ValidationError) : bool :=
  match errors with [] => true | _ => false end.

End Validator.

(** ** Responses and middleware *)

Module Http.
Import Js Model Validator.

(** A populated task: [assignedTo] and [createdBy] replaced by the name
    and email of the user they refer to. *)
Record Populated : Type := mkPopulated {
  doc : Task;
  assignee : option (string * string);
  creator : option (string * string)
}.

Record Stats : Type := mkStats {
  statusCounts : object nat;
  priorityCounts : object nat;
  dueTodayCount : nat;
  dueThisWeekCount : nat;
  overdueCount : nat
}.

(** The JSON bodies the routes send. *)
Inductive payload : Type :=
| Message (m : string)
| Errors (errors : list ValidationError)
| TaskCreated (m : string) (t : Task)
| TaskUpdated (m : string) (t : Populated)
| TaskList (ts : list Populated)
| TaskStats (s : Stats)
| UserUpdated (m : string) (id email name : string) (role : option string)
| Failure (m : string).

Record Response : Type := mkResponse {
  code : Z;
  json : payload
}.

(** [AuthRequest]: the request as the handlers see it, [user] set by
    [authenticateToken], [params_id] the [:id] of the route, the query
    parameters as the strings they are sent as. *)
Record AuthRequest : Type := mkRequest {
  user : option User;
  params_id : string;
  query : object string;
  body : object jsval
}.

(** [user.role === r]. *)
Definition hasRole (u : User) (r : string) : bool :=
  match role u with
  | Some r' => String.eqb r' r
  | None => false
  end.

(** The tasks a response lists. *)
Definition returned (r : Response) : list Task :=
  match json r with
  | TaskList ts => map doc ts
  | _ => []
  end.

(** middleware/errorHandler on an exception thrown by a middleware: a
    [TypeError] has no [statusCode] and none of the special names. *)
Definition errorHandler (e : exn) : Response :=
  match e with
  | TypeError m => mkResponse 500 (Failure m)
  end.

(** [catch (error) { res.status(500).json({ message: 'Server error' }) }]. *)
Definition serverError : Response := mkResponse 500 (Message "Server error").

(** [checkPermission(permission)]: [None] stands for [next()]. *)
Definition checkPermission (permission : string) (u : option User)
  : option Response :=
  match u with
  | None => Some (mkResponse 401 (Message "Authentication required"))
  | Some _ =>
      match Rbac.hasPermission u permission with
      | Throw e => Some (errorHandler e)
      | Return false =>
          Some (mkResponse 403
                  (Message "You do not have permission to perform this action"))
      | Return true => None
      end
  end.

Definition populate (st : Store) (t : Task) : Populated :=
  let card id := option_map (fun u => (name u, email u)) (findUser id st) in
  mkPopulated t (card (assignedTo t)) (card (createdBy t)).

End Http.

(** ** index: notifications and the database connection *)

Module Server.
Import Js Model.

Section WithLibraries.
Context `{Libraries}.

(** [createNotification(userId, message, type, taskId)]: the
    notification is saved; when saving fails (the user id does not cast
    to an object id) the error is caught and nothing is stored. *)
Definition createNotification (userId message type : string)
           (taskId : option string) (st : Store) : Store :=
  if isValidObjectId userId then
    with_notifications
      (notifications st ++ [mkNotification userId message type false taskId]) st
  else st.

End WithLibraries.

(** What the event loop holds for the database connection.  [Idle] is
    the state before the first call; [Connecting] is a pending
    [mongoose.connect]; [Waiting fireAt] is the timer set by
    [setTimeout(connectWithRetry, 5000)], due at [fireAt]; [Connected] is
    the end.  [attempts] counts the calls of [mongoose.connect]. *)
Inductive phase : Type :=
| Idle
| Connecting
| Waiting (fireAt : Z)
| Connected.

Record connection : Type := mkConnection {
  current : phase;
  attempts : nat
}.

(** The events that move it: the pending connect resolves, or rejects at
    some time, or the timer fires. *)
Inductive event : Type :=
| Resolved
| Rejected (at_time : Z)
| TimerFired.

Definition retryDelay : Z := 5000.

(** [connectWithRetry()]: [mongoose.connect] is called, with a [then] and
    a [catch] on its promise. *)
Definition connectWithRetry (c : connection) : connection :=
  mkConnection Connecting (S (attempts c)).

(** The call at start-up. *)
Definition started : connection := connectWithRetry (mkConnection Idle 0).

(** One turn of the event loop: the [then] handler logs, the [catch]
    handler sets the timer, the timer calls [connectWithRetry]. *)
Definition step (c : connection) (e : event) : connection :=
  match current c, e with
  | Connecting, Resolved => mkConnection Connected (attempts c)
  | Connecting, Rejected now =>
      mkConnection (Waiting (now + retryDelay)) (attempts c)
  | Waiting _, TimerFired => connectWithRetry c
  | _, _ => c
  end.

Definition run (es : list event) : connection := fold_left step es started.

(** A run of failed attempts: each connect is rejected, at the given time,
    and its timer fires. *)
Definition failures (times : list Z) : list event :=
  flat_map (fun t => [Rejected t; TimerFired]) times.

End Server.

(** ** frontend: lib/socket *)

Module Frontend.

(** The options of the socket.io client, [io(getBaseUrl(), { ... })]. *)
Record SocketOptions : Type := mkSocketOptions {
  autoConnect : bool;
  reconnection : bool;
  reconnectionAttempts : nat;
  reconnectionDelay : Z;
  timeout : Z
}.

Definition socket : SocketOptions :=
  mkSocketOptions false true 5 1000 20000.

End Frontend.

(** ** Failure recovery across the system *)

Module Recovery.

(** The parts of the system that hold a connection: the server to MongoDB
    (index, [connectWithRetry]), the browser to the server over socket.io
    (lib/socket) and over HTTP (lib/api). *)
Inductive subsystem : Type :=
| Database
| ClientSocket
| ClientApi.

(** Whether a part tries again after a failure: the server sets a timer
    when a connect is rejected; the socket client reconnects when its
    [reconnection] option is on and it has attempts left; the response
    interceptor of the HTTP client logs the error and rejects. *)
Definition recovers (s : subsystem) : bool :=
  match s with
  | Database =>
      match Server.current (Server.step Server.started (Server.Rejected 0)) with
      | Server.Waiting _ => true
      | _ => false
      end
  | ClientSocket =>
      Frontend.reconnection Frontend.socket
      && Nat.ltb 0 (Frontend.reconnectionAttempts Frontend.socket)
  | ClientApi => false
  end.

End Recovery.

(** ** services/recurringTaskService *)

Module Recurring.
Import Js Model.

Section WithLibraries.
Context `{Libraries}.

(** Modelled from the spec: services/recurringTaskService is not among
    the sources.  The glossary gives the schedule of a recurring task as
    daily, weekly, monthly or a custom interval; the next due date is
    the date-offset calculation on the template's due date.  A task
    with no schedule has no next date. *)
Definition nextDueDate (t : Task) : option Z :=
  match recurringType t with
  | None => None
  | Some ty =>
      if String.eqb ty "daily" then Some (addDays (dueDate t) 1)
      else if String.eqb ty "weekly" then Some (addDays (dueDate t) 7)
      else if String.eqb ty "monthly" then Some (addMonths (dueDate t) 1)
      else if String.eqb ty "custom" then
        Some (addDays (dueDate t)
                      (match recurringInterval t with Some n => n | None => 1 end))
      else None
  end.

(** Modelled from the spec: the instance a template spawns.  It takes
    the template's descriptive fields, falls due on the given date,
    starts as a todo, is not itself a template, and is linked to the
    template by [parentTaskId]. *)
Definition instanceOf (template : Task) (id : string) (due : Z) : Task :=
  mkTask id (title template) (description template) due
         (priority template) "todo" (assignedTo template)
         (createdBy template) false None None [] None None
         (Some (task_id template)).

(** Modelled from the spec: [createRecurringTaskInstance(template)]
    (services/recurringTaskService is not among the sources).  The
    template spawns its next instance on its schedule, until the
    optional end date: past the end date nothing is spawned. *)
Definition createRecurringTaskInstance (template : Task) (st : Store) : Store :=
  match nextDueDate template with
  | None => st
  | Some due =>
      match recurringEndDate template with
      | Some theEnd =>
          if Z.ltb theEnd due then st
          else insertTask (instanceOf template (newObjectId st) due) st
      | None => insertTask (instanceOf template (newObjectId st) due) st
      end
  end.

(** The tasks a later store has after those of an earlier one. *)
Definition added (st st' : Store) : list Task :=
  skipn (length (tasks st)) (tasks st').

(** The instances a call of [createRecurringTaskInstance] adds to the
    task collection. *)
Definition spawned (template : Task) (st : Store) : list Task :=
  added st (createRecurringTaskInstance template st).

(** Modelled from the spec: the cron-driven generator of
    services/recurringTaskService (not among the sources), as far as it
    spawns instances: a run of [createRecurringTaskInstance], one call per
    template. *)
Definition generateAll (templates : list Task) (st : Store) : Store :=
  fold_left (fun s template => createRecurringTaskInstance template s)
            templates st.

End WithLibraries.

End Recurring.

(** ** routes/tasks *)

Module Tasks.
Import Js Model Validator Http.

(** *** Mongo queries over the task collection *)

(** The value of a document field. *)
Inductive bson : Type :=
| BString (s : string)
| BBool (b : bool)
| BDate (d : Z)
| BMissing.

Definition fieldOf (t : Task) (k : string) : bson :=
  if String.eqb k "title" then BString (title t)
  else if String.eqb k "description" then BString (description t)
  else if String.eqb k "status" then BString (status t)
  else if String.eqb k "priority" then BString (priority t)
  else if String.eqb k "assignedTo" then BString (assignedTo t)
  else if String.eqb k "createdBy" then BString (createdBy t)
  else if String.eqb k "isRecurring" then BBool (isRecurring t)
  else if String.eqb k "dueDate" then BDate (dueDate t)
  else if String.eqb k "recurringType" then
    match recurringType t with Some s => BString s | None => BMissing end
  else if String.eqb k "parentTaskId" then
    match parentTaskId t with Some s => BString s | None => BMissing end
  else BMissing.

(** A condition on one field. *)
Inductive cond : Type :=
| Eq (v : bson)
| Ne (v : bson)
| Regex (pattern : string)
| Range (gte lt : option Z).

(** The value of a key of a query object: a condition on the field the
    key names, or, under [$or], a list of one-field alternatives. *)
Inductive entry : Type :=
| On (c : cond)
| Or (alternatives : list (string * cond)).

Definition bson_eqb (a b : bson) : bool :=
  match a, b with
  | BString x, BString y => String.eqb x y
  | BBool x, BBool y => Bool.eqb x y
  | BDate x, BDate y => Z.eqb x y
  | BMissing, BMissing => true
  | _, _ => false
  end.

Section WithLibraries.
Context `{Libraries}.

Definition sat (c : cond) (v : bson) : bool :=
  match c with
  | Eq w => bson_eqb v w
  | Ne w => negb (bson_eqb v w)
  | Regex p => match v with BString s => regexTest p s | _ => false end
  | Range lo hi =>
      match v with
      | BDate d =>
          (match lo with Some l => Z.leb l d | None => true end)
          && (match hi with Some h => Z.ltb d h | None => true end)
      | _ => false
      end
  end.

(** One key of a query object on a document. *)
Definition holds (t : Task) (kv : string * entry) : bool :=
  match snd kv with
  | On c => sat c (fieldOf t (fst kv))
  | Or alts => existsb (fun alt => sat (snd alt) (fieldOf t (fst alt))) alts
  end.

(** A document matches a query object when every key is satisfied. *)
Definition matches (q : object entry) (t : Task) : bool :=
  forallb (holds t) q.

(** [Task.find(query)] and [Task.countDocuments(query)]. *)
Definition findTasks (q : object entry) (st : Store) : list Task :=
  filter (matches q) (tasks st).

Definition countDocuments (q : object entry) (st : Store) : nat :=
  length (findTasks q st).

(** [Task.aggregate([{ $match: q }, { $group: { _id: '$field', count:
    { $sum: 1 } } }])] reduced into an object of counts. *)
Definition groupCounts (key : Task -> string) (q : object entry) (st : Store)
  : object nat :=
  fold_left
    (fun acc t =>
       assign (key t)
              (S (match lookup acc (key t) with Some n => n | None => 0 end))
              acc)
    (findTasks q st) [].

(** *** POST /api/tasks *)

Definition recurringTypeChain : chain :=
  mkChain (Field "recurringType") true
    [(IsIn ["daily"; "weekly"; "monthly"; "custom"],
      "Recurring type must be daily, weekly, monthly, or custom")].

Definition recurringValidators : list chain :=
  [ mkChain (Field "isRecurring") true [(IsBoolean, "Invalid value")];
    recurringTypeChain;
    mkChain (Field "recurringInterval") true
      [(IsInt (Some 1%Z) None, "Recurring interval must be a positive integer")];
    mkChain (Field "recurringDays") true
      [(IsArray, "Recurring days must be an array")];
    mkChain (Each "recurringDays") true
      [(IsInt (Some 0%Z) (Some 6%Z), "Recurring days must be between 0 and 6")];
    mkChain (Field "recurringDate") true
      [(IsInt (Some 1%Z) (Some 31%Z), "Recurring date must be between 1 and 31")];
    mkChain (Field "recurringEndDate") true
      [(IsISO8601, "Valid recurring end date is required")] ].

Definition recurringTypes : list string :=
  ["daily"; "weekly"; "monthly"; "custom"].

Definition postValidators : list chain :=
  [ mkChain (Field "title") false [(NotEmpty, "Title is required")];
    mkChain (Field "description") false [(NotEmpty, "Description is required")];
    mkChain (Field "dueDate") false [(IsISO8601, "Valid due date is required")];
    mkChain (Field "priority") false
      [(IsIn ["low"; "medium"; "high"], "Priority must be low, medium, or high")];
    mkChain (Field "assignedTo") false [(NotEmpty, "Assignee is required")] ]
  ++ recurringValidators.

Definition taskFields : list string :=
  [ "title"; "description"; "dueDate"; "priority"; "assignedTo";
    "isRecurring"; "recurringType"; "recurringInterval"; "recurringDays";
    "recurringDate"; "recurringEndDate" ].

(** [User.findById(v)] for a body value: only a string that is a
    well-formed object id casts; anything else makes the query throw. *)
Definition findUserByValue (v : option jsval) (st : Store)
  : completion (option User) :=
  match v with
  | Some (JScalar (SStr s)) =>
      if isValidObjectId s then Return (findUser s st)
      else Throw (TypeError "CastError")
  | _ => Throw (TypeError "CastError")
  end.

(** [createNotification(v, ...)] for a body value: a value that is not
    a string does not cast to the notification's user, the error is
    caught inside [createNotification]. *)
Definition notifyValue (v : option jsval) (message type : string)
           (taskId : option string) (st : Store) : Store :=
  match v with
  | Some (JScalar (SStr s)) => Server.createNotification s message type taskId st
  | _ => st
  end.

(** The handler of [router.post('/', checkPermission('tasks:create'),
    [...validators], handler)]. *)
Definition postTask (req : AuthRequest) (st : Store) : Response * Store :=
  match checkPermission "tasks:create" (user req) with
  | Some denied => (denied, st)
  | None =>
      let errors := validationResult postValidators (body req) in
      if negb (isEmpty errors) then (mkResponse 400 (Errors errors), st)
      else
        let title := lookup (body req) "title" in
        let assignedTo := lookup (body req) "assignedTo" in
        let isRecurring := lookup (body req) "isRecurring" in
        let recurringType := lookup (body req) "recurringType" in
        match findUserByValue assignedTo st with
        | Throw _ => (serverError, st)
        | Return None =>
            (mkResponse 404 (Message "Assigned user not found"), st)
        | Return (Some _) =>
            if truthy isRecurring && negb (truthy recurringType) then
              (mkResponse 400
                 (Message "Recurring type is required for recurring tasks"), st)
            else
              let fields :=
                (pick taskFields (body req)
                 ++ match user req with
                    | Some u => [("createdBy", JScalar (SStr (_id u)))]
                    | None => []
                    end)%list in
              match castTask (newObjectId st) fields with
              | None => (serverError, st)
              | Some task =>
                  let st1 := insertTask task st in
                  let st2 :=
                    if truthy isRecurring
                    then Recurring.createRecurringTaskInstance task st1
                    else st1 in
                  let st3 :=
                    if negb (strict_eq_string assignedTo
                               (match user req with
                                | Some u => _id u
                                | None => ""
                                end))
                    then notifyValue assignedTo
                           ("You have been assigned a new task: " ++ jsString title)
                           "task_assigned" (Some (task_id task)) st2
                    else st2 in
                  (mkResponse 201 (TaskCreated "Task created successfully" task),
                   st3)
              end
        end
  end.

(** *** GET /api/tasks *)

(** The role-visibility clause of a regular user. *)
Definition ownTasks (u : User) : entry :=
  Or [ ("assignedTo", Eq (BString (_id u)));
       ("createdBy", Eq (BString (_id u))) ].

Definition canSeeAllTasks (u : User) : bool :=
  hasRole u "admin" || hasRole u "manager".

(** [if (p) query[k] = ...]: the key is set when the parameter is there
    and not empty. *)
Definition assignIfSet (k : string) (p : option string) (mk : string -> entry)
           (q : object entry) : object entry :=
  match p with
  | Some v => if truthy_string p then assign k (mk v) q else q
  | None => q
  end.

(** What a parameter asks of a document once it is set. *)
Definition asks (t : Task) (k : string) (p : option string)
           (mk : string -> entry) : bool :=
  match p with
  | Some v => if truthy_string p then holds t (k, mk v) else true
  | None => true
  end.

Definition equals (v : string) : entry := On (Eq (BString v)).

Definition searchClause (v : string) : entry :=
  Or [ ("title", Regex v); ("description", Regex v) ].

(** The filters every caller may set. *)
Definition filterQuery (params : object string) : object entry :=
  let status := lookup params "status" in
  let priority := lookup params "priority" in
  let isRecurring := lookup params "isRecurring" in
  let recurringType := lookup params "recurringType" in
  let query : object entry := [] in
  let query := assignIfSet "status" status equals query in
  let query := assignIfSet "priority" priority equals query in
  let query :=
    match isRecurring with
    | Some v => assign "isRecurring" (On (Eq (BBool (String.eqb v "true")))) query
    | None => query
    end in
  assignIfSet "recurringType" recurringType equals query.

(** The query object the handler builds, statement by statement. *)
Definition listQuery (u : User) (params : object string) : object entry :=
  let search := lookup params "search" in
  let assignedTo := lookup params "assignedTo" in
  let createdBy := lookup params "createdBy" in
  let query := filterQuery params in
  let query := assignIfSet "$or" search searchClause query in
  if negb (canSeeAllTasks u) then assign "$or" (ownTasks u) query
  else
    let query := assignIfSet "assignedTo" assignedTo equals query in
    assignIfSet "createdBy" createdBy equals query.

(** Casting the query: an [assignedTo] or [createdBy] condition must
    hold a well-formed object id, or [Task.find] throws. *)
Definition castsQuery (q : object entry) : bool :=
  forallb (fun '(k, e) =>
             match e with
             | On (Eq (BString v)) =>
                 if String.eqb k "assignedTo" || String.eqb k "createdBy"
                 then isValidObjectId v else true
             | _ => true
             end) q.

(** The documents the listing selects, before sorting and limiting. *)
Definition listed (u : User) (params : object string) (st : Store) : list Task :=
  findTasks (listQuery u params) st.

Definition getTasks (req : AuthRequest) (st : Store) : Response :=
  match user req with
  | None => serverError
  | Some u =>
      let params := query req in
      let sortBy := match lookup params "sortBy" with
                    | Some f => f | None => "dueDate" end in
      let sortOrder := match lookup params "sortOrder" with
                       | Some o => o | None => "asc" end in
      let q := listQuery u params in
      if negb (castsQuery q) then serverError
      else
        let sorted :=
          sortDocs sortBy (if String.eqb sortOrder "asc" then 1 else (-1))%Z
                   (listed u params st) in
        let limited :=
          match lookup params "limit" with
          | Some l => if truthy_string (Some l)
                      then limitDocs (parseInt l) sorted else Some sorted
          | None => Some sorted
          end in
        match limited with
        | None => serverError
        | Some found => mkResponse 200 (TaskList (map (populate st) found))
        end
  end.

(** *** GET /api/tasks/stats *)

Definition statsQuery (u : User) : object entry :=
  let isAdmin := hasRole u "admin" in
  let isManager := hasRole u "manager" in
  let baseQuery : object entry := [] in
  if negb isAdmin && negb isManager then assign "$or" (ownTasks u) baseQuery
  else baseQuery.

(** The statistics of the tasks a base query selects, on a given day. *)
Definition statsOf (baseQuery : object entry) (now : Z) (st : Store) : Stats :=
  let today := startOfDay now in
  let tomorrow := addDays today 1 in
  let nextWeek := addDays today 7 in
  mkStats
    (groupCounts status baseQuery st)
    (groupCounts priority baseQuery st)
    (countDocuments
       (assign "dueDate" (On (Range (Some today) (Some tomorrow))) baseQuery) st)
    (countDocuments
       (assign "dueDate" (On (Range (Some today) (Some nextWeek))) baseQuery) st)
    (countDocuments
       (assign "status" (On (Ne (BString "completed")))
          (assign "dueDate" (On (Range None (Some today))) baseQuery)) st).

Definition getStats (now : Z) (req : AuthRequest) (st : Store) : Response :=
  match user req with
  | None => mkResponse 401 (Message "Authentication required")
  | Some u => mkResponse 200 (TaskStats (statsOf (statsQuery u) now st))
  end.

(** *** Vocabulary of the statements about listing and statistics *)

(** The task is assigned to the user or was created by the user. *)
Definition owns (u : User) (t : Task) : Prop :=
  assignedTo t = _id u \/ createdBy t = _id u.

Definition ownsb (u : User) (t : Task) : bool :=
  String.eqb (assignedTo t) (_id u) || String.eqb (createdBy t) (_id u).

(** The task passes the [status], [priority], [isRecurring] and
    [recurringType] parameters of the request. *)
Definition passesFilters (params : object string) (t : Task) : Prop :=
  (forall v, lookup params "status" = Some v -> v <> "" -> status t = v)
  /\ (forall v, lookup params "priority" = Some v -> v <> "" -> priority t = v)
  /\ (forall v, lookup params "isRecurring" = Some v ->
                isRecurring t = String.eqb v "true")
  /\ (forall v, lookup params "recurringType" = Some v -> v <> "" ->
                recurringType t = Some v).

(** The task passes the [search], [assignedTo] and [createdBy] parameters,
    which only an admin or a manager may set. *)
Definition passesWideFilters (params : object string) (t : Task) : Prop :=
  (forall v, lookup params "search" = Some v -> v <> "" ->
             regexTest v (title t) = true \/ regexTest v (description t) = true)
  /\ (forall v, lookup params "assignedTo" = Some v -> v <> "" -> assignedTo t = v)
  /\ (forall v, lookup params "createdBy" = Some v -> v <> "" -> createdBy t = v).

(** The store cut down to the tasks of one user. *)
Definition ownStore (u : User) (st : Store) : Store :=
  with_tasks (filter (ownsb u) (tasks st)) st.

(** *** PUT /api/tasks/:id *)

Definition putValidators : list chain :=
  ([ mkChain (Field "title") true [(NotEmpty, "Title cannot be empty")];
     mkChain (Field "description") true
       [(NotEmpty, "Description cannot be empty")];
     mkChain (Field "dueDate") true [(IsISO8601, "Valid due date is required")];
     mkChain (Field "priority") true
       [(IsIn ["low"; "medium"; "high"], "Priority must be low, medium, or high")];
     mkChain (Field "status") true
       [(IsIn ["todo"; "in-progress"; "completed"], "Invalid status")] ]
   ++ recurringValidators)%list.

Definition isSome {A} (o : option A) : bool :=
  match o with Some _ => true | None => false end.

Definition putTask (req : AuthRequest) (st : Store) : Response * Store :=
  let errors := validationResult putValidators (body req) in
  if negb (isEmpty errors) then (mkResponse 400 (Errors errors), st)
  else
    let id := params_id req in
    if negb (isValidObjectId id) then
      (mkResponse 400 (Message "Invalid task ID format"), st)
    else
      match findTask id st with
      | None => (mkResponse 404 (Message "Task not found"), st)
      | Some task =>
          match user req with
          | None => (serverError, st)
          | Some u =>
              let isTaskCreator := String.eqb (createdBy task) (_id u) in
              let isAdmin := hasRole u "admin" in
              let isManager := hasRole u "manager" in
              if negb isTaskCreator && negb isAdmin && negb isManager then
                (mkResponse 403
                   (Message "You do not have permission to update this task"), st)
              else if isSome (parentTaskId task)
                      && truthy (lookup (body req) "isRecurring") then
                (mkResponse 400
                   (Message
                      "Cannot make a recurring task instance into a recurring task"),
                 st)
              else
                let originalAssignee := assignedTo task in
                let originalStatus := status task in
                let wasRecurring := isRecurring task in
                let originalRecurringType := recurringType task in
                match castUpdate (body req) task with
                | None => (serverError, st)
                | Some updatedTask =>
                    let st := replaceTask updatedTask st in
                    let isNowCompleted :=
                      strict_eq_string (lookup (body req) "status") "completed"
                      && negb (String.eqb originalStatus "completed") in
                    let st :=
                      if isNowCompleted && isRecurring updatedTask
                      then Recurring.createRecurringTaskInstance updatedTask st
                      else st in
                    let recurringChanged :=
                      strict_neq_bool wasRecurring (lookup (body req) "isRecurring")
                      || strict_neq_optstring originalRecurringType
                           (lookup (body req) "recurringType") in
                    let st :=
                      if recurringChanged && isRecurring updatedTask
                      then Recurring.createRecurringTaskInstance updatedTask
                             (deleteChildren (task_id updatedTask) st)
                      else st in
                    let newAssignee := lookup (body req) "assignedTo" in
                    let st :=
                      if truthy newAssignee
                         && negb (strict_eq_string newAssignee originalAssignee)
                      then notifyValue newAssignee
                             ("You have been assigned to task: " ++ title task)
                             "task_assigned" (Some (task_id task)) st
                      else st in
                    let st :=
                      if isNowCompleted && negb (String.eqb (createdBy task) (_id u))
                      then Server.createNotification (createdBy task)
                             ("Task completed: " ++ title task)
                             "task_completed" (Some (task_id task)) st
                      else st in
                    let st :=
                      if negb (String.eqb (_id u) originalAssignee)
                         && (negb (isSome newAssignee)
                             || strict_eq_string newAssignee originalAssignee)
                      then Server.createNotification originalAssignee
                             ("Task updated: " ++ title task)
                             "task_updated" (Some (task_id task)) st
                      else st in
                    (mkResponse 200
                       (TaskUpdated "Task updated successfully"
                          (populate st updatedTask)), st)
                end
          end
      end.

(** *** DELETE /api/tasks/:id *)

Definition deleteTask (req : AuthRequest) (st : Store) : Response * Store :=
  let id := params_id req in
  if negb (isValidObjectId id) then
    (mkResponse 400 (Message "Invalid task ID format"), st)
  else
    match findTask id st with
    | None => (mkResponse 404 (Message "Task not found"), st)
    | Some task =>
        match user req with
        | None => (serverError, st)
        | Some u =>
            let isTaskCreator := String.eqb (createdBy task) (_id u) in
            let isAdmin := hasRole u "admin" in
            if negb isTaskCreator && negb isAdmin then
              (mkResponse 403
                 (Message "You do not have permission to delete this task"), st)
            else
              let st :=
                if negb (String.eqb (assignedTo task) (_id u))
                then Server.createNotification (assignedTo task)
                       ("Task deleted: " ++ title task) "system" None st
                else st in
              (mkResponse 200 (Message "Task deleted successfully"),
               Model.deleteTask (task_id task) st)
        end
    end.

End WithLibraries.

End Tasks.

(** ** routes/users *)

Module Users.
Import Js Model Validator Http.

Section WithLibraries.
Context `{Libraries}.

Definition roleValidators : list chain :=
  [ mkChain (Field "role") false
      [(IsIn ["admin"; "manager"; "user"], "Invalid role")] ].

(** [User.findById(req.params.id)]: an id that is not well formed makes
    the query throw. *)
Definition findById (id : string) (st : Store) : completion (option User) :=
  if isValidObjectId id then Return (findUser id st)
  else Throw (TypeError "CastError").

(** [req.user?._id.toString()] compared with the id of a document. *)
Definition isRequester (req : AuthRequest) (target : User) : bool :=
  match user req with
  | Some u => String.eqb (_id target) (_id u)
  | None => false
  end.

(** PUT /api/users/:id/role, behind [checkPermission('users:manage-roles')]. *)
Definition putRole (req : AuthRequest) (st : Store) : Response * Store :=
  match checkPermission "users:manage-roles" (user req) with
  | Some denied => (denied, st)
  | None =>
      let errors := validationResult roleValidators (body req) in
      if negb (isEmpty errors) then (mkResponse 400 (Errors errors), st)
      else
        match findById (params_id req) st with
        | Throw _ => (serverError, st)
        | Return None => (mkResponse 404 (Message "User not found"), st)
        | Return (Some target) =>
            if isRequester req target then
              (mkResponse 403 (Message "You cannot change your own role"), st)
            else
              match lookup (body req) "role" with
              | Some (JScalar (SStr r)) =>
                  let saved := mkUser (_id target) (name target) (email target)
                                      (password target) (Some r) in
                  (mkResponse 200
                     (UserUpdated "User role updated successfully"
                        (_id saved) (email saved) (name saved) (role saved)),
                   replaceUser saved st)
              | _ => (serverError, st)
              end
        end
  end.

(** DELETE /api/users/:id, behind [checkPermission('users:delete')]. *)
Definition deleteUser (req : AuthRequest) (st : Store) : Response * Store :=
  match checkPermission "users:delete" (user req) with
  | Some denied => (denied, st)
  | None =>
      match findById (params_id req) st with
      | Throw _ => (serverError, st)
      | Return None => (mkResponse 404 (Message "User not found"), st)
      | Return (Some target) =>
          if isRequester req target then
            (mkResponse 403 (Message "You cannot delete your own account"), st)
          else
            (mkResponse 200 (Message "User deleted successfully"),
             Model.deleteUser (_id target) st)
      end
  end.

End WithLibraries.

End Users.

(** ** A reference implementation of the libraries

    Used to run the routes on concrete requests.  It covers the inputs of
    the examples: calendar dates written [YYYY-MM-DD] (read as UTC
    midnight, in milliseconds), decimal integers, 24-digit hexadecimal
    object ids, literal search patterns, and sorting by due date. *)

Module Reference.
Import Js Model.

Definition digitValue (c : ascii) : option Z :=
  let n := Z.of_nat (nat_of_ascii c) in
  if (48 <=? n)%Z && (n <=? 57)%Z then Some (n - 48)%Z else None.

Fixpoint digitsFrom (acc : Z) (s : string) : option Z :=
  match s with
  | EmptyString => Some acc
  | String c rest =>
      match digitValue c with
      | Some d => digitsFrom (acc * 10 + d) rest
      | None => None
      end
  end.

(** An unsigned decimal numeral. *)
Definition decimal (s : string) : option Z :=
  match s with
  | EmptyString => None
  | _ => digitsFrom 0 s
  end.

Definition parseInt (s : string) : option Z :=
  match s with
  | String "-" rest => option_map Z.opp (decimal rest)
  | _ => decimal s
  end.

Definition isInt (lo hi : option Z) (s : string) : bool :=
  match parseInt s with
  | Some n =>
      (match lo with Some l => (l <=? n)%Z | None => true end)
      && (match hi with Some h => (n <=? h)%Z | None => true end)
  | None => false
  end.

(** Days from 1970-01-01 to a civil date. *)
Definition daysFromCivil (y m d : Z) : Z :=
  let y' := (if m <=? 2 then y - 1 else y)%Z in
  let era := (y' / 400)%Z in
  let yoe := (y' - era * 400)%Z in
  let doy := ((153 * (if m >? 2 then m - 3 else m + 9) + 2) / 5 + d - 1)%Z in
  let doe := (yoe * 365 + yoe / 4 - yoe / 100 + doy)%Z in
  (era * 146097 + doe - 719468)%Z.

(** The civil date of a day number. *)
Definition civilFromDays (z : Z) : Z * Z * Z :=
  let z := (z + 719468)%Z in
  let era := (z / 146097)%Z in
  let doe := (z - era * 146097)%Z in
  let yoe := ((doe - doe / 1460 + doe / 36524 - doe / 146096) / 365)%Z in
  let doy := (doe - (365 * yoe + yoe / 4 - yoe / 100))%Z in
  let mp := ((5 * doy + 2) / 153)%Z in
  let d := (doy - (153 * mp + 2) / 5 + 1)%Z in
  let m := (if mp <? 10 then mp + 3 else mp - 9)%Z in
  ((if m <=? 2 then yoe + era * 400 + 1 else yoe + era * 400)%Z, m, d).

Definition msPerDay : Z := 86400000.

(** [YYYY-MM-DD]. *)
Definition parseDate (s : string) : option Z :=
  if Nat.eqb (String.length s) 10 then
    match decimal (substring 0 4 s), substring 4 1 s,
          decimal (substring 5 2 s), substring 7 1 s,
          decimal (substring 8 2 s) with
    | Some y, "-", Some m, "-", Some d =>
        if (1 <=? m)%Z && (m <=? 12)%Z && (1 <=? d)%Z && (d <=? 31)%Z
        then Some (daysFromCivil y m d * msPerDay)%Z else None
    | _, _, _, _, _ => None
    end
  else None.

Definition isISO8601 (s : string) : bool :=
  match parseDate s with Some _ => true | None => false end.

Definition startOfDay (t : Z) : Z := (t - t mod msPerDay)%Z.
Definition addDays (t n : Z) : Z := (t + n * msPerDay)%Z.

Definition addMonths (t n : Z) : Z :=
  let '(y, m, d) := civilFromDays (t / msPerDay) in
  let k := (y * 12 + (m - 1) + n)%Z in
  (daysFromCivil (k / 12) (k mod 12 + 1) d * msPerDay + t mod msPerDay)%Z.

Definition isHex (c : ascii) : bool :=
  let n := nat_of_ascii c in
  (Nat.leb 48 n && Nat.leb n 57) || (Nat.leb 97 n && Nat.leb n 102)
  || (Nat.leb 65 n && Nat.leb n 70).

Definition isValidObjectId (s : string) : bool :=
  Nat.eqb (String.length s) 24 && forallb isHex (list_ascii_of_string s).

Fixpoint zeros (n : nat) : string :=
  match n with
  | O => ""
  | S k => "0" ++ zeros k
  end.

(** The ids of new documents: a counter of the documents stored so far. *)
Definition newObjectId (st : Store) : string :=
  let n := numToString (Z.of_nat (length (users st) + length (tasks st)
                                  + length (notifications st))) in
  "aaaaaaaa" ++ zeros (16 - String.length n) ++ n.

Definition lower (c : ascii) : ascii :=
  let n := nat_of_ascii c in
  if Nat.leb 65 n && Nat.leb n 90 then ascii_of_nat (n + 32) else c.

Fixpoint lowercase (s : string) : string :=
  match s with
  | EmptyString => EmptyString
  | String c rest => String (lower c) (lowercase rest)
  end.

Fixpoint contains (needle hay : string) : bool :=
  prefix needle hay
  || match hay with
     | EmptyString => false
     | String _ rest => contains needle rest
     end.

(** A literal pattern, case-insensitive. *)
Definition regexTest (pattern s : string) : bool :=
  contains (lowercase pattern) (lowercase s).

Fixpoint insertBy (le : Task -> Task -> bool) (t : Task) (l : list Task)
  : list Task :=
  match l with
  | [] => [t]
  | x :: rest => if le t x then t :: l else x :: insertBy le t rest
  end.

Definition sortDocs (field : string) (order : Z) (l : list Task) : list Task :=
  if String.eqb field "dueDate" then
    fold_right
      (insertBy (fun a b => if (0 <? order)%Z
                            then (dueDate a <=? dueDate b)%Z
                            else (dueDate b <=? dueDate a)%Z))
      [] l
  else l.

Definition limitDocs (n : option Z) (l : list Task) : option (list Task) :=
  match n with
  | None => None
  | Some k => if (k =? 0)%Z then Some l else Some (firstn (Z.abs_nat k) l)
  end.

Definition asString (v : option jsval) : option string :=
  match v with
  | Some (JScalar (SStr s)) => Some s
  | _ => None
  end.

Definition asBool (v : option jsval) : option bool :=
  match v with
  | None => Some false
  | Some (JScalar (SBool b)) => Some b
  | Some (JScalar (SStr s)) =>
      if String.eqb s "true" || String.eqb s "1" then Some true
      else if String.eqb s "false" || String.eqb s "0" then Some false
      else None
  | Some (JScalar (SNum n)) =>
      if (n =? 1)%Z then Some true else if (n =? 0)%Z then Some false else None
  | _ => None
  end.

Definition asNumber (v : option jsval) : option (option Z) :=
  match v with
  | None => Some None
  | Some (JScalar (SNum n)) => Some (Some n)
  | Some (JScalar (SStr s)) => option_map Some (parseInt s)
  | _ => None
  end.

Definition asNumbers (v : option jsval) : option (list Z) :=
  match v with
  | None => Some []
  | Some (JArr items) =>
      fold_right (fun x acc =>
                    match x, acc with
                    | SNum n, Some l => Some (n :: l)
                    | _, _ => None
                    end) (Some []) items
  | _ => None
  end.

Definition asDate (v : option jsval) : option (option Z) :=
  match v with
  | None => Some None
  | Some (JScalar (SStr s)) => option_map Some (parseDate s)
  | _ => None
  end.

(** [new Task(fields)] and [save()]: the required fields must be there
    and every field must cast; a new task starts as a todo. *)
Definition castTask (id : string) (fields : object jsval) : option Task :=
  match asString (lookup fields "title"), asString (lookup fields "description"),
        asDate (lookup fields "dueDate"), asString (lookup fields "priority"),
        asString (lookup fields "assignedTo"), asString (lookup fields "createdBy"),
        asBool (lookup fields "isRecurring"),
        asNumber (lookup fields "recurringInterval"),
        asNumbers (lookup fields "recurringDays"),
        asNumber (lookup fields "recurringDate"),
        asDate (lookup fields "recurringEndDate") with
  | Some t, Some d, Some (Some due), Some p, Some a, Some c,
    Some r, Some ri, Some rds, Some rd, Some re =>
      match lookup fields "recurringType" with
      | None => Some (mkTask id t d due p "todo" a c r None ri rds rd re None)
      | Some (JScalar (SStr ty)) =>
          Some (mkTask id t d due p "todo" a c r (Some ty) ri rds rd re None)
      | _ => None
      end
  | _, _, _, _, _, _, _, _, _, _, _ => None
  end.

(** One key of [{ $set: body }]: every path of the schema is written as
    it is sent, [parentTaskId] among them. *)
Definition setField (kv : string * jsval) (acc : option Task) : option Task :=
  let '(k, v) := kv in
  match acc with
  | None => None
  | Some t =>
      let str f := option_map f (asString (Some v)) in
      if String.eqb k "title" then
        str (fun s => mkTask (task_id t) s (description t) (dueDate t) (priority t)
               (status t) (assignedTo t) (createdBy t) (isRecurring t)
               (recurringType t) (recurringInterval t) (recurringDays t)
               (recurringDate t) (recurringEndDate t) (parentTaskId t))
      else if String.eqb k "description" then
        str (fun s => mkTask (task_id t) (title t) s (dueDate t) (priority t)
               (status t) (assignedTo t) (createdBy t) (isRecurring t)
               (recurringType t) (recurringInterval t) (recurringDays t)
               (recurringDate t) (recurringEndDate t) (parentTaskId t))
      else if String.eqb k "priority" then
        str (fun s => mkTask (task_id t) (title t) (description t) (dueDate t) s
               (status t) (assignedTo t) (createdBy t) (isRecurring t)
               (recurringType t) (recurringInterval t) (recurringDays t)
               (recurringDate t) (recurringEndDate t) (parentTaskId t))
      else if String.eqb k "status" then
        str (fun s => mkTask (task_id t) (title t) (description t) (dueDate t)
               (priority t) s (assignedTo t) (createdBy t) (isRecurring t)
               (recurringType t) (recurringInterval t) (recurringDays t)
               (recurringDate t) (recurringEndDate t) (parentTaskId t))
      else if String.eqb k "assignedTo" then
        str (fun s => mkTask (task_id t) (title t) (description t) (dueDate t)
               (priority t) (status t) s (createdBy t) (isRecurring t)
               (recurringType t) (recurringInterval t) (recurringDays t)
               (recurringDate t) (recurringEndDate t) (parentTaskId t))
      else if String.eqb k "recurringType" then
        str (fun s => mkTask (task_id t) (title t) (description t) (dueDate t)
               (priority t) (status t) (assignedTo t) (createdBy t) (isRecurring t)
               (Some s) (recurringInterval t) (recurringDays t)
               (recurringDate t) (recurringEndDate t) (parentTaskId t))
      else if String.eqb k "isRecurring" then
        option_map
          (fun b => mkTask (task_id t) (title t) (description t) (dueDate t)
               (priority t) (status t) (assignedTo t) (createdBy t) b
               (recurringType t) (recurringInterval t) (recurringDays t)
               (recurringDate t) (recurringEndDate t) (parentTaskId t))
          (asBool (Some v))
      else if String.eqb k "dueDate" then
        match asDate (Some v) with
        | Some (Some due) =>
            Some (mkTask (task_id t) (title t) (description t) due
               (priority t) (status t) (assignedTo t) (createdBy t) (isRecurring t)
               (recurringType t) (recurringInterval t) (recurringDays t)
               (recurringDate t) (recurringEndDate t) (parentTaskId t))
        | _ => None
        end
      else if String.eqb k "recurringEndDate" then
        option_map
          (fun e => mkTask (task_id t) (title t) (description t) (dueDate t)
               (priority t) (status t) (assignedTo t) (createdBy t) (isRecurring t)
               (recurringType t) (recurringInterval t) (recurringDays t)
               (recurringDate t) e (parentTaskId t))
          (asDate (Some v))
      else if String.eqb k "recurringInterval" then
        option_map
          (fun n => mkTask (task_id t) (title t) (description t) (dueDate t)
               (priority t) (status t) (assignedTo t) (createdBy t) (isRecurring t)
               (recurringType t) n (recurringDays t)
               (recurringDate t) (recurringEndDate t) (parentTaskId t))
          (asNumber (Some v))
      else if String.eqb k "recurringDate" then
        option_map
          (fun n => mkTask (task_id t) (title t) (description t) (dueDate t)
               (priority t) (status t) (assignedTo t) (createdBy t) (isRecurring t)
               (recurringType t) (recurringInterval t) (recurringDays t)
               n (recurringEndDate t) (parentTaskId t))
          (asNumber (Some v))
      else if String.eqb k "recurringDays" then
        option_map
          (fun l => mkTask (task_id t) (title t) (description t) (dueDate t)
               (priority t) (status t) (assignedTo t) (createdBy t) (isRecurring t)
               (recurringType t) (recurringInterval t) l
               (recurringDate t) (recurringEndDate t) (parentTaskId t))
          (asNumbers (Some v))
      else if String.eqb k "parentTaskId" then
        match v with
        | JScalar (SStr p) =>
            if isValidObjectId p then
              Some (mkTask (task_id t) (title t) (description t) (dueDate t)
                      (priority t) (status t) (assignedTo t) (createdBy t)
                      (isRecurring t) (recurringType t) (recurringInterval t)
                      (recurringDays t) (recurringDate t) (recurringEndDate t)
                      (Some p))
            else None
        | JScalar SNull =>
            Some (mkTask (task_id t) (title t) (description t) (dueDate t)
                    (priority t) (status t) (assignedTo t) (createdBy t)
                    (isRecurring t) (recurringType t) (recurringInterval t)
                    (recurringDays t) (recurringDate t) (recurringEndDate t)
                    None)
        | _ => None
        end
      else Some t
  end.

Definition castUpdate (b : object jsval) (t : Task) : option Task :=
  fold_right setField (Some t) (rev b).

Definition libraries : Libraries :=
  Build_Libraries isISO8601 isInt isValidObjectId newObjectId castTask
                  castUpdate regexTest sortDocs parseInt limitDocs
                  startOfDay addDays addMonths.

End Reference.

(** ** Sample data

    Three users, one of each role, and a few tasks, for running the routes
    on the reference libraries. *)

Module Sample.
Import Js Model Http.

Definition aliceId : string := "a00000000000000000000001".
Definition bobId : string := "b00000000000000000000002".
Definition carolId : string := "c00000000000000000000003".
Definition daveId : string := "d00000000000000000000004".
Definition nobodyId : string := "e00000000000000000000005".

Definition alice : User := mkUser aliceId "Alice" "alice@example.org" "pw-a" (Some "admin").
Definition bob : User := mkUser bobId "Bob" "bob@example.org" "pw-b" (Some "user").
Definition carol : User := mkUser carolId "Carol" "carol@example.org" "pw-c" (Some "manager").
Definition dave : User := mkUser daveId "Dave" "dave@example.org" "pw-d" (Some "user").

Definition jan1 : Z := 1735689600000.
Definition jan10 : Z := 1736467200000.

(** A plain task created by Bob for himself. *)
Definition report : Task :=
  mkTask "f00000000000000000000001" "Write report" "Quarterly report" jan10
         "high" "todo" bobId bobId false None None [] None None None.

(** A weekly template created by Alice and assigned to Bob, and the
    instance spawned from it. *)
Definition standup : Task :=
  mkTask "f00000000000000000000002" "Standup" "Weekly standup" jan1
         "low" "todo" bobId aliceId true (Some "weekly") None [] None
         (Some jan10) None.

Definition standupInstance : Task :=
  mkTask "f00000000000000000000003" "Standup" "Weekly standup"
         (jan1 + 7 * 86400000) "low" "todo" bobId aliceId false None None []
         None None (Some "f00000000000000000000002").

(** A task of Dave's that Bob has no part in. *)
Definition audit : Task :=
  mkTask "f00000000000000000000004" "Audit" "Yearly audit" jan10
         "medium" "completed" daveId daveId false None None [] None None None.

Definition store : Store :=
  mkStore [alice; bob; carol; dave] [report; standup; standupInstance; audit] [].

Definition request (u : User) (id : string) (params : object string)
           (b : object jsval) : AuthRequest :=
  mkRequest (Some u) id params b.

(** An update that leaves the schedule of a template as it is and names
    another task as its parent. *)
Definition nestingBody : object jsval :=
  [ ("parentTaskId", JScalar (SStr (task_id report)));
    ("isRecurring", JScalar (SBool true));
    ("recurringType", JScalar (SStr "weekly")) ].

(** A well-formed body for POST /api/tasks. *)
Definition newTaskBody : object jsval :=
  [ ("title", JScalar (SStr "Plan sprint"));
    ("description", JScalar (SStr "Plan the next sprint"));
    ("dueDate", JScalar (SStr "2025-01-10"));
    ("priority", JScalar (SStr "medium"));
    ("assignedTo", JScalar (SStr bobId)) ].

(** The same, recurring, without a recurring type. *)
Definition recurringNoTypeBody : object jsval :=
  (newTaskBody ++ [("isRecurring", JScalar (SBool true))])%list.

(** A well-formed body but for a recurring type outside the four. *)
Definition yearlyBody : object jsval :=
  (newTaskBody ++ [("recurringType", JScalar (SStr "yearly"))])%list.

(** The same again, assigned to an id no user has. *)
Definition recurringNoTypeNobodyBody : object jsval :=
  assign "assignedTo" (JScalar (SStr nobodyId)) recurringNoTypeBody.

(** A template without an end date. *)
Definition openEnded : Task :=
  mkTask "f00000000000000000000005" "Backup" "Daily backup" jan1
         "low" "todo" carolId carolId true (Some "daily") None [] None None None.

End Sample.

(** ** More libraries: accounts

    jsonwebtoken, the e-mail check of validator.js, and the methods of the
    User model (models/User is not among the sources): the hash its save
    applies to a password and its [comparePassword]. *)

Class Accounts : Type := {
  (** validator.js [isEmail] *)
  isEmail : string -> bool;
  (** [jwt.verify(token, secret)]: the [userId] of the payload, [None]
      when it throws *)
  verify : string -> option string;
  (** [jwt.sign({ userId }, secret, { expiresIn: '24h' })] *)
  sign : string -> string;
  (** the stored form of a password *)
  hashPassword : string -> string;
  (** [user.comparePassword(candidate)] against the stored form *)
  comparePassword : string -> string -> bool;
  (** validator.js: the empty string is no e-mail address *)
  isEmail_empty : isEmail "" = false
}.

(** ** A reply, for the routes that send documents of other kinds *)

Module Reply.

(** [res.status(code).json(data)] or [res.status(code).json({ message })]. *)
Inductive reply (A : Type) : Type :=
| Sent (code : Z) (data : A)
| Failed (code : Z) (message : string).
Arguments Sent {A} code data.
Arguments Failed {A} code message.

Definition status {A} (r : reply A) : Z :=
  match r with
  | Sent c _ => c
  | Failed c _ => c
  end.

End Reply.

(** ** middleware/rbac and middleware/auth: the other middlewares *)

Module Middleware.
Import Js Model Http.

(** [permissions.some(p => hasPermission(req.user, p))]: stops at the first
    permission held; a throw of [hasPermission] goes through. *)
Fixpoint some (u : option User) (permissions : list string) : completion bool :=
  match permissions with
  | [] => Return false
  | p :: rest =>
      match Rbac.hasPermission u p with
      | Throw e => Throw e
      | Return true => Return true
      | Return false => some u rest
      end
  end.

(** [permissions.every(p => hasPermission(req.user, p))]: stops at the
    first permission not held. *)
Fixpoint every (u : option User) (permissions : list string) : completion bool :=
  match permissions with
  | [] => Return true
  | p :: rest =>
      match Rbac.hasPermission u p with
      | Throw e => Throw e
      | Return false => Return false
      | Return true => every u rest
      end
  end.

Definition unauthenticated : Response :=
  mkResponse 401 (Message "Authentication required").

Definition forbidden : Response :=
  mkResponse 403 (Message "You do not have permission to perform this action").

(** What a middleware does with the answer of a check: [None] is [next()]. *)
Definition gate (u : option User) (check : completion bool) : option Response :=
  match u with
  | None => Some unauthenticated
  | Some _ =>
      match check with
      | Throw e => Some (errorHandler e)
      | Return false => Some forbidden
      | Return true => None
      end
  end.

(** rbac: [requirePermission], [requireAnyPermission],
    [requireAllPermissions]. *)
Definition requirePermission (permission : string) (u : option User)
  : option Response :=
  gate u (Rbac.hasPermission u permission).

Definition requireAnyPermission (permissions : list string) (u : option User)
  : option Response :=
  gate u (some u permissions).

Definition requireAllPermissions (permissions : list string) (u : option User)
  : option Response :=
  gate u (every u permissions).

(** auth: [authorizeRoles(...roles)], the legacy check
    [roles.includes(req.user.role)]. *)
Definition authorizeRoles (roles : list string) (u : option User)
  : option Response :=
  match u with
  | None => Some unauthenticated
  | Some usr =>
      match role usr with
      | Some r => if includes roles r then None else Some forbidden
      | None => Some forbidden
      end
  end.

(** The permissions only an admin holds, and those an admin and a manager
    hold but a regular user does not. *)
Definition adminOnly : list string :=
  [ "users:update"; "users:create"; "users:delete"; "users:manage-roles";
    "system:settings" ].

Definition managerLevel : list string :=
  [ "tasks:read-all"; "tasks:update-all"; "tasks:delete-all"; "users:read";
    "reports:view"; "reports:export" ].

(** The string holds no space. *)
Definition noSpace (s : string) : bool :=
  forallb (fun c => negb (Ascii.eqb c " ")) (list_ascii_of_string s).

(** [s.split(sep)] for a one-character separator. *)
Fixpoint split (sep : ascii) (s : string) : list string :=
  match s with
  | EmptyString => [""]
  | String c rest =>
      if Ascii.eqb c sep then "" :: split sep rest
      else
        match split sep rest with
        | [] => [String c ""]
        | piece :: pieces => String c piece :: pieces
        end
  end.

(** [.select('-password')]: the document without its password. *)
Definition withoutPassword (u : User) : User :=
  mkUser (_id u) (name u) (email u) "" (role u).

Section WithLibraries.
Context `{Libraries} `{Accounts}.

(** auth: [authenticateToken], on the [authorization] header: the user it
    puts on the request, or the response it sends.  Every throw inside (a
    token that does not verify, an id that does not cast) is caught and
    answered 403. *)
Definition authenticateToken (authorization : option string) (st : Store)
  : Response + User :=
  let token :=
    match authorization with
    | Some header =>
        if truthy_string authorization
        then nth_error (split " " header) 1 else None
    | None => None
    end in
  if negb (truthy_string token) then
    inl (mkResponse 401 (Message "Authentication token required"))
  else
    match token with
    | None => inl (mkResponse 401 (Message "Authentication token required"))
    | Some t =>
        match verify t with
        | None => inl (mkResponse 403 (Message "Invalid token"))
        | Some userId =>
            if isValidObjectId userId then
              match findUser userId st with
              | None => inl (mkResponse 401 (Message "User not found"))
              | Some u => inr (withoutPassword u)
              end
            else inl (mkResponse 403 (Message "Invalid token"))
        end
    end.

End WithLibraries.

End Middleware.

(** ** routes/tasks: GET /api/tasks/:id *)

Module TaskView.
Import Js Model Http Reply.

Section WithLibraries.
Context `{Libraries}.

(** [task.createdBy?._id.toString() === user._id.toString()] on the
    populated document: a reference to a user that is gone populates to
    [null] and compares unequal. *)
Definition refersTo (id : string) (u : User) (st : Store) : bool :=
  match findUser id st with
  | Some referred => String.eqb (_id referred) (_id u)
  | None => false
  end.

Definition getTask (req : AuthRequest) (st : Store) : reply Populated :=
  let taskId := params_id req in
  if negb (isValidObjectId taskId) then Failed 400 "Invalid task ID"
  else
    match findTask taskId st with
    | None => Failed 404 "Task not found"
    | Some task =>
        match user req with
        | None => Failed 500 "Server error"
        | Some u =>
            let isCreator := refersTo (createdBy task) u st in
            let isAssignee := refersTo (assignedTo task) u st in
            let canViewAllTasks := hasRole u "admin" || hasRole u "manager" in
            if negb isCreator && negb isAssignee && negb canViewAllTasks then
              Failed 403 "You do not have permission to view this task"
            else Sent 200 (populate st task)
        end
    end.

End WithLibraries.

End TaskView.

(** ** routes/notifications: the routes that take no id *)

Module Notifications.
Import Js Model Http Reply.

(** [{ user: req.user._id }]. *)
Definition mine (u : User) (n : Notification) : bool :=
  String.eqb (recipient n) (_id u).

(** [{ user: req.user._id, read: false }]. *)
Definition unreadOf (u : User) (n : Notification) : bool :=
  mine u n && negb (read n).

Definition markRead (n : Notification) : Notification :=
  mkNotification (recipient n) (message n) (type n) true (taskId n).

(** PUT /api/notifications/read-all: [Notification.updateMany({ user,
    read: false }, { $set: { read: true } })].  An object id is an
    object, so [!req.user?._id] holds only without a user. *)
Definition readAll (u : option User) (st : Store) : Response * Store :=
  match u with
  | None => (mkResponse 401 (Message "Authentication required"), st)
  | Some usr =>
      (mkResponse 200 (Message "All notifications marked as read"),
       with_notifications
         (map (fun n => if unreadOf usr n then markRead n else n)
              (notifications st)) st)
  end.

(** GET /api/notifications/unread-count. *)
Definition unreadCount (u : option User) (st : Store) : reply nat :=
  match u with
  | None => Failed 401 "Authentication required"
  | Some usr => Sent 200 (length (filter (unreadOf usr) (notifications st)))
  end.

(** What a notification says apart from its [read] flag. *)
Definition content (n : Notification)
  : string * string * string * option string :=
  (recipient n, message n, type n, taskId n).

End Notifications.

(** ** index: the sockets of the connected users *)

Module Sockets.
Import Js Model.

(** A socket that passed the authentication middleware: its id and the
    id of [socket.data.user], when there is one. *)
Record Socket : Type := mkSocket {
  socketId : string;
  socketUser : option string
}.

(** [connectedUsers]: a [Map] from user id to socket, kept here as the
    socket's id. *)
Definition connectedUsers : Type := object string.

(** [io.on('connection', ...)]: [connectedUsers.set(userId, socket)]. *)
Definition onConnection (s : Socket) (m : connectedUsers) : connectedUsers :=
  match socketUser s with
  | Some userId => assign userId (socketId s) m
  | None => m
  end.

(** [socket.on('disconnect', ...)]: [connectedUsers.delete(userId)]. *)
Definition onDisconnect (s : Socket) (m : connectedUsers) : connectedUsers :=
  match socketUser s with
  | Some userId => without userId m
  | None => m
  end.

Section WithLibraries.
Context `{Libraries} `{Accounts}.

(** The socket [createNotification] emits the notification on, after it
    has saved it: [connectedUsers.get(userId)].  When saving fails
    nothing is emitted. *)
Definition emitsTo (userId : string) (m : connectedUsers) : option string :=
  if isValidObjectId userId then lookup m userId else None.

(** The [io.use] middleware, on [socket.handshake.auth.token]: the user
    it saves in [socket.data.user], or the message of the error it passes to
    [next]. *)
Definition authenticate (token : option string) (st : Store) : string + User :=
  if negb (truthy_string token) then inl "Authentication token required"
  else
    match token with
    | None => inl "Authentication token required"
    | Some t =>
        match verify t with
        | None => inl "Invalid token"
        | Some userId =>
            if isValidObjectId userId then
              match findUser userId st with
              | None => inl "User not found"
              | Some u => inr (Middleware.withoutPassword u)
              end
            else inl "Invalid token"
        end
    end.

End WithLibraries.

(** The status [authenticateToken] of middleware/auth sends with each of
    the three messages. *)
Definition statusOf (message : string) : Z :=
  if String.eqb message "Invalid token" then 403 else 401.

End Sockets.

(** ** routes/auth and POST /api/users: accounts

    The bodies are taken with string fields, as the forms of the frontend
    send them; an absent field is [undefined] and is validated as the empty
    string.  The schema of models/User, which is not among the sources, is
    taken to store name, e-mail and role as they are sent, and the password
    in its stored form. *)

Module Auth.
Import Js Model Validator Http.

(** What the account routes answer: the validation errors (400), a
    message, or the account, with a token from register and login. *)
Inductive outcome : Type :=
| Invalid (errors : list ValidationError)
| Refused (code : Z) (message : string)
| Granted (code : Z) (message : string) (token : option string)
          (id email name : string) (role : option string).

Definition status (o : outcome) : Z :=
  match o with
  | Invalid _ => 400
  | Refused c _ => c
  | Granted c _ _ _ _ _ _ => c
  end.

(** The string the validators see. *)
Definition field (b : object string) (k : string) : string :=
  match lookup b k with
  | Some v => v
  | None => ""
  end.

Definition check (ok : bool) (p m : string) : list ValidationError :=
  if ok then [] else [mkError p m].

Definition roles : list string := ["admin"; "manager"; "user"].

(** [User.findOne({ email })]. *)
Definition findByEmail (e : string) (st : Store) : option User :=
  find (fun u => String.eqb (email u) e) (users st).

Definition addUser (u : User) (st : Store) : Store :=
  with_users (users st ++ [u]) st.

Section WithLibraries.
Context `{Libraries} `{Accounts}.

Definition registerErrors (b : object string) : list ValidationError :=
  (check (isEmail (field b "email")) "email" "Please enter a valid email"
   ++ check (6 <=? String.length (field b "password"))%nat "password"
        "Password must be at least 6 characters long"
   ++ check (negb (String.eqb (field b "name") "")) "name" "Name is required"
   ++ match lookup b "role" with
      | Some r => check (str_mem r roles) "role" "Invalid role"
      | None => []
      end)%list.

(** POST /api/auth/register.  No middleware stands before it. *)
Definition register (b : object string) (st : Store) : outcome * Store :=
  let errors := registerErrors b in
  if negb (isEmpty errors) then (Invalid errors, st)
  else
    match lookup b "email", lookup b "password", lookup b "name" with
    | Some email, Some password, Some name =>
        match findByEmail email st with
        | Some _ => (Refused 400 "User already exists", st)
        | None =>
            let role :=
              match lookup b "role" with
              | Some r => if truthy_string (Some r) then r else "user"
              | None => "user"
              end in
            let user := mkUser (newObjectId st) name email
                               (hashPassword password) (Some role) in
            (Granted 201 "User registered successfully" (Some (sign (_id user)))
                     (_id user) (Model.email user) (Model.name user)
                     (Model.role user),
             addUser user st)
        end
    | _, _, _ => (Refused 500 "Server error", st)
    end.

Definition loginErrors (b : object string) : list ValidationError :=
  (check (isEmail (field b "email")) "email" "Please enter a valid email"
   ++ check (negb (String.eqb (field b "password") "")) "password"
        "Password is required")%list.

(** POST /api/auth/login. *)
Definition login (b : object string) (st : Store) : outcome :=
  let errors := loginErrors b in
  if negb (isEmpty errors) then Invalid errors
  else
    match lookup b "email", lookup b "password" with
    | Some email, Some password =>
        match findByEmail email st with
        | None => Refused 401 "Invalid credentials"
        | Some user =>
            if negb (comparePassword password (Model.password user)) then
              Refused 401 "Invalid credentials"
            else
              Granted 200 "Login successful" (Some (sign (_id user)))
                      (_id user) (Model.email user) (Model.name user)
                      (Model.role user)
        end
    | _, _ => Refused 500 "Server error"
    end.

Definition postUserErrors (b : object string) : list ValidationError :=
  (check (negb (String.eqb (field b "name") "")) "name" "Name is required"
   ++ check (isEmail (field b "email")) "email" "Valid email is required"
   ++ check (6 <=? String.length (field b "password"))%nat "password"
        "Password must be at least 6 characters"
   ++ check (str_mem (field b "role") roles) "role" "Invalid role")%list.

(** POST /api/users, behind [checkPermission('users:create')]. *)
Definition postUser (requester : option User) (b : object string) (st : Store)
  : outcome * Store :=
  match checkPermission "users:create" requester with
  | Some denied =>
      (Refused (code denied)
               (match json denied with
                | Message m => m
                | Failure m => m
                | _ => ""
                end), st)
  | None =>
      let errors := postUserErrors b in
      if negb (isEmpty errors) then (Invalid errors, st)
      else
        match lookup b "email", lookup b "password", lookup b "name",
              lookup b "role" with
        | Some email, Some password, Some name, Some role =>
            match findByEmail email st with
            | Some _ => (Refused 400 "Email already in use", st)
            | None =>
                let user := mkUser (newObjectId st) name email
                                   (hashPassword password) (Some role) in
                (Granted 201 "User created successfully" None
                         (_id user) (Model.email user) (Model.name user)
                         (Model.role user),
                 addUser user st)
            end
        | _, _, _, _ => (Refused 500 "Server error", st)
        end
  end.

End WithLibraries.

(** Every stored user has one of the three roles. *)
Definition rolesValid (st : Store) : Prop :=
  forall u, In u (users st) -> exists r, role u = Some r /\ Rbac.isRoleKey r.

End Auth.

(** ** Strings, as the JavaScript of index and of the frontend cuts them *)

Module Text.

(** [s.endsWith(suffix)]. *)
Fixpoint endsWith (suffix s : string) : bool :=
  String.eqb s suffix
  || match s with
     | EmptyString => false
     | String _ rest => endsWith suffix rest
     end.

(** The first [n] characters. *)
Fixpoint take (n : nat) (s : string) : string :=
  match n, s with
  | S n', String c rest => String c (take n' rest)
  | _, _ => EmptyString
  end.

(** [s.slice(0, -n)]. *)
Definition sliceEnd (n : nat) (s : string) : string :=
  take (String.length s - n) s.

(** [s.toLowerCase()] on the letters of ASCII. *)
Definition lowerChar (c : ascii) : ascii :=
  let n := nat_of_ascii c in
  if (65 <=? n)%nat && (n <=? 90)%nat then ascii_of_nat (n + 32) else c.

Fixpoint toLowerCase (s : string) : string :=
  match s with
  | EmptyString => EmptyString
  | String c rest => String (lowerChar c) (toLowerCase rest)
  end.

End Text.

(** ** index: the origins CORS lets in *)

Module Cors.
Import Js Text.

Definition allowedOrigins : list string :=
  [ "http://localhost:3000"; "https://taskmanagerpr.netlify.app" ].

(** The [origin] function of the CORS options, of express and of the
    socket server alike: [true] stands for [callback(null, true)], [false]
    for [callback(new Error('Not allowed by CORS'))]. *)
Definition originAllowed (origin : option string) : bool :=
  if negb (truthy_string origin) then true
  else
    match origin with
    | None => true
    | Some o =>
        let normalizedOrigin := if endsWith "/" o then sliceEnd 1 o else o in
        str_mem normalizedOrigin allowedOrigins || negb (truthy_string origin)
    end.

End Cors.

(** ** The route tables of the three routers *)

Module Routing.
Import Js Text.

Inductive method : Type := GET | POST | PUT | DELETE.

Definition method_eqb (a b : method) : bool :=
  match a, b with
  | GET, GET | POST, POST | PUT, PUT | DELETE, DELETE => true
  | _, _ => false
  end.

(** A segment of a route path: a literal, matched without regard to case
    (the routers are created with the default options), or a parameter,
    which takes any non-empty segment. *)
Inductive segment : Type :=
| Lit (s : string)
| Param (name : string).

Record route : Type := mkRoute {
  verb : method;
  pattern : list segment;
  handler : string
}.

Definition segmentMatches (p : segment) (s : string) : bool :=
  match p with
  | Lit l => String.eqb (toLowerCase l) (toLowerCase s)
  | Param _ => negb (String.eqb s "")
  end.

Fixpoint pathMatches (pattern : list segment) (path : list string) : bool :=
  match pattern, path with
  | [], [] => true
  | p :: pattern', s :: path' => segmentMatches p s && pathMatches pattern' path'
  | _, _ => false
  end.

(** The first route, in the order of registration, that takes the
    request; [None] when the router passes the request on. *)
Definition dispatch (routes : list route) (m : method) (path : list string)
  : option string :=
  option_map handler
    (find (fun r => method_eqb (verb r) m && pathMatches (pattern r) path) routes).

(** routes/tasks, routes/users and routes/notifications, in the order in
    which the routes are registered. *)
Definition tasksRouter : list route :=
  [ mkRoute POST [] "postTask";
    mkRoute GET [] "getTasks";
    mkRoute GET [Lit "stats"] "getStats";
    mkRoute GET [Param "id"] "getTask";
    mkRoute PUT [Param "id"] "putTask";
    mkRoute DELETE [Param "id"] "deleteTask" ].

Definition usersRouter : list route :=
  [ mkRoute GET [] "getUsers";
    mkRoute GET [Lit "profile"] "getProfile";
    mkRoute PUT [Lit "profile"] "putProfile";
    mkRoute PUT [Lit "password"] "putPassword";
    mkRoute PUT [Param "id"; Lit "role"] "putRole";
    mkRoute POST [] "postUser";
    mkRoute DELETE [Param "id"] "deleteUser" ].

Definition notificationsRouter : list route :=
  [ mkRoute GET [] "getNotifications";
    mkRoute PUT [Param "id"; Lit "read"] "markRead";
    mkRoute PUT [Lit "read-all"] "readAll";
    mkRoute GET [Lit "unread-count"] "unreadCount";
    mkRoute DELETE [Param "id"] "deleteNotification" ].

(** The requests the tasks page and the dashboard send to /api/tasks and
    the users page sends to /api/users, for a document id. *)
Definition tasksPageCalls (id : string) : list (method * list string) :=
  [ (GET, []); (GET, [id]); (PUT, [id]); (POST, []); (DELETE, [id]);
    (GET, ["stats"]) ].

Definition usersPageCalls (id : string) : list (method * list string) :=
  [ (GET, []); (PUT, [id]); (POST, []); (DELETE, [id]) ].

End Routing.

(** ** frontend: lib/auth, lib/api and lib/socket *)

Module Browser.
Import Js Text.

(** The auth state the pages keep: the token and the [user] object of the
    response, a JSON object with string fields. *)
Record AuthState : Type := mkAuthState {
  token : string;
  account : object string;
  isAuthenticated : bool
}.

(** What [JSON.stringify] wrote under a key of [localStorage]: the auth
    state, or the auth state under [state] (the old format). *)
Inductive document : Type :=
| State (s : AuthState)
| Wrapped (s : AuthState).

(** [localStorage] is shared by the tabs of the browser, [sessionStorage]
    belongs to one tab. *)
Record Storage : Type := mkStorage {
  localStorage : object document;
  sessionStorage : object string
}.

(** The same browser seen from another tab. *)
Definition inTab (session : object string) (s : Storage) : Storage :=
  mkStorage (localStorage s) session.

(** [generateSessionId()], from the clock and the random number. *)
Definition generateSessionId (now random : string) : string :=
  "session_" ++ now ++ "_" ++ random.

Definition sessionKey (sessionId : string) : string := "auth-" ++ sessionId.

(** [getOrCreateSessionId()], with the id [generateSessionId] would give. *)
Definition getOrCreateSessionId (fresh : string) (s : Storage) : string * Storage :=
  match lookup (sessionStorage s) "sessionId" with
  | Some sessionId =>
      if truthy_string (Some sessionId) then (sessionId, s)
      else (fresh, mkStorage (localStorage s)
                     (assign "sessionId" fresh (sessionStorage s)))
  | None => (fresh, mkStorage (localStorage s)
                      (assign "sessionId" fresh (sessionStorage s)))
  end.

(** [saveAuthData(token, user)]; the socket it connects is left out. *)
Definition saveAuthData (fresh token : string) (user : object string)
           (s : Storage) : Storage :=
  let '(sessionId, s) := getOrCreateSessionId fresh s in
  if negb (truthy_string (Some sessionId)) then s
  else
    let authState := mkAuthState token user true in
    let local := assign (sessionKey sessionId) (State authState) (localStorage s) in
    let local := assign "auth-storage" (Wrapped authState) local in
    mkStorage local (assign "currentPath" "/dashboard" (sessionStorage s)).

(** [getAuthData()]: what [JSON.parse] gives for the key of the session,
    else the [state] of the global key. *)
Definition getAuthData (s : Storage) : option document :=
  match lookup (sessionStorage s) "sessionId" with
  | Some sessionId =>
      if truthy_string (Some sessionId) then
        match lookup (localStorage s) (sessionKey sessionId) with
        | Some authData => Some authData
        | None =>
            match lookup (localStorage s) "auth-storage" with
            | Some (Wrapped state) => Some (State state)
            | Some (State _) => None
            | None => None
            end
        end
      else None
  | None => None
  end.

(** [getToken()], [getUser()] and [isAuthenticated()]: an object under
    [state] has none of the three members. *)
Definition getToken (s : Storage) : option string :=
  match getAuthData s with
  | Some (State a) => if truthy_string (Some (token a)) then Some (token a) else None
  | _ => None
  end.

Definition getUser (s : Storage) : option (object string) :=
  match getAuthData s with
  | Some (State a) => Some (account a)
  | _ => None
  end.

Definition authenticated (s : Storage) : bool :=
  match getAuthData s with
  | Some (State a) => isAuthenticated a
  | _ => false
  end.

(** [logout()]. *)
Definition logout (s : Storage) : Storage :=
  let sessionId := lookup (sessionStorage s) "sessionId" in
  let local :=
    match sessionId with
    | Some id => if truthy_string sessionId
                 then without (sessionKey id) (localStorage s)
                 else localStorage s
    | None => localStorage s
    end in
  let local := without "auth-storage" local in
  mkStorage local (without "currentPath" (without "sessionId" (sessionStorage s))).

(** lib/api: the [Authorization] header the request interceptor sets. *)
Definition authorizationHeader (s : Storage) : option string :=
  match getToken s with
  | Some t => Some ("Bearer " ++ t)
  | None => None
  end.

(** lib/api: the [baseURL] of the axios instance, on the value of
    NEXT_PUBLIC_API_URL. *)
Definition apiBaseUrl (env : option string) : string :=
  match env with
  | Some url => if truthy_string env then url else "http://localhost:5000/api"
  | None => "http://localhost:5000/api"
  end.

(** lib/socket: [getBaseUrl()], on the value of NEXT_PUBLIC_API_URL. *)
Definition getBaseUrl (env : option string) : string :=
  let apiUrl :=
    match env with
    | Some url => if truthy_string env then url else "http://localhost:5000/api"
    | None => "http://localhost:5000/api"
    end in
  if endsWith "/api" apiUrl then sliceEnd 4 apiUrl else apiUrl.

End Browser.

(** ** frontend: the pages *)

Module Pages.
Import Js Model Http Reply Browser.

(** The [user] object of a login or register response. *)
Definition userJson (id e n : string) (r : option string) : object string :=
  ([("id", id); ("email", e); ("name", n)]
   ++ match r with
      | Some r => [("role", r)]
      | None => []
      end)%list.

(** The login page, on the answer to POST /api/auth/login: a 2xx answer
    is saved with [saveAuthData] of lib/auth, any other makes axios throw. *)
Definition loginPage (fresh : string) (answer : Auth.outcome) (s : Storage)
  : Storage :=
  match answer with
  | Auth.Granted _ _ (Some t) id e n r => saveAuthData fresh t (userJson id e n r) s
  | _ => s
  end.

(** The register page has a [saveAuthData] of its own, which writes the
    global key only. *)
Definition registerPage (answer : Auth.outcome) (s : Storage) : Storage :=
  match answer with
  | Auth.Granted _ _ (Some t) id e n r =>
      mkStorage
        (assign "auth-storage" (Wrapped (mkAuthState t (userJson id e n r) true))
                (localStorage s))
        (sessionStorage s)
  | _ => s
  end.

(** The layout of the dashboard: what the role of the user opens. *)
Definition isAdmin (role : option string) : bool :=
  match role with Some r => String.eqb r "admin" | None => false end.
Definition isManager (role : option string) : bool :=
  match role with Some r => String.eqb r "manager" | None => false end.
Definition canAccessUsers (role : option string) : bool := isAdmin role.
Definition canAccessReports (role : option string) : bool :=
  isAdmin role || isManager role.
Definition canAccessAllTasks (role : option string) : bool :=
  isAdmin role || isManager role.

(** The tasks page asks GET /api/users for an admin or a manager. *)
Definition fetchesUsers (role : option string) : bool :=
  isAdmin role || isManager role.

(** [userData] of the tasks page. *)
Record UserData : Type := mkUserData {
  id : option string;
  name : option string;
  email : option string;
  role : option string
}.

(** The effect that loads [userData]: from [getUser()], reading [_id],
    else from the global key of [localStorage], taking [state.user] as it
    is. *)
Definition loadUserData (s : Storage) : option UserData :=
  match getUser s with
  | Some authUser =>
      Some (mkUserData (lookup authUser "_id") (lookup authUser "name")
                       (lookup authUser "email") (lookup authUser "role"))
  | None =>
      match lookup (localStorage s) "auth-storage" with
      | Some (Wrapped state) =>
          Some (mkUserData (lookup (account state) "id")
                           (lookup (account state) "name")
                           (lookup (account state) "email")
                           (lookup (account state) "role"))
      | _ => None
      end
  end.

(** An entry of [users] on the tasks page. *)
Record PageUser : Type := mkPageUser {
  userId : option string;
  userName : option string;
  userEmail : option string;
  userRole : option string
}.

(** The users query of the tasks page: an admin or a manager gets the
    answer of GET /api/users ([fetched]; the empty list when the request
    fails), anybody else the one entry built from [userData]; without
    [userData] the query is not enabled. *)
Definition pageUsers (fetched : list PageUser) (userData : option UserData)
  : list PageUser :=
  match userData with
  | Some u =>
      if fetchesUsers (role u) then fetched
      else [mkPageUser (id u) (name u) (email u) (role u)]
  | None => []
  end.

Section WithDom.
(** The text of the option of a user, as the DOM gives it for the
    children [{user.name} {user.role && `(${user.role})`}]. *)
Variable optionText : PageUser -> string.

(** The value of [<option value={user._id}>]: the attribute, or the text
    of the option when [user._id] is undefined and no attribute is
    written. *)
Definition optionValue (u : PageUser) : string :=
  match userId u with
  | Some v => v
  | None => optionText u
  end.

(** What the assignee select adds to the [FormData]: the value of the
    selected option.  The select is rendered, and the form can be
    submitted, only with a non-empty list of users. *)
Definition assigneeEntry (users : list PageUser) (selected : nat)
  : option string :=
  option_map optionValue (nth_error users selected).

End WithDom.

(** The query parameters of the listing. *)
Definition setIf (k v : string) (params : object string) : object string :=
  if truthy_string (Some v) then assign k v params else params.

Definition taskParams (searchTerm statusFilter priorityFilter assigneeFilter
                       sortBy sortOrder : string) : object string :=
  let params := [] in
  let params := setIf "search" searchTerm params in
  let params := setIf "status" statusFilter params in
  let params := setIf "priority" priorityFilter params in
  let params := setIf "assignedTo" assigneeFilter params in
  let params := assign "sortBy" sortBy params in
  assign "sortOrder" sortOrder params.

(** The task form: the entries of its [FormData] and the values of the
    checked [recurringDays] boxes. *)
Record TaskForm : Type := mkTaskForm {
  entries : object string;
  checkedDays : list string
}.

(** The form with the entry of its assignee select. *)
Definition withAssignee (v : option string) (form : TaskForm) : TaskForm :=
  mkTaskForm
    (match v with
     | Some x => assign "assignedTo" x (entries form)
     | None => without "assignedTo" (entries form)
     end)
    (checkedDays form).

(** [formData.get(k)] as JSON: a string, or [null]. *)
Definition text (v : option string) : jsval :=
  match v with
  | Some s => JScalar (SStr s)
  | None => JScalar SNull
  end.

(** A number as JSON: [NaN] is written [null]. *)
Definition number (n : option Z) : scalar :=
  match n with
  | Some z => SNum z
  | None => SNull
  end.

Section WithParseInt.
(** [parseInt(s)], without a radix; [None] for [NaN]. *)
Variable parseIntJs : string -> option Z.

Definition parsed (v : option string) : option Z :=
  match v with
  | Some s => parseIntJs s
  | None => None
  end.

(** [handleSubmit]: the body sent to POST /api/tasks ([editing] false) or
    PUT /api/tasks/:id ([editing] true).  Members that are [undefined] are
    left out, as [JSON.stringify] leaves them out. *)
Definition handleSubmit (form : TaskForm) (editing : bool)
           (userData : option UserData) : object jsval :=
  let get := lookup (entries form) in
  let taskData : object jsval :=
    [ ("title", text (get "title"));
      ("description", text (get "description"));
      ("dueDate", text (get "dueDate"));
      ("priority", text (get "priority"));
      ("status", if truthy_string (get "status") then text (get "status")
                 else JScalar (SStr "todo")) ] in
  let assignedToValue := get "assignedTo" in
  let taskData :=
    if truthy_string assignedToValue then
      assign "assignedTo" (text assignedToValue) taskData
    else if negb editing then
      match userData with
      | Some u =>
          match id u with
          | Some i => assign "assignedTo" (JScalar (SStr i)) taskData
          | None => taskData
          end
      | None => taskData
      end
    else taskData in
  let isRecurring :=
    match get "isRecurring" with
    | Some v => String.eqb v "on"
    | None => false
    end in
  let taskData := assign "isRecurring" (JScalar (SBool isRecurring)) taskData in
  if isRecurring then
    let recurringType := get "recurringType" in
    let taskData := assign "recurringType" (text recurringType) taskData in
    let taskData :=
      match recurringType with
      | Some kind =>
          if String.eqb kind "weekly" then
            let recurringDays := map (fun v => number (parseIntJs v))
                                     (checkedDays form) in
            assign "recurringDays"
                   (JArr (match recurringDays with
                          | [] => [SNum 0]
                          | _ => recurringDays
                          end)) taskData
          else if String.eqb kind "monthly" then
            assign "recurringDate"
                   (JScalar (number (parsed (get "recurringDate")))) taskData
          else if String.eqb kind "custom" then
            assign "recurringInterval"
                   (JScalar (number (parsed (get "recurringInterval")))) taskData
          else assign "recurringInterval" (JScalar (SNum 1)) taskData
      | None => assign "recurringInterval" (JScalar (SNum 1)) taskData
      end in
    let endDate := get "recurringEndDate" in
    if truthy_string endDate then
      assign "recurringEndDate" (text endDate) taskData
    else taskData
  else taskData.

End WithParseInt.

(** What a mutation of the tasks page ends in: the promise is rejected,
    with the status of the response when there is one, or resolved with the
    response. *)
Inductive settled : Type :=
| Rejected (status : option Z)
| Resolved (response : Response).

Section WithLibraries.
Context `{Libraries}.

(** The update mutation: the task is fetched with GET /api/tasks/:id, its
    [createdBy._id] is logged, and the update is sent with PUT.  Axios
    rejects on a status outside 2xx; reading [_id] of a [createdBy] that
    populated to [null] throws. *)
Definition updateTask (req : AuthRequest) (st : Store) : settled * Store :=
  match TaskView.getTask req st with
  | Failed c _ => (Rejected (Some c), st)
  | Sent c currentTask =>
      match creator currentTask with
      | None => (Rejected None, st)
      | Some _ =>
          let '(response, st') := Tasks.putTask req st in
          if (200 <=? code response)%Z && (code response <? 300)%Z
          then (Resolved response, st')
          else (Rejected (Some (code response)), st')
      end
  end.

End WithLibraries.

End Pages.

(** ** Vocabulary of the statements about the statistics *)

Module Measure.
Import Js Model.

(** The number of documents whose field [key] is [k]. *)
Definition count (key : Task -> string) (k : string) (ts : list Task) : nat :=
  length (filter (fun t => String.eqb (key t) k) ts).

(** One step of the grouping: the bucket of the document grows by one. *)
Definition bump (key : Task -> string) (acc : object nat) (t : Task) : object nat :=
  assign (key t) (S (match lookup acc (key t) with Some n => n | None => 0 end)) acc.

(** The sum of the counts of an object of counts. *)
Definition total (o : object nat) : nat :=
  fold_right (fun kv n => snd kv + n) 0 o.

(** The number of documents due in [[from, to)]. *)
Definition dueWithin (from to : Z) (ts : list Task) : nat :=
  length (filter (fun t => Z.leb from (dueDate t) && Z.ltb (dueDate t) to) ts).

End Measure.

(** ** Reference accounts

    A concrete token scheme and password hash, for the examples: a token
    is the user id behind a fixed prefix, the stored form of a password is
    the password behind a fixed prefix. *)

Module Fixture.
Import Js Model Http.

Definition tokenPrefix : string := "jwt.".
Definition hashPrefix : string := "bcrypt.".

Fixpoint stripPrefix (prefix s : string) : option string :=
  match prefix, s with
  | EmptyString, _ => Some s
  | String a prefix', String b s' =>
      if Ascii.eqb a b then stripPrefix prefix' s' else None
  | String _ _, EmptyString => None
  end.

Definition isEmail (s : string) : bool :=
  match Middleware.split "@" s with
  | [localPart; domain] =>
      negb (String.eqb localPart "") && negb (String.eqb domain "")
      && Middleware.noSpace s
  | _ => false
  end.

Definition accounts : Accounts :=
  Build_Accounts
    isEmail
    (stripPrefix tokenPrefix)
    (fun userId => tokenPrefix ++ userId)
    (fun password => hashPrefix ++ password)
    (fun candidate stored => String.eqb stored (hashPrefix ++ candidate))
    eq_refl.

(** A store with notifications: two for Bob, one of them read, and one for
    Dave. *)
Definition inbox : Store :=
  with_notifications
    [ mkNotification Sample.bobId "You have been assigned a new task: Audit"
        "task_assigned" false None;
      mkNotification Sample.daveId "Task updated: Report" "task_updated" false None;
      mkNotification Sample.bobId "Task deleted: Notes" "system" true None ]
    Sample.store.

(** Two tabs of Bob's browser. *)
Definition tab1 : Sockets.Socket := Sockets.mkSocket "socket-1" (Some Sample.bobId).
Definition tab2 : Sockets.Socket := Sockets.mkSocket "socket-2" (Some Sample.bobId).

(** A registration that asks for the admin role. *)
Definition eveBody : object string :=
  [ ("email", "eve@example.com"); ("password", "secret1");
    ("name", "Eve"); ("role", "admin") ].

(** The store after Eve registered. *)
Definition withEve : Store :=
  snd (@Auth.register Reference.libraries accounts eveBody Sample.store).

(** The fields of a task form, apart from the assignee select. *)
Definition bareForm : Pages.TaskForm :=
  Pages.mkTaskForm
    [ ("title", "Notes"); ("description", "Write the notes");
      ("dueDate", "2025-01-10"); ("priority", "low") ]
    [].

(** The text of an option, for names and roles without white space to
    trim: ['Bob (user)']. *)
Definition optionText (u : Pages.PageUser) : string :=
  match Pages.userName u, Pages.userRole u with
  | Some n, Some r => n ++ " (" ++ r ++ ")"
  | Some n, None => n
  | None, Some r => "(" ++ r ++ ")"
  | None, None => ""
  end.

(** A recurring task with no type chosen. *)
Definition untypedForm : Pages.TaskForm :=
  Pages.mkTaskForm
    [ ("title", "Notes"); ("description", "Write the notes");
      ("dueDate", "2025-01-10"); ("priority", "low");
      ("assignedTo", Sample.bobId); ("isRecurring", "on") ]
    [].

(** The store after Dave's account was deleted; Dave created the audit. *)
Definition withoutDave : Store := Model.deleteUser Sample.daveId Sample.store.

(** Bob's browser after he logged in. *)
Definition bobSession : Browser.Storage :=
  Browser.saveAuthData "session_1_a" "jwt.b00000000000000000000002"
    (Pages.userJson Sample.bobId "bob@example.org" "Bob" (Some "user"))
    (Browser.mkStorage [] []).

End Fixture.

(** * Properties *)

(** ** Objects *)

Module ObjectFacts.
Import Js.

Lemma str_mem_In (s : string) (l : list string) :
  str_mem s l = true <-> In s l.
Proof.
  unfold str_mem. rewrite existsb_exists. split.
  - intros [y [Hy He]]. apply String.eqb_eq in He. now subst.
  - intros Hin. exists s. split; [assumption | apply String.eqb_refl].
Qed.

Lemma lookup_without_same {A} (k : string) (o : object A) :
  lookup (without k o) k = None.
Proof.
  induction o as [| [k' v] rest IH]; cbn; [reflexivity |].
  destruct (String.eqb_spec k' k) as [-> | Hne]; cbn; [exact IH |].
  destruct (String.eqb_spec k k') as [-> | _]; [contradiction | exact IH].
Qed.

Lemma lookup_without_other {A} (k k' : string) (o : object A) :
  k' <> k -> lookup (without k o) k' = lookup o k'.
Proof.
  intros Hne. induction o as [| [k0 v] rest IH]; cbn; [reflexivity |].
  destruct (String.eqb_spec k0 k) as [-> | Hk]; cbn.
  - destruct (String.eqb_spec k' k) as [-> | _]; [contradiction | exact IH].
  - destruct (String.eqb k' k0); [reflexivity | exact IH].
Qed.

Lemma lookup_assign_other {A} (k k' : string) (v : A) (o : object A) :
  k' <> k -> lookup (assign k v o) k' = lookup o k'.
Proof.
  intros Hne. apply String.eqb_neq in Hne.
  induction o as [| [k0 v0] rest IH]; cbn.
  - now rewrite Hne.
  - destruct (String.eqb k k0) eqn:He; cbn.
    + apply String.eqb_eq in He. subst k0. now rewrite Hne.
    + destruct (String.eqb k' k0); [reflexivity | exact IH].
Qed.

Lemma assign_cons_other {A} (k k0 : string) (v v0 : A) (o : object A) :
  k <> k0 -> assign k v ((k0, v0) :: o) = (k0, v0) :: assign k v o.
Proof.
  intros Hne. apply String.eqb_neq in Hne. cbn. now rewrite Hne.
Qed.

(** A second assignment to a key replaces the first. *)
Lemma assign_assign {A} (k : string) (v w : A) (o : object A) :
  assign k v (assign k w o) = assign k v o.
Proof.
  induction o as [| [k' v'] rest IH]; cbn.
  - now rewrite String.eqb_refl.
  - destruct (String.eqb k k') eqn:He; cbn.
    + now rewrite String.eqb_refl.
    + now rewrite He, IH.
Qed.

End ObjectFacts.

(** ** The permission table *)

Module RbacFacts.
Import Js Model Rbac ObjectFacts.

(** The own keys of [rolePermissions] are exactly the three roles. *)
Lemma lookup_rolePermissions (r : string) :
  (exists perms, lookup rolePermissions r = Some perms) <-> isRoleKey r.
Proof.
  unfold isRoleKey, rolePermissions. cbn [lookup]. split.
  - intros [perms Hl].
    destruct (String.eqb_spec r "admin") as [-> | _]; [now left |].
    destruct (String.eqb_spec r "manager") as [-> | _]; [now right; left |].
    destruct (String.eqb_spec r "user") as [-> | _]; [now right; right |].
    discriminate.
  - intros [-> | [-> | ->]]; cbn; eexists; reflexivity.
Qed.

(** [hasPermission] on a user whose role is a non-empty string. *)
Lemma hasPermission_role (usr : User) (r p : string) :
  role usr = Some r -> r <> "" ->
  hasPermission (Some usr) p =
  match lookup rolePermissions r with
  | Some perms => Return (str_mem p perms)
  | None =>
      if str_mem r objectPrototypeKeys
      then Throw (TypeError "permissions.includes is not a function")
      else Return false
  end.
Proof.
  intros Hr Hne. unfold hasPermission, truthy_string. rewrite Hr.
  apply String.eqb_neq in Hne. rewrite Hne.
  unfold get, optional_includes, includes.
  destruct (lookup rolePermissions r) as [perms |].
  - now rewrite orb_false_r.
  - now destruct (str_mem r objectPrototypeKeys).
Qed.

Lemma hasPermission_empty_role (usr : User) (p : string) :
  role usr = Some "" -> hasPermission (Some usr) p = Return false.
Proof.
  intros Hr. unfold hasPermission, truthy_string. now rewrite Hr.
Qed.

Lemma hasPermission_no_role (usr : User) (p : string) :
  role usr = None -> hasPermission (Some usr) p = Return false.
Proof.
  intros Hr. unfold hasPermission, truthy_string. now rewrite Hr.
Qed.

(** [hasPermission] returns [true] exactly on the elements of the table:
    the first half of C1. *)
Lemma hasPermission_true_iff (u : option User) (p : string) :
  hasPermission u p = Return true
  <-> exists usr r, u = Some usr /\ role usr = Some r /\ inTable r p.
Proof.
  unfold inTable. split.
  - destruct u as [usr |]; [| discriminate].
    destruct (role usr) as [r |] eqn:Hr.
    + destruct (String.eqb_spec r "") as [-> | Hne].
      * rewrite (hasPermission_empty_role usr p Hr). discriminate.
      * rewrite (hasPermission_role usr r p Hr Hne).
        destruct (lookup rolePermissions r) as [perms |] eqn:Hl.
        -- intros Hret. exists usr, r. repeat split; try assumption.
           exists perms. split; [exact Hl |].
           apply str_mem_In. now injection Hret.
        -- destruct (str_mem r objectPrototypeKeys); discriminate.
    + rewrite (hasPermission_no_role usr p Hr). discriminate.
  - intros (usr & r & -> & Hr & perms & Hl & Hin).
    destruct (String.eqb_spec r "") as [-> | Hne]; [discriminate Hl |].
    rewrite (hasPermission_role usr r p Hr Hne), Hl.
    apply str_mem_In in Hin. now rewrite Hin.
Qed.

(** An absent user, an absent role, and a role that is neither a key of
    the table nor a name inherited from [Object.prototype] give [false]. *)
Lemma hasPermission_false (u : option User) (p : string) :
  (u = None
   \/ (exists usr, u = Some usr /\ role usr = None)
   \/ (exists usr r, u = Some usr /\ role usr = Some r
                     /\ ~ isRoleKey r /\ ~ In r objectPrototypeKeys)) ->
  hasPermission u p = Return false.
Proof.
  intros [-> | [(usr & -> & Hr) | (usr & r & -> & Hr & Hkey & Hproto)]].
  - reflexivity.
  - now apply hasPermission_no_role.
  - destruct (String.eqb_spec r "") as [-> | Hne];
      [now apply hasPermission_empty_role |].
    rewrite (hasPermission_role usr r p Hr Hne).
    destruct (lookup rolePermissions r) as [perms |] eqn:Hl.
    + exfalso. apply Hkey. apply lookup_rolePermissions. now exists perms.
    + destruct (str_mem r objectPrototypeKeys) eqn:Hm; [| reflexivity].
      apply str_mem_In in Hm. contradiction.
Qed.

(** C1, at the input on which the code leaves it: ["constructor"] is not one
    of the keys ['admin'], ['manager'], ['user'], yet [hasPermission] does
    not return [false] for a user with that role: reading
    [rolePermissions["constructor"]] finds the inherited member, which has no
    [includes], and the call throws a [TypeError]. *)
Theorem hasPermission_inherited_role_throws :
  ~ isRoleKey "constructor"
  /\ hasPermission (Some (mkUser "u1" "Ann" "ann@example.org" "secret"
                                 (Some "constructor"))) "tasks:read"
     = Throw (TypeError "permissions.includes is not a function")
  /\ hasPermission (Some (mkUser "u1" "Ann" "ann@example.org" "secret"
                                 (Some "constructor"))) "tasks:read"
     <> Return false.
Proof.
  split; [| split].
  - intros [Hc | [Hc | Hc]]; discriminate Hc.
  - reflexivity.
  - discriminate.
Qed.

(** C8: permission checks depend on the role alone.  Two users with equal
    [role] fields get the same answer for every permission, whatever their
    other attributes, and an evaluation has one result only. *)
Theorem hasPermission_role_only (u1 u2 : User) (p : string) :
  role u1 = role u2 ->
  hasPermission (Some u1) p = hasPermission (Some u2) p
  /\ (forall r r', hasPermission (Some u1) p = r ->
                   hasPermission (Some u1) p = r' -> r = r').
Proof.
  intros Hrole. split.
  - unfold hasPermission. now rewrite Hrole.
  - intros r r' <- <-. reflexivity.
Qed.

Lemma hasPermission_role_only_witness :
  role (mkUser "u1" "Ann" "ann@example.org" "secret" (Some "manager"))
  = role (mkUser "u2" "Bob" "bob@example.org" "hunter2" (Some "manager"))
  /\ hasPermission (Some (mkUser "u1" "Ann" "ann@example.org" "secret"
                                 (Some "manager"))) "users:read"
     = hasPermission (Some (mkUser "u2" "Bob" "bob@example.org" "hunter2"
                                   (Some "manager"))) "users:read".
Proof.
  split; [reflexivity |].
  exact (proj1 (hasPermission_role_only
                  (mkUser "u1" "Ann" "ann@example.org" "secret" (Some "manager"))
                  (mkUser "u2" "Bob" "bob@example.org" "hunter2" (Some "manager"))
                  "users:read" eq_refl)).
Defined.

End RbacFacts.


(** ** The task routes *)

Module TaskFacts.
Import Js Model Validator Http Tasks ObjectFacts.

Section WithLibraries.
Context `{Libraries}.

Lemma hasRole_false (u : User) (r : string) :
  role u <> Some r -> hasRole u r = false.
Proof.
  unfold hasRole. destruct (role u) as [r' |]; [| reflexivity].
  intros Hne. apply String.eqb_neq. congruence.
Qed.

Lemma hasRole_true (u : User) (r : string) :
  hasRole u r = true <-> role u = Some r.
Proof.
  unfold hasRole. destruct (role u) as [r' |].
  - rewrite String.eqb_eq. split; congruence.
  - split; discriminate.
Qed.

Lemma canSeeAllTasks_false (u : User) :
  role u <> Some "admin" -> role u <> Some "manager" ->
  canSeeAllTasks u = false.
Proof.
  intros Ha Hm. unfold canSeeAllTasks.
  now rewrite (hasRole_false u "admin" Ha), (hasRole_false u "manager" Hm).
Qed.

Lemma assign_assignIfSet (k : string) (e : entry) (p : option string)
      (mk : string -> entry) (q : object entry) :
  assign k e (assignIfSet k p mk q) = assign k e q.
Proof.
  unfold assignIfSet. destruct p as [v |]; [| reflexivity].
  destruct (truthy_string (Some v)); [apply assign_assign | reflexivity].
Qed.

(** For a regular user the query does not depend on [search]. *)
Lemma listQuery_without_search (u : User) (params : object string) :
  canSeeAllTasks u = false ->
  listQuery u params = listQuery u (without "search" params).
Proof.
  intros Hsee. unfold listQuery, filterQuery. rewrite Hsee. cbn [negb].
  rewrite !assign_assignIfSet.
  now rewrite !(lookup_without_other "search") by discriminate.
Qed.

(** *** What a query selects *)

Lemma lookup_assignIfSet_other (k k' : string) (p : option string)
      (mk : string -> entry) (q : object entry) :
  k' <> k -> lookup (assignIfSet k p mk q) k' = lookup q k'.
Proof.
  intros Hne. unfold assignIfSet. destruct p as [v |]; [| reflexivity].
  destruct (truthy_string (Some v)); [| reflexivity].
  now apply lookup_assign_other.
Qed.

Lemma matches_assign_fresh (q : object entry) (k : string) (e : entry) (t : Task) :
  lookup q k = None ->
  matches (assign k e q) t = matches q t && holds t (k, e).
Proof.
  unfold matches. induction q as [| [k' e'] rest IH]; cbn [lookup assign forallb].
  - intros _. now rewrite andb_true_r.
  - destruct (String.eqb k k'); [discriminate |].
    intros Hl. cbn [forallb]. rewrite (IH Hl). now rewrite andb_assoc.
Qed.

Lemma matches_assignIfSet_fresh (q : object entry) (k : string)
      (p : option string) (mk : string -> entry) (t : Task) :
  lookup q k = None ->
  matches (assignIfSet k p mk q) t = matches q t && asks t k p mk.
Proof.
  intros Hl. unfold assignIfSet, asks. destruct p as [v |].
  - destruct (truthy_string (Some v)).
    + now apply matches_assign_fresh.
    + now rewrite andb_true_r.
  - now rewrite andb_true_r.
Qed.

Lemma asks_equals_string (t : Task) (k : string) (p : option string)
      (field : string) :
  fieldOf t k = BString field ->
  asks t k p equals = true
  <-> (forall v, p = Some v -> v <> "" -> field = v).
Proof.
  intros Hf. unfold asks, truthy_string, equals, holds. cbn [fst snd sat].
  rewrite Hf. cbn [bson_eqb]. destruct p as [v |].
  - destruct (String.eqb_spec v "") as [-> | Hne]; cbn [negb].
    + split; [| reflexivity]. intros _ v [= <-] Hne. contradiction.
    + rewrite String.eqb_eq. split.
      * intros -> w [= <-] _. reflexivity.
      * intros Hall. now apply Hall.
  - split; [| reflexivity]. intros _ v Hv. discriminate.
Qed.

Lemma asks_recurringType (t : Task) (p : option string) :
  asks t "recurringType" p equals = true
  <-> (forall v, p = Some v -> v <> "" -> recurringType t = Some v).
Proof.
  unfold asks, truthy_string, equals, holds. cbn [fst snd sat].
  change (fieldOf t "recurringType")
    with (match recurringType t with Some s => BString s | None => BMissing end).
  destruct p as [v |].
  - destruct (String.eqb_spec v "") as [-> | Hne]; cbn [negb].
    + split; [| reflexivity]. intros _ v [= <-] Hne. contradiction.
    + destruct (recurringType t) as [ty |]; cbn [bson_eqb].
      * rewrite String.eqb_eq. split.
        -- intros -> w [= <-] _. reflexivity.
        -- intros Hall. specialize (Hall v eq_refl Hne). congruence.
      * split; [discriminate |]. intros Hall.
        specialize (Hall v eq_refl Hne). discriminate.
  - split; [| reflexivity]. intros _ v Hv. discriminate.
Qed.

Lemma lookup_filterQuery_other (params : object string) (k : string) :
  k <> "status" -> k <> "priority" -> k <> "isRecurring" ->
  k <> "recurringType" ->
  lookup (filterQuery params) k = None.
Proof.
  intros Hs Hp Hi Hr. unfold filterQuery.
  rewrite lookup_assignIfSet_other by assumption.
  destruct (lookup params "isRecurring") as [v |].
  - rewrite lookup_assign_other by assumption.
    now rewrite !lookup_assignIfSet_other by assumption.
  - now rewrite !lookup_assignIfSet_other by assumption.
Qed.

(** The filters select the documents that pass them. *)
Lemma matches_filterQuery (params : object string) (t : Task) :
  matches (filterQuery params) t = true <-> passesFilters params t.
Proof.
  unfold filterQuery, passesFilters.
  set (q1 := assignIfSet "status" (lookup params "status") equals []).
  set (q2 := assignIfSet "priority" (lookup params "priority") equals q1).
  assert (H1 : forall k, k <> "status" -> lookup q1 k = None).
  { intros k Hk. unfold q1. now rewrite lookup_assignIfSet_other. }
  assert (H2 : forall k, k <> "status" -> k <> "priority" -> lookup q2 k = None).
  { intros k Hk Hk'. unfold q2. rewrite lookup_assignIfSet_other by assumption.
    now apply H1. }
  assert (M2 : matches q2 t
               = asks t "status" (lookup params "status") equals
                 && asks t "priority" (lookup params "priority") equals).
  { unfold q2. rewrite matches_assignIfSet_fresh by (apply H1; discriminate).
    unfold q1. now rewrite matches_assignIfSet_fresh by reflexivity. }
  rewrite <- (asks_equals_string t "status" _ (status t) eq_refl).
  rewrite <- (asks_equals_string t "priority" _ (priority t) eq_refl).
  rewrite <- asks_recurringType.
  destruct (lookup params "isRecurring") as [v |].
  - rewrite matches_assignIfSet_fresh
      by (rewrite lookup_assign_other by discriminate; apply H2; discriminate).
    rewrite matches_assign_fresh by (apply H2; discriminate).
    rewrite M2, !andb_true_iff.
    unfold holds at 1. cbn [fst snd sat].
    change (fieldOf t "isRecurring") with (BBool (isRecurring t)).
    cbn [bson_eqb]. rewrite Bool.eqb_true_iff. split.
    + intros [[[Hs Hp] Hi] Hr]. repeat split; try assumption.
      intros w [= <-]. exact Hi.
    + intros (Hs & Hp & Hi & Hr). repeat split; try assumption.
      now apply Hi.
  - rewrite matches_assignIfSet_fresh by (apply H2; discriminate).
    rewrite M2, !andb_true_iff. split.
    + intros [[Hs Hp] Hr]. repeat split; try assumption.
      intros w Hw. discriminate.
    + intros (Hs & Hp & _ & Hr). now repeat split.
Qed.

Lemma ownsb_owns (u : User) (t : Task) : ownsb u t = true <-> owns u t.
Proof.
  unfold ownsb, owns. now rewrite orb_true_iff, !String.eqb_eq.
Qed.

Lemma holds_ownTasks (u : User) (t : Task) :
  holds t ("$or", ownTasks u) = ownsb u t.
Proof.
  unfold holds, ownTasks, ownsb. cbn [fst snd existsb sat].
  change (fieldOf t "assignedTo") with (BString (assignedTo t)).
  change (fieldOf t "createdBy") with (BString (createdBy t)).
  cbn [bson_eqb]. now rewrite orb_false_r.
Qed.

(** For a regular user the query selects the own tasks that pass the
    filters. *)
Lemma matches_listQuery_regular (u : User) (params : object string) (t : Task) :
  canSeeAllTasks u = false ->
  matches (listQuery u params) t = matches (filterQuery params) t && ownsb u t.
Proof.
  intros Hsee. unfold listQuery. rewrite Hsee. cbn [negb].
  rewrite assign_assignIfSet.
  rewrite matches_assign_fresh
    by (apply lookup_filterQuery_other; discriminate).
  now rewrite holds_ownTasks.
Qed.

Lemma asks_search (t : Task) (p : option string) :
  asks t "$or" p searchClause = true
  <-> (forall v, p = Some v -> v <> "" ->
                 regexTest v (title t) = true \/ regexTest v (description t) = true).
Proof.
  unfold asks, truthy_string, searchClause, holds. cbn [fst snd existsb sat].
  change (fieldOf t "title") with (BString (title t)).
  change (fieldOf t "description") with (BString (description t)).
  destruct p as [v |].
  - destruct (String.eqb_spec v "") as [-> | Hne]; cbn [negb].
    + split; [| reflexivity]. intros _ v [= <-] Hne. contradiction.
    + rewrite orb_false_r, orb_true_iff. split.
      * intros Hor w [= <-] _. exact Hor.
      * intros Hall. now apply Hall.
  - split; [| reflexivity]. intros _ v Hv. discriminate.
Qed.

(** For an admin or a manager the query selects the tasks that pass the
    parameters of the request, whoever the caller is. *)
Lemma matches_listQuery_wide (u : User) (params : object string) (t : Task) :
  canSeeAllTasks u = true ->
  matches (listQuery u params) t = true
  <-> passesFilters params t /\ passesWideFilters params t.
Proof.
  intros Hsee. unfold listQuery, passesWideFilters. rewrite Hsee. cbn [negb].
  rewrite matches_assignIfSet_fresh
    by (rewrite !lookup_assignIfSet_other by discriminate;
        apply lookup_filterQuery_other; discriminate).
  rewrite matches_assignIfSet_fresh
    by (rewrite !lookup_assignIfSet_other by discriminate;
        apply lookup_filterQuery_other; discriminate).
  rewrite matches_assignIfSet_fresh
    by (apply lookup_filterQuery_other; discriminate).
  rewrite !andb_true_iff, matches_filterQuery, asks_search.
  rewrite (asks_equals_string t "assignedTo" _ (assignedTo t) eq_refl).
  rewrite (asks_equals_string t "createdBy" _ (createdBy t) eq_refl).
  tauto.
Qed.

Lemma findTasks_nil (st : Store) : findTasks [] st = tasks st.
Proof.
  unfold findTasks. induction (tasks st) as [| t rest IH]; cbn; [reflexivity |].
  now rewrite IH.
Qed.

End WithLibraries.

(** C7: for a caller whose role is neither ['admin'] nor ['manager'], GET
    /api/tasks ignores [search]: the role-visibility [$or] overwrites the
    [$or] built from it, and the response is the response to the same
    request without [search]. *)
Theorem search_ignored_for_regular_users `{Libraries}
        (u : User) (id : string) (params : object string)
        (b : object jsval) (st : Store) :
  role u <> Some "admin" -> role u <> Some "manager" ->
  getTasks (mkRequest (Some u) id params b) st
  = getTasks (mkRequest (Some u) id (without "search" params) b) st.
Proof.
  intros Ha Hm.
  pose proof (canSeeAllTasks_false u Ha Hm) as Hsee.
  unfold getTasks, listed. cbn [user query].
  rewrite <- (listQuery_without_search u params Hsee).
  rewrite !(lookup_without_other "search") by discriminate.
  reflexivity.
Qed.

Lemma search_ignored_for_regular_users_witness :
  role Sample.bob <> Some "admin" /\ role Sample.bob <> Some "manager"
  /\ @getTasks Reference.libraries
       (mkRequest (Some Sample.bob) "" [("search", "audit"); ("status", "todo")] [])
       Sample.store
     = @getTasks Reference.libraries
         (mkRequest (Some Sample.bob) ""
            (without "search" [("search", "audit"); ("status", "todo")]) [])
         Sample.store.
Proof.
  split; [discriminate |]. split; [discriminate |].
  apply (@search_ignored_for_regular_users Reference.libraries Sample.bob ""
           [("search", "audit"); ("status", "todo")] [] Sample.store);
    discriminate.
Defined.

Lemma filter_twice {A} (f g : A -> bool) (l : list A) :
  filter f (filter g l) = filter (fun x => g x && f x) l.
Proof.
  induction l as [| x rest IH]; cbn; [reflexivity |].
  destruct (g x); cbn; [destruct (f x) |]; now rewrite IH.
Qed.

(** A query that starts with the own-tasks clause selects from the own
    tasks. *)
Lemma findTasks_own_first `{Libraries} (u : User) (q : object entry) (st : Store) :
  findTasks (("$or", ownTasks u) :: q) st = findTasks q (ownStore u st).
Proof.
  unfold findTasks, ownStore. cbn [tasks with_tasks].
  rewrite filter_twice. apply filter_ext. intros t.
  unfold matches. cbn [forallb]. now rewrite holds_ownTasks.
Qed.

(** The statistics of a regular user are the statistics of the store cut
    down to the user's own tasks. *)
Lemma statsOf_own `{Libraries} (u : User) (now : Z) (st : Store) :
  statsOf [("$or", ownTasks u)] now st = statsOf [] now (ownStore u st).
Proof.
  unfold statsOf, groupCounts, countDocuments.
  rewrite !(assign_cons_other _ "$or") by discriminate.
  now rewrite !findTasks_own_first.
Qed.

(** Without a [limit], what GET /api/tasks returns is the selection of the
    query, sorted. *)
Lemma getTasks_returns_listed `{Libraries} (u : User) (id : string)
      (params : object string) (b : object jsval) (st : Store) :
  castsQuery (listQuery u params) = true ->
  lookup params "limit" = None ->
  exists field order,
    returned (getTasks (mkRequest (Some u) id params b) st)
    = sortDocs field order (listed u params st).
Proof.
  intros Hcast Hlimit. unfold getTasks. cbn [user query].
  rewrite Hcast, Hlimit. cbn [negb]. unfold returned. cbn [json].
  do 2 eexists. rewrite map_map. cbn [populate doc]. apply map_id.
Qed.

(** C2, as the code has it: listing and statistics are role-scoped.  For an
    admin or a manager the listing selects every task that passes the
    parameters of the request (all of them when there are none), and the
    statistics cover every task.  For every other role the listing selects
    exactly the caller's own tasks that pass the caller's [status],
    [priority], [isRecurring] and [recurringType] filters, and the
    statistics are those of exactly the caller's own tasks. *)
Theorem listing_and_stats_role_scoped `{Libraries}
        (u : User) (params : object string) (now : Z) (st : Store) :
  (role u = Some "admin" \/ role u = Some "manager" ->
     listed u [] st = tasks st
     /\ (forall t, In t (listed u params st)
                   <-> In t (tasks st) /\ passesFilters params t
                       /\ passesWideFilters params t)
     /\ findTasks (statsQuery u) st = tasks st)
  /\ (role u <> Some "admin" -> role u <> Some "manager" ->
      (forall t, In t (listed u params st)
                 <-> In t (tasks st) /\ owns u t /\ passesFilters params t)
      /\ (forall t, In t (findTasks (statsQuery u) st)
                    <-> In t (tasks st) /\ owns u t)
      /\ statsOf (statsQuery u) now st = statsOf [] now (ownStore u st)).
Proof.
  split.
  - intros Hrole.
    assert (Hsee : canSeeAllTasks u = true).
    { destruct Hrole as [Hr | Hr]; unfold canSeeAllTasks;
        apply hasRole_true in Hr; rewrite Hr;
        [reflexivity | apply orb_true_r]. }
    split; [| split].
    + unfold listed, listQuery. rewrite Hsee. apply findTasks_nil.
    + intros t. unfold listed, findTasks. rewrite filter_In.
      now rewrite (matches_listQuery_wide u params t Hsee).
    + unfold statsQuery. unfold canSeeAllTasks in Hsee.
      destruct (hasRole u "admin"), (hasRole u "manager");
        try discriminate Hsee; apply findTasks_nil.
  - intros Ha Hm. pose proof (canSeeAllTasks_false u Ha Hm) as Hsee.
    assert (Hq : statsQuery u = [("$or", ownTasks u)]).
    { unfold statsQuery.
      now rewrite (hasRole_false u "admin" Ha), (hasRole_false u "manager" Hm). }
    split; [| split].
    + intros t. unfold listed, findTasks. rewrite filter_In.
      rewrite (matches_listQuery_regular u params t Hsee), andb_true_iff.
      rewrite matches_filterQuery, ownsb_owns. tauto.
    + intros t. rewrite Hq, findTasks_own_first, findTasks_nil.
      unfold ownStore. cbn [tasks with_tasks].
      rewrite filter_In, ownsb_owns. tauto.
    + rewrite Hq. apply statsOf_own.
Qed.

Lemma listing_and_stats_role_scoped_witness :
  (role Sample.alice = Some "admin" \/ role Sample.alice = Some "manager")
  /\ @listed Reference.libraries Sample.alice [] Sample.store = tasks Sample.store
  /\ role Sample.bob <> Some "admin" /\ role Sample.bob <> Some "manager"
  /\ (In Sample.report
         (@listed Reference.libraries Sample.bob [("status", "todo")] Sample.store)
      <-> In Sample.report (tasks Sample.store) /\ owns Sample.bob Sample.report
          /\ passesFilters [("status", "todo")] Sample.report)
  /\ (In Sample.audit
         (@findTasks Reference.libraries (statsQuery Sample.bob) Sample.store)
      <-> In Sample.audit (tasks Sample.store) /\ owns Sample.bob Sample.audit).
Proof.
  split; [left; reflexivity |]. split.
  - apply (proj1 (@listing_and_stats_role_scoped Reference.libraries
                    Sample.alice [] 0%Z Sample.store)).
    left; reflexivity.
  - split; [discriminate |]. split; [discriminate |]. split.
    + apply (proj2 (@listing_and_stats_role_scoped Reference.libraries
                      Sample.bob [("status", "todo")] 0%Z Sample.store));
        discriminate.
    + apply (proj2 (@listing_and_stats_role_scoped Reference.libraries
                      Sample.bob [] 0%Z Sample.store));
        discriminate.
Defined.

(** C2 as it was stated fails: Bob, a regular user, lists his tasks with
    [status=completed]; his report is a todo, so the listing does not
    contain it although it is assigned to him. *)
Lemma listing_not_exactly_own_tasks :
  ~ (forall t,
        In t (returned (@getTasks Reference.libraries
                          (Sample.request Sample.bob "" [("status", "completed")] [])
                          Sample.store))
        <-> In t (tasks Sample.store) /\ owns Sample.bob t).
Proof.
  intros Hclaim.
  assert (Hret : returned (@getTasks Reference.libraries
                             (Sample.request Sample.bob "" [("status", "completed")] [])
                             Sample.store) = []) by (vm_compute; reflexivity).
  rewrite Hret in Hclaim.
  apply (proj2 (Hclaim Sample.report)).
  split; [left; reflexivity | left; reflexivity].
Qed.

(** C6: DELETE /api/tasks/:id succeeds only for the creator of the task or
    an admin.  Every other requester, a manager who did not create the
    task included (whose role does hold ['tasks:delete-all']), gets 403
    and the store is left as it was; the creator and the admin get 200
    and the task is gone. *)
Theorem delete_only_by_creator_or_admin `{Libraries}
        (req : AuthRequest) (st : Store) (task : Task) (u : User) :
  isValidObjectId (params_id req) = true ->
  findTask (params_id req) st = Some task ->
  user req = Some u ->
  (code (fst (Tasks.deleteTask req st)) = 200%Z ->
     createdBy task = _id u \/ role u = Some "admin")
  /\ (createdBy task <> _id u -> role u <> Some "admin" ->
      Tasks.deleteTask req st
      = (mkResponse 403 (Message "You do not have permission to delete this task"),
         st)
      /\ findTask (params_id req) (snd (Tasks.deleteTask req st)) = Some task)
  /\ (role u = Some "manager" ->
      Rbac.hasPermission (Some u) "tasks:delete-all" = Return true)
  /\ (createdBy task = _id u \/ role u = Some "admin" ->
      code (fst (Tasks.deleteTask req st)) = 200%Z
      /\ findTask (task_id task) (snd (Tasks.deleteTask req st)) = None).
Proof.
  intros Hvalid Hfind Huser.
  assert (Hdenied : createdBy task <> _id u -> role u <> Some "admin" ->
                    Tasks.deleteTask req st
                    = (mkResponse 403
                         (Message "You do not have permission to delete this task"),
                       st)).
  { intros Hc Ha. unfold Tasks.deleteTask. rewrite Hvalid, Hfind, Huser.
    cbn [negb]. apply String.eqb_neq in Hc.
    now rewrite Hc, (hasRole_false u "admin" Ha). }
  split; [| split; [| split]].
  - intros Hcode.
    destruct (String.eqb_spec (createdBy task) (_id u)) as [He | Hne];
      [now left |].
    destruct (role u) as [r |] eqn:Hr.
    + destruct (String.eqb_spec r "admin") as [-> | Hna]; [now right |].
      rewrite Hdenied in Hcode; [discriminate | assumption | congruence].
    + rewrite Hdenied in Hcode; [discriminate | assumption | discriminate].
  - intros Hc Ha. split; [now apply Hdenied |].
    now rewrite (Hdenied Hc Ha).
  - intros Hm. unfold Rbac.hasPermission. now rewrite Hm.
  - intros Hallowed.
    assert (Hgo : negb (String.eqb (createdBy task) (_id u))
                  && negb (hasRole u "admin") = false).
    { destruct Hallowed as [Hc | Ha].
      - rewrite Hc, String.eqb_refl. reflexivity.
      - apply hasRole_true in Ha. rewrite Ha. apply andb_false_r. }
    unfold Tasks.deleteTask. rewrite Hvalid, Hfind, Huser. cbn [negb].
    rewrite Hgo. cbn [fst snd code]. split; [reflexivity |].
    unfold findTask, Model.deleteTask. cbn [tasks with_tasks].
    match goal with
    | |- find ?f (filter ?g ?l) = None =>
        destruct (find f (filter g l)) as [t' |] eqn:Hf; [| reflexivity];
        apply find_some in Hf; destruct Hf as [Hin Heq];
        apply filter_In in Hin; destruct Hin as [_ Hneq];
        rewrite Heq in Hneq; discriminate
    end.
Qed.

Lemma delete_only_by_creator_or_admin_witness :
  Reference.isValidObjectId (task_id Sample.report) = true
  /\ findTask (task_id Sample.report) Sample.store = Some Sample.report
  /\ createdBy Sample.report <> _id Sample.carol
  /\ role Sample.carol <> Some "admin"
  /\ @Tasks.deleteTask Reference.libraries
       (Sample.request Sample.carol (task_id Sample.report) [] []) Sample.store
     = (mkResponse 403 (Message "You do not have permission to delete this task"),
        Sample.store)
  /\ Rbac.hasPermission (Some Sample.carol) "tasks:delete-all" = Return true
  /\ code (fst (@Tasks.deleteTask Reference.libraries
                  (Sample.request Sample.bob (task_id Sample.report) [] [])
                  Sample.store)) = 200%Z.
Proof.
  split; [vm_compute; reflexivity |]. split; [reflexivity |].
  split; [discriminate |]. split; [discriminate |].
  pose proof (@delete_only_by_creator_or_admin Reference.libraries
                (Sample.request Sample.carol (task_id Sample.report) [] [])
                Sample.store Sample.report Sample.carol
                ltac:(vm_compute; reflexivity) eq_refl eq_refl) as Hcarol.
  pose proof (@delete_only_by_creator_or_admin Reference.libraries
                (Sample.request Sample.bob (task_id Sample.report) [] [])
                Sample.store Sample.report Sample.bob
                ltac:(vm_compute; reflexivity) eq_refl eq_refl) as Hbob.
  split; [| split].
  - apply (proj1 (proj2 Hcarol)); discriminate.
  - apply (proj1 (proj2 (proj2 Hcarol))). reflexivity.
  - apply (proj2 (proj2 (proj2 Hbob))). left. reflexivity.
Defined.

(** *** Validation *)

Lemma validationResult_error `{Libraries} (cs : list chain) (c : chain)
      (b : object jsval) :
  In c cs -> run_chain b c <> [] -> isEmpty (validationResult cs b) = false.
Proof.
  intros Hin Herr. unfold validationResult.
  destruct (flat_map (run_chain b) cs) as [| e rest] eqn:Hf; [| reflexivity].
  exfalso. apply Herr.
  destruct (run_chain b c) as [| e rest] eqn:Hc; [reflexivity |].
  assert (He : In e (flat_map (run_chain b) cs)).
  { apply in_flat_map. exists c. split; [assumption |]. rewrite Hc. now left. }
  rewrite Hf in He. contradiction.
Qed.

(** A scalar that is none of the four schedule names does not stringify to
    one of them. *)
Lemma stringify_outside (v : scalar) :
  (forall s, In s recurringTypes -> v <> SStr s) ->
  str_mem (stringify (Some v)) recurringTypes = false.
Proof.
  intros Hout. destruct v as [| b | n | s]; cbn [stringify].
  - reflexivity.
  - destruct b; reflexivity.
  - unfold numToString, NilZero.string_of_int.
    destruct (Z.to_int n) as [d | d]; [destruct d |]; reflexivity.
  - destruct (str_mem s recurringTypes) eqn:Hm; [| reflexivity].
    apply str_mem_In in Hm. exfalso. now apply (Hout s Hm).
Qed.

Lemma recurringType_rejected `{Libraries} (b : object jsval) (v : scalar) :
  lookup b "recurringType" = Some (JScalar v) ->
  (forall s, In s recurringTypes -> v <> SStr s) ->
  run_chain b recurringTypeChain <> [].
Proof.
  intros Hl Hout. unfold run_chain, instances, run_steps, recurringTypeChain.
  cbn [selected isOptional steps flat_map]. rewrite Hl.
  cbn [passes standard].
  change ["daily"; "weekly"; "monthly"; "custom"] with recurringTypes.
  rewrite (stringify_outside v Hout). discriminate.
Qed.

Lemma recurringType_accepted `{Libraries} (b : object jsval) (s : string) :
  lookup b "recurringType" = Some (JScalar (SStr s)) ->
  In s recurringTypes ->
  run_chain b recurringTypeChain = [].
Proof.
  intros Hl Hin. unfold run_chain, instances, run_steps, recurringTypeChain.
  cbn [selected isOptional steps flat_map]. rewrite Hl.
  cbn [passes standard stringify].
  change ["daily"; "weekly"; "monthly"; "custom"] with recurringTypes.
  apply str_mem_In in Hin. now rewrite Hin.
Qed.

(** C3, as the code has it.  The validator of [recurringType] accepts
    exactly ['daily'], ['weekly'], ['monthly'] and ['custom'].  For a caller
    who holds ['tasks:create']: a [recurringType] that is present as a JSON
    scalar other than these four gets 400; a request that passes validation
    and names an existing assignee, with a truthy [isRecurring] and no
    [recurringType], gets 400 with 'Recurring type is required for
    recurring tasks'; in both cases the store is left as it was, so no
    task is created. *)
Theorem post_rejects_bad_recurrence `{Libraries} (req : AuthRequest) (st : Store) :
  checkPermission "tasks:create" (user req) = None ->
  (forall v : scalar,
      lookup (body req) "recurringType" = Some (JScalar v) ->
      (forall s, In s recurringTypes -> v <> SStr s) ->
      code (fst (postTask req st)) = 400%Z /\ snd (postTask req st) = st)
  /\ (validationResult postValidators (body req) = [] ->
      (exists s a, lookup (body req) "assignedTo" = Some (JScalar (SStr s))
                   /\ isValidObjectId s = true /\ findUser s st = Some a) ->
      truthy (lookup (body req) "isRecurring") = true ->
      lookup (body req) "recurringType" = None ->
      postTask req st
      = (mkResponse 400 (Message "Recurring type is required for recurring tasks"),
         st))
  /\ (forall s,
         lookup (body req) "recurringType" = Some (JScalar (SStr s)) ->
         In s recurringTypes ->
         run_chain (body req) recurringTypeChain = []).
Proof.
  intros Hperm. split; [| split].
  - intros v Hl Hout. unfold postTask. rewrite Hperm.
    rewrite (validationResult_error postValidators recurringTypeChain).
    + now split.
    + unfold postValidators, recurringValidators. apply in_or_app. right.
      right. now left.
    + exact (recurringType_rejected (body req) v Hl Hout).
  - intros Hvalid (s & a & Hs & Hid & Hfind) Hrec Htype.
    unfold postTask. rewrite Hperm, Hvalid. cbn [isEmpty negb].
    unfold findUserByValue. rewrite Hs, Hid, Hfind, Hrec, Htype.
    reflexivity.
  - intros s Hl Hin. exact (recurringType_accepted (body req) s Hl Hin).
Qed.

Lemma post_rejects_bad_recurrence_witness :
  checkPermission "tasks:create"
    (user (Sample.request Sample.bob "" [] Sample.recurringNoTypeBody)) = None
  /\ @postTask Reference.libraries
       (Sample.request Sample.bob "" [] Sample.recurringNoTypeBody) Sample.store
     = (mkResponse 400 (Message "Recurring type is required for recurring tasks"),
        Sample.store)
  /\ lookup Sample.yearlyBody "recurringType" = Some (JScalar (SStr "yearly"))
  /\ code (fst (@postTask Reference.libraries
                  (Sample.request Sample.bob "" [] Sample.yearlyBody) Sample.store))
     = 400%Z
  /\ snd (@postTask Reference.libraries
            (Sample.request Sample.bob "" [] Sample.yearlyBody) Sample.store)
     = Sample.store.
Proof.
  split; [reflexivity |]. split.
  - refine (proj1 (proj2 (@post_rejects_bad_recurrence Reference.libraries
                     (Sample.request Sample.bob "" [] Sample.recurringNoTypeBody)
                     Sample.store _)) _ _ _ _).
    + reflexivity.
    + vm_compute. reflexivity.
    + exists Sample.bobId, Sample.bob. repeat split; vm_compute; reflexivity.
    + reflexivity.
    + reflexivity.
  - split; [reflexivity |].
    refine (proj1 (@post_rejects_bad_recurrence Reference.libraries
                     (Sample.request Sample.bob "" [] Sample.yearlyBody)
                     Sample.store _) (SStr "yearly") _ _).
    + reflexivity.
    + reflexivity.
    + intros s [<- | [<- | [<- | [<- | []]]]]; discriminate.
Defined.

(** C3 as it was stated fails: Bob posts a recurring task without a
    recurring type, assigned to an id no user has; the assignee check comes
    first and the answer is 404, not the 400 of the missing type. *)
Lemma post_missing_type_may_get_404 :
  truthy (lookup Sample.recurringNoTypeNobodyBody "isRecurring") = true
  /\ lookup Sample.recurringNoTypeNobodyBody "recurringType" = None
  /\ @postTask Reference.libraries
       (Sample.request Sample.bob "" [] Sample.recurringNoTypeNobodyBody)
       Sample.store
     = (mkResponse 404 (Message "Assigned user not found"), Sample.store)
  /\ fst (@postTask Reference.libraries
            (Sample.request Sample.bob "" [] Sample.recurringNoTypeNobodyBody)
            Sample.store)
     <> mkResponse 400 (Message "Recurring type is required for recurring tasks").
Proof.
  repeat split; try (vm_compute; reflexivity).
  vm_compute. discriminate.
Qed.

(** *** Spawned instances *)

Lemma skipn_length_app {A} (l extra : list A) :
  skipn (length l) (l ++ extra) = extra.
Proof.
  induction l as [| x rest IH]; [reflexivity | exact IH].
Qed.

(** A call spawns nothing or exactly one instance. *)
Lemma spawned_cases `{Libraries} (template : Task) (st : Store) :
  Recurring.spawned template st = []
  \/ exists due,
       Recurring.nextDueDate template = Some due
       /\ (forall theEnd, recurringEndDate template = Some theEnd ->
                          (due <= theEnd)%Z)
       /\ Recurring.spawned template st
          = [Recurring.instanceOf template (newObjectId st) due].
Proof.
  unfold Recurring.spawned, Recurring.added,
    Recurring.createRecurringTaskInstance.
  destruct (Recurring.nextDueDate template) as [due |].
  - destruct (recurringEndDate template) as [theEnd |].
    + destruct (Z.ltb_spec theEnd due) as [Hlt | Hle].
      * left. apply skipn_all.
      * right. exists due. repeat split.
        -- intros e [= <-]. exact Hle.
        -- unfold insertTask. cbn [tasks with_tasks]. apply skipn_length_app.
    + right. exists due. repeat split.
      * intros e He. discriminate.
      * unfold insertTask. cbn [tasks with_tasks]. apply skipn_length_app.
  - left. apply skipn_all.
Qed.

(** C5, as the code has it.  An instance spawned by
    [createRecurringTaskInstance] carries the [parentTaskId] of its
    template.  A PUT with a truthy [isRecurring] on a task that has a
    [parentTaskId] leaves the store as it was, whoever sends it; when the
    body passes validation and the requester is the creator of the task,
    an admin or a manager, the answer is 400 with 'Cannot make a recurring
    task instance into a recurring task'.  Nothing is said of the other
    updates: the guard is one test of one request, not an invariant of the
    store. *)
Theorem put_refuses_recurring_instance `{Libraries}
        (req : AuthRequest) (st : Store) (task : Task) (parent : string) :
  isValidObjectId (params_id req) = true ->
  findTask (params_id req) st = Some task ->
  parentTaskId task = Some parent ->
  truthy (lookup (body req) "isRecurring") = true ->
  snd (putTask req st) = st
  /\ (forall u,
         validationResult putValidators (body req) = [] ->
         user req = Some u ->
         createdBy task = _id u \/ role u = Some "admin"
         \/ role u = Some "manager" ->
         putTask req st
         = (mkResponse 400
              (Message "Cannot make a recurring task instance into a recurring task"),
            st))
  /\ (forall template st' i,
         In i (Recurring.spawned template st') ->
         parentTaskId i = Some (task_id template)).
Proof.
  intros Hvalid Hfind Hparent Hrec. split; [| split].
  - unfold putTask.
    destruct (isEmpty (validationResult putValidators (body req)));
      [| reflexivity].
    cbn [negb]. rewrite Hvalid, Hfind. cbn [negb].
    destruct (user req) as [u |]; [| reflexivity].
    destruct (negb (String.eqb (createdBy task) (_id u))
              && negb (hasRole u "admin") && negb (hasRole u "manager"));
      [reflexivity |].
    now rewrite Hparent, Hrec.
  - intros u Hok Huser Hallowed. unfold putTask.
    rewrite Hok. cbn [isEmpty negb]. rewrite Hvalid, Hfind, Huser.
    cbn [negb]. rewrite Hparent, Hrec.
    assert (Hgo : negb (String.eqb (createdBy task) (_id u))
                  && negb (hasRole u "admin") && negb (hasRole u "manager")
                  = false).
    { destruct Hallowed as [Hc | [Ha | Hm]].
      - now rewrite Hc, String.eqb_refl.
      - apply hasRole_true in Ha. rewrite Ha. cbn [negb].
        now rewrite andb_false_r.
      - apply hasRole_true in Hm. rewrite Hm. apply andb_false_r. }
    now rewrite Hgo.
  - intros template st' i Hin.
    destruct (spawned_cases template st') as [Hnone | (due & _ & _ & Hone)].
    + rewrite Hnone in Hin. contradiction.
    + rewrite Hone in Hin. destruct Hin as [<- | []]. reflexivity.
Qed.

Lemma put_refuses_recurring_instance_witness :
  Reference.isValidObjectId (task_id Sample.standupInstance) = true
  /\ findTask (task_id Sample.standupInstance) Sample.store
     = Some Sample.standupInstance
  /\ parentTaskId Sample.standupInstance = Some (task_id Sample.standup)
  /\ @putTask Reference.libraries
       (Sample.request Sample.alice (task_id Sample.standupInstance) []
          [("isRecurring", JScalar (SBool true))]) Sample.store
     = (mkResponse 400
          (Message "Cannot make a recurring task instance into a recurring task"),
        Sample.store).
Proof.
  split; [vm_compute; reflexivity |]. split; [reflexivity |].
  split; [reflexivity |].
  refine (proj1 (proj2 (@put_refuses_recurring_instance Reference.libraries
            (Sample.request Sample.alice (task_id Sample.standupInstance) []
               [("isRecurring", JScalar (SBool true))])
            Sample.store Sample.standupInstance (task_id Sample.standup)
            _ _ _ _)) Sample.alice _ _ _).
  - vm_compute. reflexivity.
  - reflexivity.
  - reflexivity.
  - reflexivity.
  - vm_compute. reflexivity.
  - reflexivity.
  - right. left. reflexivity.
Defined.

(** C5 as it was stated fails, twice.  Dave, a regular user who did not
    create the standup, sends [isRecurring: true] for its spawned instance;
    the permission check comes first and the answer is 403, not 400.  And
    the linkage is not kept one level deep: Alice's update of the standup,
    a template without a parent, names the report as its parent and is
    answered 200; afterwards the standup is a recurring task that has a
    [parentTaskId], and its instance is the child of a child. *)
Lemma put_may_answer_403_and_may_nest :
  (parentTaskId Sample.standupInstance = Some (task_id Sample.standup)
   /\ @putTask Reference.libraries
        (Sample.request Sample.dave (task_id Sample.standupInstance) []
           [("isRecurring", JScalar (SBool true))]) Sample.store
      = (mkResponse 403 (Message "You do not have permission to update this task"),
         Sample.store)
   /\ code (fst (@putTask Reference.libraries
                   (Sample.request Sample.dave (task_id Sample.standupInstance) []
                      [("isRecurring", JScalar (SBool true))]) Sample.store))
      <> 400%Z)
  /\ (findTask (task_id Sample.standup) Sample.store = Some Sample.standup
      /\ parentTaskId Sample.standup = None
      /\ code (fst (@putTask Reference.libraries
                      (Sample.request Sample.alice (task_id Sample.standup) []
                         Sample.nestingBody) Sample.store)) = 200%Z
      /\ exists template child,
           findTask (task_id Sample.standup)
             (snd (@putTask Reference.libraries
                     (Sample.request Sample.alice (task_id Sample.standup) []
                        Sample.nestingBody) Sample.store))
           = Some template
           /\ isRecurring template = true
           /\ parentTaskId template = Some (task_id Sample.report)
           /\ findTask (task_id Sample.standupInstance)
                (snd (@putTask Reference.libraries
                        (Sample.request Sample.alice (task_id Sample.standup) []
                           Sample.nestingBody) Sample.store))
              = Some child
           /\ parentTaskId child = Some (task_id template)).
Proof.
  split.
  - split; [reflexivity |]. split; [vm_compute; reflexivity |].
    vm_compute. discriminate.
  - split; [reflexivity |]. split; [reflexivity |].
    split; [vm_compute; reflexivity |].
    eexists. eexists.
    split; [vm_compute; reflexivity |]. split; [reflexivity |].
    split; [reflexivity |]. split; [vm_compute; reflexivity |]. reflexivity.
Qed.

Lemma tasks_after_spawn `{Libraries} (template : Task) (st : Store) :
  tasks (Recurring.createRecurringTaskInstance template st)
  = (tasks st ++ Recurring.spawned template st)%list.
Proof.
  unfold Recurring.spawned, Recurring.added,
    Recurring.createRecurringTaskInstance.
  destruct (Recurring.nextDueDate template) as [due |].
  - destruct (recurringEndDate template) as [theEnd |].
    + destruct (Z.ltb theEnd due).
      * now rewrite skipn_all, app_nil_r.
      * unfold insertTask. cbn [tasks with_tasks]. now rewrite skipn_length_app.
    + unfold insertTask. cbn [tasks with_tasks]. now rewrite skipn_length_app.
  - now rewrite skipn_all, app_nil_r.
Qed.

Lemma generateAll_cons `{Libraries} (t : Task) (rest : list Task) (st : Store) :
  Recurring.generateAll (t :: rest) st
  = Recurring.generateAll rest (Recurring.createRecurringTaskInstance t st).
Proof. reflexivity. Qed.

(** A run of the generator only appends to the task collection. *)
Lemma generateAll_grows `{Libraries} (templates : list Task) (st : Store) :
  tasks (Recurring.generateAll templates st)
  = (tasks st ++ Recurring.added st (Recurring.generateAll templates st))%list.
Proof.
  revert st. induction templates as [| t rest IH]; intros st.
  - unfold Recurring.added. cbn. now rewrite skipn_all, app_nil_r.
  - rewrite generateAll_cons. unfold Recurring.added at 1.
    rewrite IH, tasks_after_spawn, <- app_assoc.
    now rewrite skipn_length_app.
Qed.

Lemma generateAll_added_cons `{Libraries} (t : Task) (rest : list Task) (st : Store) :
  Recurring.added st (Recurring.generateAll (t :: rest) st)
  = (Recurring.spawned t st
     ++ Recurring.added (Recurring.createRecurringTaskInstance t st)
          (Recurring.generateAll rest
             (Recurring.createRecurringTaskInstance t st)))%list.
Proof.
  rewrite generateAll_cons. unfold Recurring.added at 1.
  rewrite generateAll_grows, tasks_after_spawn, <- app_assoc.
  now rewrite skipn_length_app.
Qed.

(** What a run of the generator adds was spawned by one of its calls. *)
Lemma generateAll_added `{Libraries} (templates : list Task) (st : Store) (i : Task) :
  In i (Recurring.added st (Recurring.generateAll templates st)) ->
  exists template st',
    In template templates /\ In i (Recurring.spawned template st').
Proof.
  revert st. induction templates as [| t rest IH]; intros st Hin.
  - unfold Recurring.added in Hin. cbn in Hin. rewrite skipn_all in Hin.
    contradiction.
  - rewrite generateAll_added_cons in Hin. apply in_app_or in Hin.
    destruct Hin as [Hin | Hin].
    + exists t, st. split; [now left | exact Hin].
    + destruct (IH _ Hin) as (t' & st' & Ht' & Hs).
      exists t', st'. split; [now right | exact Hs].
Qed.

Lemma tasks_createNotification `{Libraries} (userId message type : string)
      (taskId : option string) (st : Store) :
  tasks (Server.createNotification userId message type taskId st) = tasks st.
Proof.
  unfold Server.createNotification. now destruct (isValidObjectId userId).
Qed.

Lemma tasks_notifyValue `{Libraries} (v : option jsval) (message type : string)
      (taskId : option string) (st : Store) :
  tasks (notifyValue v message type taskId st) = tasks st.
Proof.
  unfold notifyValue. destruct v as [[[| b | n | s] | items] |];
    try reflexivity. apply tasks_createNotification.
Qed.

(** On creation: what POST /api/tasks adds to the task collection is the
    new task and, for a recurring one, what its first call of
    [createRecurringTaskInstance] spawns. *)
Lemma postTask_added `{Libraries} (req : AuthRequest) (st : Store) (i : Task) :
  In i (Recurring.added st (snd (postTask req st))) ->
  exists fields task,
    castTask (newObjectId st) fields = Some task
    /\ (i = task \/ In i (Recurring.spawned task (insertTask task st))).
Proof.
  unfold postTask, Recurring.added. intros Hin.
  assert (Hnone : ~ In i (skipn (length (tasks st)) (tasks st)))
    by (rewrite skipn_all; intros []).
  destruct (checkPermission "tasks:create" (user req)); [contradiction |].
  destruct (negb (isEmpty (validationResult postValidators (body req))));
    [contradiction |].
  destruct (findUserByValue (lookup (body req) "assignedTo") st)
    as [[assignee |] | e]; try contradiction.
  destruct (truthy (lookup (body req) "isRecurring")
            && negb (truthy (lookup (body req) "recurringType")));
    [contradiction |].
  match type of Hin with
  | context [castTask (newObjectId st) ?f] =>
      destruct (castTask (newObjectId st) f) as [task |] eqn:Hcast;
      [exists f, task; split; [exact Hcast |] | contradiction]
  end.
  cbn [snd] in Hin.
  match type of Hin with
  | In i (skipn _ (tasks (if ?c then _ else _))) =>
      destruct c; [rewrite tasks_notifyValue in Hin |]
  end;
    (destruct (truthy (lookup (body req) "isRecurring"));
     [ rewrite tasks_after_spawn in Hin;
       unfold insertTask at 1 in Hin; cbn [tasks with_tasks] in Hin;
       rewrite <- app_assoc, skipn_length_app in Hin;
       destruct Hin as [<- | Hsp]; [now left | now right]
     | unfold insertTask in Hin; cbn [tasks with_tasks] in Hin;
       rewrite skipn_length_app in Hin;
       destruct Hin as [<- | []]; now left ]).
Qed.

(** C4: a template spawns instances until its optional end date.  With
    [recurringEndDate] set, no instance that [createRecurringTaskInstance]
    spawns falls due after it, in a single call and in any run of calls of
    the generator; without one, whenever the schedule gives a next date the
    instance for that date is spawned, whatever the date. *)
Theorem instances_stop_at_end_date `{Libraries} (template : Task) (st : Store) :
  (forall theEnd i,
      recurringEndDate template = Some theEnd ->
      In i (Recurring.spawned template st) ->
      (dueDate i <= theEnd)%Z)
  /\ (recurringEndDate template = None ->
      forall due,
        Recurring.nextDueDate template = Some due ->
        Recurring.spawned template st
        = [Recurring.instanceOf template (newObjectId st) due])
  /\ (forall templates i,
         In i (Recurring.added st (Recurring.generateAll templates st)) ->
         exists parent,
           In parent templates
           /\ parentTaskId i = Some (task_id parent)
           /\ (forall theEnd, recurringEndDate parent = Some theEnd ->
                              (dueDate i <= theEnd)%Z)).
Proof.
  assert (Hone : forall t s i,
             In i (Recurring.spawned t s) ->
             parentTaskId i = Some (task_id t)
             /\ (forall theEnd, recurringEndDate t = Some theEnd ->
                                (dueDate i <= theEnd)%Z)).
  { intros t s i Hin.
    destruct (spawned_cases t s) as [Hnone | (due & _ & Hle & Hsp)].
    - rewrite Hnone in Hin. contradiction.
    - rewrite Hsp in Hin. destruct Hin as [<- | []].
      split; [reflexivity | exact Hle]. }
  split; [| split].
  - intros theEnd i Hend Hin. now apply (proj2 (Hone template st i Hin)).
  - intros Hopen due Hdue.
    unfold Recurring.spawned, Recurring.added,
      Recurring.createRecurringTaskInstance.
    rewrite Hdue, Hopen. unfold insertTask. cbn [tasks with_tasks].
    apply skipn_length_app.
  - intros templates i Hin.
    destruct (generateAll_added templates st i Hin) as (t & st' & Ht & Hs).
    exists t. split; [exact Ht |]. now apply (Hone t st').
Qed.

Lemma instances_stop_at_end_date_witness :
  recurringEndDate Sample.standup = Some Sample.jan10
  /\ In (@Recurring.instanceOf Sample.standup
           (Reference.newObjectId Sample.store) (Sample.jan1 + 7 * 86400000))
        (@Recurring.spawned Reference.libraries Sample.standup Sample.store)
  /\ (dueDate (@Recurring.instanceOf Sample.standup
                 (Reference.newObjectId Sample.store)
                 (Sample.jan1 + 7 * 86400000)) <= Sample.jan10)%Z
  /\ recurringEndDate Sample.openEnded = None
  /\ @Recurring.nextDueDate Reference.libraries Sample.openEnded
     = Some (Sample.jan1 + 86400000)%Z
  /\ @Recurring.spawned Reference.libraries Sample.openEnded Sample.store
     = [Recurring.instanceOf Sample.openEnded
          (Reference.newObjectId Sample.store) (Sample.jan1 + 86400000)]
  /\ In (@Recurring.instanceOf Sample.standup "aaaaaaaa0000000000000009"
           (Sample.jan1 + 7 * 86400000))
        (Recurring.added Sample.store
           (@Recurring.generateAll Reference.libraries
              [Sample.openEnded; Sample.standup] Sample.store))
  /\ exists parent,
       In parent [Sample.openEnded; Sample.standup]
       /\ parentTaskId (@Recurring.instanceOf Sample.standup
                          "aaaaaaaa0000000000000009"
                          (Sample.jan1 + 7 * 86400000))
          = Some (task_id parent).
Proof.
  split; [reflexivity |].
  assert (Hin : In (@Recurring.instanceOf Sample.standup
                      (Reference.newObjectId Sample.store)
                      (Sample.jan1 + 7 * 86400000))
                   (@Recurring.spawned Reference.libraries Sample.standup
                      Sample.store)) by (vm_compute; left; reflexivity).
  assert (Hrun : In (@Recurring.instanceOf Sample.standup
                       "aaaaaaaa0000000000000009" (Sample.jan1 + 7 * 86400000))
                    (Recurring.added Sample.store
                       (@Recurring.generateAll Reference.libraries
                          [Sample.openEnded; Sample.standup] Sample.store)))
    by (vm_compute; right; left; reflexivity).
  split; [exact Hin |]. split; [| split; [reflexivity | split; [reflexivity |]]].
  - exact (proj1 (@instances_stop_at_end_date Reference.libraries
                    Sample.standup Sample.store)
                 Sample.jan10 _ eq_refl Hin).
  - split; [| split; [exact Hrun |]].
    + exact (proj1 (proj2 (@instances_stop_at_end_date Reference.libraries
                             Sample.openEnded Sample.store))
                   eq_refl (Sample.jan1 + 86400000)%Z eq_refl).
    + destruct (proj2 (proj2 (@instances_stop_at_end_date Reference.libraries
                                Sample.standup Sample.store))
                      [Sample.openEnded; Sample.standup] _ Hrun)
        as (parent & Hparent & Hlink & _).
      exists parent. split; assumption.
Defined.

End TaskFacts.

(** ** The user routes *)

Module UserFacts.
Import Js Model Validator Http Users ObjectFacts.

Lemma findUser_member (u : User) (st : Store) :
  In u (users st) ->
  exists target, findUser (_id u) st = Some target /\ _id target = _id u.
Proof.
  intros Hin. unfold findUser.
  destruct (find (fun w => String.eqb (_id w) (_id u)) (users st))
    as [target |] eqn:Hf.
  - exists target. split; [reflexivity |].
    apply find_some in Hf. now apply String.eqb_eq.
  - exfalso. pose proof (find_none _ _ Hf u Hin) as Hno. cbn in Hno.
    now rewrite String.eqb_refl in Hno.
Qed.

Lemma findUser_id (id : string) (st : Store) (target : User) :
  findUser id st = Some target -> _id target = id.
Proof.
  unfold findUser. intros Hf. apply find_some in Hf.
  now apply String.eqb_eq.
Qed.

(** The permission check of each of the three roles completes. *)
Lemma checkPermission_role (u : User) (r p : string) :
  role u = Some r -> Rbac.isRoleKey r ->
  checkPermission p (Some u) = None
  \/ checkPermission p (Some u)
     = Some (mkResponse 403
               (Message "You do not have permission to perform this action")).
Proof.
  intros Hr Hkey. unfold checkPermission.
  assert (Hne : r <> "") by (destruct Hkey as [-> | [-> | ->]]; discriminate).
  rewrite (RbacFacts.hasPermission_role u r p Hr Hne).
  apply RbacFacts.lookup_rolePermissions in Hkey. destruct Hkey as [perms ->].
  destruct (str_mem p perms); auto.
Qed.

Lemma checkPermission_admin (u : User) (p : string) :
  role u = Some "admin" ->
  In p ["users:manage-roles"; "users:delete"] ->
  checkPermission p (Some u) = None.
Proof.
  intros Hr Hp. unfold checkPermission, Rbac.hasPermission, truthy_string.
  rewrite Hr. destruct Hp as [<- | [<- | []]]; reflexivity.
Qed.

Lemma checkPermission_not_admin (u : User) (r p : string) :
  role u = Some r -> Rbac.isRoleKey r -> r <> "admin" ->
  In p ["users:manage-roles"; "users:delete"] ->
  checkPermission p (Some u)
  = Some (mkResponse 403
            (Message "You do not have permission to perform this action")).
Proof.
  intros Hr Hkey Hna Hp. unfold checkPermission, Rbac.hasPermission, truthy_string.
  rewrite Hr. destruct Hkey as [-> | [-> | ->]]; [contradiction | |];
    destruct Hp as [<- | [<- | []]]; reflexivity.
Qed.

(** C10, as the code has it.  When the target's id is the requester's id,
    PUT /api/users/:id/role and DELETE /api/users/:id leave the store as it
    was, whatever the requester and the body.  For a requester whose id is
    that of a stored user (the requester itself is the stored document
    without its password) and whose role is one of the three roles, DELETE
    answers 403, and PUT answers 403 unless the requester is an admin whose
    body fails the role validator, who gets the validator's 400; an admin
    with a valid body is told 'You cannot change your own role' and 'You
    cannot delete your own account'. *)
Theorem own_account_protected `{Libraries}
        (req : AuthRequest) (st : Store) (u : User) :
  user req = Some u ->
  params_id req = _id u ->
  snd (putRole req st) = st
  /\ snd (Users.deleteUser req st) = st
  /\ (forall r,
         role u = Some r -> Rbac.isRoleKey r ->
         isValidObjectId (_id u) = true ->
         (exists stored, findUser (_id u) st = Some stored) ->
         code (fst (Users.deleteUser req st)) = 403%Z
         /\ (r <> "admin" \/ validationResult roleValidators (body req) = [] ->
             code (fst (putRole req st)) = 403%Z)
         /\ (r = "admin" -> validationResult roleValidators (body req) <> [] ->
             code (fst (putRole req st)) = 400%Z)
         /\ (r = "admin" -> validationResult roleValidators (body req) = [] ->
             putRole req st
             = (mkResponse 403 (Message "You cannot change your own role"), st))
         /\ (r = "admin" ->
             Users.deleteUser req st
             = (mkResponse 403 (Message "You cannot delete your own account"), st))).
Proof.
  intros Huser Hid.
  assert (Hself : forall target, findUser (params_id req) st = Some target ->
                                 isRequester req target = true).
  { intros target Hf. unfold isRequester. rewrite Huser.
    apply findUser_id in Hf. rewrite Hf, Hid. apply String.eqb_refl. }
  split; [| split].
  - unfold putRole.
    destruct (checkPermission "users:manage-roles" (user req)); [reflexivity |].
    destruct (isEmpty (validationResult roleValidators (body req)));
      [| reflexivity].
    cbn [negb]. unfold findById.
    destruct (isValidObjectId (params_id req)); [| reflexivity].
    destruct (findUser (params_id req) st) as [target |] eqn:Hf; [| reflexivity].
    now rewrite (Hself target eq_refl).
  - unfold Users.deleteUser.
    destruct (checkPermission "users:delete" (user req)); [reflexivity |].
    unfold findById.
    destruct (isValidObjectId (params_id req)); [| reflexivity].
    destruct (findUser (params_id req) st) as [target |] eqn:Hf; [| reflexivity].
    now rewrite (Hself target eq_refl).
  - intros r Hr Hkey Hvalid (target & Hf).
    assert (Hdel : checkPermission "users:delete" (Some u) = None ->
                   Users.deleteUser req st
                   = (mkResponse 403 (Message "You cannot delete your own account"),
                      st)).
    { intros Hp. unfold Users.deleteUser, findById.
      rewrite Huser, Hp, Hid, Hvalid, Hf.
      rewrite <- Hid in Hf. now rewrite (Hself target Hf). }
    assert (Hput : checkPermission "users:manage-roles" (Some u) = None ->
                   validationResult roleValidators (body req) = [] ->
                   putRole req st
                   = (mkResponse 403 (Message "You cannot change your own role"),
                      st)).
    { intros Hp Hok. unfold putRole, findById.
      rewrite Huser, Hp, Hok, Hid, Hvalid, Hf. cbn [isEmpty negb].
      rewrite <- Hid in Hf. now rewrite (Hself target Hf). }
    split; [| split; [| split; [| split]]].
    + destruct (checkPermission_role u r "users:delete" Hr Hkey) as [Hp | Hp].
      * now rewrite (Hdel Hp).
      * unfold Users.deleteUser. now rewrite Huser, Hp.
    + intros Hcase.
      destruct (checkPermission_role u r "users:manage-roles" Hr Hkey)
        as [Hp | Hp].
      * destruct Hcase as [Hna | Hok]; [| now rewrite (Hput Hp Hok)].
        rewrite (checkPermission_not_admin u r "users:manage-roles" Hr Hkey Hna)
          in Hp; [discriminate | now left].
      * unfold putRole. now rewrite Huser, Hp.
    + intros -> Hbad. unfold putRole.
      rewrite Huser, (checkPermission_admin u "users:manage-roles" Hr)
        by now left.
      destruct (validationResult roleValidators (body req));
        [contradiction | reflexivity].
    + intros -> Hok. apply Hput; [| assumption].
      apply (checkPermission_admin u "users:manage-roles" Hr). now left.
    + intros ->. apply Hdel.
      apply (checkPermission_admin u "users:delete" Hr). right. now left.
Qed.

Lemma own_account_protected_witness :
  user (Sample.request (Middleware.withoutPassword Sample.alice) Sample.aliceId []
          [("role", JScalar (SStr "user"))])
  = Some (Middleware.withoutPassword Sample.alice)
  /\ params_id (Sample.request (Middleware.withoutPassword Sample.alice)
                  Sample.aliceId [] [("role", JScalar (SStr "user"))])
     = _id (Middleware.withoutPassword Sample.alice)
  /\ role (Middleware.withoutPassword Sample.alice) = Some "admin"
  /\ Reference.isValidObjectId (_id (Middleware.withoutPassword Sample.alice))
     = true
  /\ findUser (_id (Middleware.withoutPassword Sample.alice)) Sample.store
     = Some Sample.alice
  /\ ~ In (Middleware.withoutPassword Sample.alice) (users Sample.store)
  /\ @putRole Reference.libraries
       (Sample.request (Middleware.withoutPassword Sample.alice) Sample.aliceId []
          [("role", JScalar (SStr "user"))]) Sample.store
     = (mkResponse 403 (Message "You cannot change your own role"), Sample.store)
  /\ @Users.deleteUser Reference.libraries
       (Sample.request (Middleware.withoutPassword Sample.alice) Sample.aliceId []
          [("role", JScalar (SStr "user"))]) Sample.store
     = (mkResponse 403 (Message "You cannot delete your own account"),
        Sample.store).
Proof.
  split; [reflexivity |]. split; [reflexivity |]. split; [reflexivity |].
  split; [vm_compute; reflexivity |]. split; [reflexivity |].
  split.
  { intros [Heq | [Heq | [Heq | [Heq | []]]]]; discriminate Heq. }
  pose proof (proj2 (proj2 (@own_account_protected Reference.libraries
                (Sample.request (Middleware.withoutPassword Sample.alice)
                   Sample.aliceId [] [("role", JScalar (SStr "user"))])
                Sample.store (Middleware.withoutPassword Sample.alice)
                eq_refl eq_refl))
                "admin" eq_refl (or_introl eq_refl)
                ltac:(vm_compute; reflexivity)
                (ex_intro _ Sample.alice eq_refl)) as Halice.
  split.
  - apply (proj1 (proj2 (proj2 (proj2 Halice)))); [reflexivity |].
    vm_compute. reflexivity.
  - apply (proj2 (proj2 (proj2 (proj2 Halice)))). reflexivity.
Defined.

(** C10 as it was stated fails: Alice, an admin, asks for the role ['root']
    for herself; the role validator answers first, with 400 and not 403.
    Her account is unchanged all the same. *)
Lemma own_role_change_may_get_400 :
  params_id (Sample.request Sample.alice Sample.aliceId []
               [("role", JScalar (SStr "root"))]) = _id Sample.alice
  /\ @putRole Reference.libraries
       (Sample.request Sample.alice Sample.aliceId []
          [("role", JScalar (SStr "root"))]) Sample.store
     = (mkResponse 400 (Errors [mkError "role" "Invalid role"]), Sample.store)
  /\ code (fst (@putRole Reference.libraries
                  (Sample.request Sample.alice Sample.aliceId []
                     [("role", JScalar (SStr "root"))]) Sample.store))
     <> 403%Z.
Proof.
  split; [reflexivity |]. split; [vm_compute; reflexivity |].
  vm_compute. discriminate.
Qed.

End UserFacts.

(** ** The database connection *)

Module ServerFacts.
Import Server.

Lemma fold_failures (times : list Z) (n : nat) :
  fold_left step (failures times) (mkConnection Connecting n)
  = mkConnection Connecting (n + length times).
Proof.
  revert n. induction times as [| t rest IH]; intros n.
  - cbn. now rewrite Nat.add_0_r.
  - change (fold_left step (failures rest) (mkConnection Connecting (S n))
            = mkConnection Connecting (n + length (t :: rest))).
    rewrite IH. cbn [length]. now rewrite Nat.add_succ_r.
Qed.

(** C9, as the code has it: whenever the connection attempt of
    [connectWithRetry] fails, another attempt is scheduled 5 seconds later,
    and this repeats on every failure: after any number of failures, each
    followed by its timer, a new attempt is pending, and one more failure at
    time [t] sets the timer for [t + 5000].  It is not the only recovery in
    the system: the socket client of the frontend is created with
    [reconnection] on, for up to 5 attempts. *)
Theorem retry_after_every_failure (times : list Z) (t : Z) :
  run (failures times) = mkConnection Connecting (1 + length times)
  /\ run (failures times ++ [Rejected t])
     = mkConnection (Waiting (t + 5000)) (1 + length times)
  /\ run (failures times ++ [Rejected t; TimerFired])
     = mkConnection Connecting (2 + length times)
  /\ Recovery.recovers Recovery.Database = true
  /\ Recovery.recovers Recovery.ClientSocket = true
  /\ Recovery.recovers Recovery.ClientApi = false.
Proof.
  assert (Hrun : run (failures times) = mkConnection Connecting (1 + length times)).
  { unfold run. change started with (mkConnection Connecting 1).
    now rewrite fold_failures. }
  split; [exact Hrun |]. split; [| split].
  - unfold run in *. now rewrite fold_left_app, Hrun.
  - unfold run in *. now rewrite fold_left_app, Hrun.
  - repeat split.
Qed.

(** C9 as it was stated fails: the database connection is not the only part
    of the system that recovers from a failure, the socket client of the
    frontend reconnects too. *)
Lemma socket_client_recovers_too :
  ~ (forall s, Recovery.recovers s = true -> s = Recovery.Database).
Proof.
  intros Honly. specialize (Honly Recovery.ClientSocket eq_refl). discriminate.
Qed.

End ServerFacts.

(** ** The other middlewares *)

Module MiddlewareFacts.
Import Js Model Http Rbac Middleware ObjectFacts.

(** With one of the three roles the lookup answers, by the table. *)
Lemma hasPermission_key (u : User) (r p : string) :
  role u = Some r -> isRoleKey r ->
  exists perms,
    lookup rolePermissions r = Some perms
    /\ hasPermission (Some u) p = Return (str_mem p perms).
Proof.
  intros Hr Hkey.
  assert (Hne : r <> "") by (destruct Hkey as [-> | [-> | ->]]; discriminate).
  apply RbacFacts.lookup_rolePermissions in Hkey. destruct Hkey as [perms Hl].
  exists perms. split; [exact Hl |].
  now rewrite (RbacFacts.hasPermission_role u r p Hr Hne), Hl.
Qed.

Lemma every_key (u : User) (perms ps : list string) :
  (forall p, hasPermission (Some u) p = Return (str_mem p perms)) ->
  every (Some u) ps = Return (forallb (fun p => str_mem p perms) ps).
Proof.
  intros Hhas. induction ps as [| p rest IH]; [reflexivity |].
  cbn [every forallb]. rewrite Hhas.
  destruct (str_mem p perms); [exact IH | reflexivity].
Qed.

Lemma some_key (u : User) (perms ps : list string) :
  (forall p, hasPermission (Some u) p = Return (str_mem p perms)) ->
  some (Some u) ps = Return (existsb (fun p => str_mem p perms) ps).
Proof.
  intros Hhas. induction ps as [| p rest IH]; [reflexivity |].
  cbn [some existsb]. rewrite Hhas.
  destruct (str_mem p perms); [reflexivity | exact IH].
Qed.

(** X1: for a user with one of the three roles, [requireAllPermissions]
    lets the request through exactly when every listed permission is in the
    table at the role, [requireAnyPermission] exactly when one of them is,
    and each answers 403 otherwise.  With an empty list
    [requireAllPermissions] lets every authenticated user through and
    [requireAnyPermission] lets nobody through, whatever the role. *)
Theorem require_all_and_any (u : User) (r : string) (ps : list string) :
  role u = Some r -> isRoleKey r ->
  (requireAllPermissions ps (Some u) = None
   <-> forall p, In p ps -> inTable r p)
  /\ (requireAnyPermission ps (Some u) = None
      <-> exists p, In p ps /\ inTable r p)
  /\ (requireAllPermissions ps (Some u) = None
      \/ requireAllPermissions ps (Some u) = Some forbidden)
  /\ (requireAnyPermission ps (Some u) = None
      \/ requireAnyPermission ps (Some u) = Some forbidden)
  /\ (forall anyone : User,
         requireAllPermissions [] (Some anyone) = None
         /\ requireAnyPermission [] (Some anyone) = Some forbidden).
Proof.
  intros Hr Hkey.
  assert (Hhas : exists perms,
             lookup rolePermissions r = Some perms
             /\ forall p, hasPermission (Some u) p = Return (str_mem p perms)).
  { destruct (hasPermission_key u r "" Hr Hkey) as (perms & Hl & _).
    exists perms. split; [exact Hl |]. intros p.
    destruct (hasPermission_key u r p Hr Hkey) as (perms' & Hl' & Hp).
    congruence. }
  destruct Hhas as (perms & Hl & Hhas).
  assert (Htable : forall p, inTable r p <-> str_mem p perms = true).
  { intros p. unfold inTable. rewrite str_mem_In. split.
    - intros (perms' & Hl' & Hin). congruence.
    - intros Hin. now exists perms. }
  unfold requireAllPermissions, requireAnyPermission, gate.
  rewrite (every_key u perms ps Hhas), (some_key u perms ps Hhas).
  split; [| split; [| split; [| split]]].
  - destruct (forallb (fun p => str_mem p perms) ps) eqn:Hall.
    + split; [| reflexivity]. intros _ p Hin. apply Htable.
      rewrite forallb_forall in Hall. now apply Hall.
    + split; [discriminate |]. intros Hevery. exfalso.
      assert (Htrue : forallb (fun p => str_mem p perms) ps = true).
      { apply forallb_forall. intros p Hin. now apply Htable, Hevery. }
      congruence.
  - destruct (existsb (fun p => str_mem p perms) ps) eqn:Hany.
    + split; [| reflexivity]. intros _.
      apply existsb_exists in Hany. destruct Hany as (p & Hin & Hp).
      exists p. split; [exact Hin | now apply Htable].
    + split; [discriminate |]. intros (p & Hin & Hp). exfalso.
      assert (Htrue : existsb (fun p => str_mem p perms) ps = true).
      { apply existsb_exists. exists p. split; [exact Hin | now apply Htable]. }
      congruence.
  - destruct (forallb (fun p => str_mem p perms) ps); auto.
  - destruct (existsb (fun p => str_mem p perms) ps); auto.
  - intros anyone. split; reflexivity.
Qed.

Lemma require_all_and_any_witness :
  role Sample.carol = Some "manager"
  /\ isRoleKey "manager"
  /\ requireAllPermissions ["tasks:read-all"; "reports:view"] (Some Sample.carol)
     = None
  /\ requireAnyPermission ["users:delete"; "users:read"] (Some Sample.carol)
     = None.
Proof.
  split; [reflexivity |]. split; [right; left; reflexivity |].
  pose proof (require_all_and_any Sample.carol "manager") as Hthm.
  split.
  - apply (proj1 (Hthm ["tasks:read-all"; "reports:view"] eq_refl
                    (or_intror (or_introl eq_refl)))).
    intros p [<- | [<- | []]]; eexists; (split; [reflexivity |]);
      cbn; tauto.
  - apply (proj1 (proj2 (Hthm ["users:delete"; "users:read"] eq_refl
                           (or_intror (or_introl eq_refl))))).
    exists "users:read". split; [right; left; reflexivity |].
    eexists. split; [reflexivity |]. cbn. tauto.
Defined.

(** X2: on a single permission the three middlewares of rbac and
    [checkPermission] of auth are one and the same check, and requiring all
    permissions of two lists lets a request through exactly when requiring
    each list does. *)
Theorem require_compose (u : option User) (p : string) (ps qs : list string) :
  requirePermission p u = checkPermission p u
  /\ requireAnyPermission [p] u = checkPermission p u
  /\ requireAllPermissions [p] u = checkPermission p u
  /\ (requireAllPermissions (ps ++ qs) u = None
      <-> requireAllPermissions ps u = None
          /\ requireAllPermissions qs u = None).
Proof.
  assert (Hgate : forall c, gate u c = match u with
                                       | None => Some unauthenticated
                                       | Some _ =>
                                           match c with
                                           | Throw e => Some (errorHandler e)
                                           | Return false => Some forbidden
                                           | Return true => None
                                           end
                                       end) by reflexivity.
  split; [| split; [| split]].
  - unfold requirePermission, checkPermission, gate. now destruct u.
  - unfold requireAnyPermission, checkPermission, gate. cbn [some].
    destruct u as [usr |]; [| reflexivity].
    now destruct (hasPermission (Some usr) p) as [[|] | e].
  - unfold requireAllPermissions, checkPermission, gate. cbn [every].
    destruct u as [usr |]; [| reflexivity].
    now destruct (hasPermission (Some usr) p) as [[|] | e].
  - unfold requireAllPermissions. rewrite !Hgate.
    destruct u as [usr |]; [| split; [discriminate | intros [Hn _]; discriminate]].
    induction ps as [| x rest IH]; cbn [app every].
    + tauto.
    + destruct (hasPermission (Some usr) x) as [[|] | e].
      * exact IH.
      * split; [discriminate | intros [Hn _]; discriminate].
      * split; [discriminate | intros [Hn _]; discriminate].
Qed.

Lemma list_incl_check (l l' : list string) :
  forallb (fun p => str_mem p l') l = true -> forall p, In p l -> In p l'.
Proof.
  intros Hall p Hin. rewrite forallb_forall in Hall.
  now apply str_mem_In, Hall.
Qed.

Lemma inTable_iff (r p : string) (perms : list string) :
  lookup rolePermissions r = Some perms -> (inTable r p <-> In p perms).
Proof.
  intros Hl. unfold inTable. split.
  - intros (perms' & Hl' & Hin). congruence.
  - intros Hin. now exists perms.
Qed.

(** X3: the roles are ordered: every permission of a regular user is a
    permission of a manager, and every permission of a manager is one of an
    admin.  What an admin holds beyond a manager is exactly user management
    and the system settings; what a manager holds beyond a regular user is
    exactly the [-all] task permissions, reading users and the reports. *)
Theorem roles_are_ordered (p : string) :
  (inTable "user" p -> inTable "manager" p)
  /\ (inTable "manager" p -> inTable "admin" p)
  /\ (inTable "admin" p /\ ~ inTable "manager" p <-> In p adminOnly)
  /\ (inTable "manager" p /\ ~ inTable "user" p <-> In p managerLevel).
Proof.
  rewrite (inTable_iff "user" p _ eq_refl),
          (inTable_iff "manager" p _ eq_refl),
          (inTable_iff "admin" p _ eq_refl).
  split; [| split; [| split]].
  - apply list_incl_check. reflexivity.
  - apply list_incl_check. reflexivity.
  - split.
    + intros [Ha Hm]. cbn in Ha, Hm |- *.
      repeat (destruct Ha as [<- | Ha]; [try tauto |]); try contradiction;
        exfalso; apply Hm; tauto.
    + intros Hin. cbn in Hin.
      repeat (destruct Hin as [<- | Hin];
              [split; [cbn; tauto
                      | intros Hm; cbn in Hm;
                        repeat (destruct Hm as [Hm | Hm];
                                [discriminate Hm |]); exact Hm] |]).
      contradiction.
  - split.
    + intros [Hm Hu]. cbn in Hm, Hu |- *.
      repeat (destruct Hm as [<- | Hm]; [try tauto |]); try contradiction;
        exfalso; apply Hu; tauto.
    + intros Hin. cbn in Hin.
      repeat (destruct Hin as [<- | Hin];
              [split; [cbn; tauto
                      | intros Hu; cbn in Hu;
                        repeat (destruct Hu as [Hu | Hu];
                                [discriminate Hu |]); exact Hu] |]).
      contradiction.
Qed.

Lemma split_nonempty (sep : ascii) (s : string) : split sep s <> [].
Proof.
  destruct s as [| c rest]; cbn [split]; [discriminate |].
  destruct (Ascii.eqb c sep); [discriminate |].
  destruct (split sep rest); discriminate.
Qed.

Lemma split_noSpace (s : string) : noSpace s = true -> split " " s = [s].
Proof.
  unfold noSpace. induction s as [| c rest IH]; [reflexivity |].
  cbn [list_ascii_of_string forallb split]. intros Hall.
  apply andb_true_iff in Hall. destruct Hall as [Hc Hrest].
  apply negb_true_iff in Hc. rewrite Hc, (IH Hrest). reflexivity.
Qed.

Lemma split_scheme (scheme rest : string) :
  noSpace scheme = true ->
  split " " (scheme ++ " " ++ rest) = scheme :: split " " rest.
Proof.
  unfold noSpace. induction scheme as [| c scheme' IH].
  - intros _. reflexivity.
  - cbn [list_ascii_of_string forallb]. intros Hall.
    apply andb_true_iff in Hall. destruct Hall as [Hc Hrest].
    apply negb_true_iff in Hc.
    change ((String c scheme' ++ " " ++ rest)%string)
      with (String c (scheme' ++ " " ++ rest)).
    cbn [split]. rewrite Hc, (IH Hrest). reflexivity.
Qed.

Lemma truthy_scheme (scheme rest : string) :
  truthy_string (Some (scheme ++ " " ++ rest)) = true.
Proof. now destruct scheme. Qed.

(** X4: [authenticateToken] puts a user on the request only when the
    second space-separated piece of the header verifies as a token for the id
    of a user in the store; the user it puts there is that stored user
    without the password.  Every other outcome is a 401 or a 403. *)
Theorem authenticateToken_sound `{Libraries} `{Accounts}
        (authorization : option string) (st : Store) :
  (forall u, authenticateToken authorization st = inr u ->
     exists header token stored,
       authorization = Some header
       /\ nth_error (split " " header) 1 = Some token
       /\ verify token = Some (_id stored)
       /\ In stored (users st)
       /\ u = withoutPassword stored
       /\ password u = "")
  /\ (forall r, authenticateToken authorization st = inl r ->
        code r = 401%Z \/ code r = 403%Z).
Proof.
  unfold authenticateToken. split.
  - intros u.
    destruct authorization as [header |]; [| discriminate].
    destruct (truthy_string (Some header)); [| discriminate].
    destruct (nth_error (split " " header) 1) as [token |] eqn:Hnth;
      [| discriminate].
    destruct (negb (truthy_string (Some token))); [discriminate |].
    destruct (verify token) as [userId |] eqn:Hv; [| discriminate].
    destruct (isValidObjectId userId); [| discriminate].
    destruct (findUser userId st) as [stored |] eqn:Hf; [| discriminate].
    intros Hu. injection Hu as <-.
    exists header, token, stored.
    pose proof (UserFacts.findUser_id userId st stored Hf) as Hid.
    unfold findUser in Hf. apply find_some in Hf.
    repeat split; try reflexivity; try tauto. now rewrite Hid.
  - intros r.
    destruct (negb (truthy_string _)).
    + intros Hr. injection Hr as <-. now left.
    + destruct (match authorization with
                | Some header =>
                    if truthy_string authorization
                    then nth_error (split " " header) 1 else None
                | None => None
                end) as [token |].
      * destruct (verify token) as [userId |].
        -- destruct (isValidObjectId userId).
           ++ destruct (findUser userId st); [discriminate |].
              intros Hr. injection Hr as <-. now left.
           ++ intros Hr. injection Hr as <-. now right.
        -- intros Hr. injection Hr as <-. now right.
      * intros Hr. injection Hr as <-. now left.
Qed.

Lemma authenticateToken_sound_witness :
  @authenticateToken Reference.libraries Fixture.accounts
    (Some "Bearer jwt.b00000000000000000000002") Sample.store
  = inr (withoutPassword Sample.bob)
  /\ exists header token stored,
       Some "Bearer jwt.b00000000000000000000002" = Some header
       /\ nth_error (split " " header) 1 = Some token
       /\ @verify Fixture.accounts token = Some (_id stored)
       /\ In stored (users Sample.store)
       /\ withoutPassword Sample.bob = withoutPassword stored
       /\ password (withoutPassword Sample.bob) = "".
Proof.
  split; [reflexivity |].
  exact (proj1 (@authenticateToken_sound Reference.libraries Fixture.accounts
                  (Some "Bearer jwt.b00000000000000000000002") Sample.store)
               (withoutPassword Sample.bob) eq_refl).
Defined.

(** X5: the socket server and the HTTP routes authenticate alike:
    [authenticateToken] on a header made of any one word, a space and a
    token gives what the [io.use] middleware gives for the same token: the
    same user without the password, or the same message, with 403 for
    'Invalid token' and 401 for the other two.  So the word in front of the
    token ([Bearer] or another) is never looked at; a header that holds the
    token alone, with no space in it, is answered 401 'Authentication token
    required'. *)
Theorem authentication_agrees `{Libraries} `{Accounts}
        (scheme scheme' token : string) (st : Store) :
  noSpace scheme = true -> noSpace scheme' = true -> noSpace token = true ->
  authenticateToken (Some (scheme ++ " " ++ token)) st
  = match Sockets.authenticate (Some token) st with
    | inr u => inr u
    | inl message =>
        inl (mkResponse (Sockets.statusOf message) (Message message))
    end
  /\ authenticateToken (Some (scheme ++ " " ++ token)) st
     = authenticateToken (Some (scheme' ++ " " ++ token)) st
  /\ authenticateToken (Some token) st
     = inl (mkResponse 401 (Message "Authentication token required")).
Proof.
  intros Hs Hs' Ht.
  assert (Hhttp : forall word, noSpace word = true ->
             authenticateToken (Some (word ++ " " ++ token)) st
             = match Sockets.authenticate (Some token) st with
               | inr u => inr u
               | inl message =>
                   inl (mkResponse (Sockets.statusOf message) (Message message))
               end).
  { intros word Hword. unfold authenticateToken, Sockets.authenticate.
    rewrite truthy_scheme, (split_scheme word token Hword),
            (split_noSpace token Ht).
    cbn [nth_error].
    destruct (truthy_string (Some token)); cbn [negb]; [| reflexivity].
    destruct (verify token) as [userId |]; [| reflexivity].
    destruct (isValidObjectId userId); [| reflexivity].
    now destruct (findUser userId st). }
  split; [now apply Hhttp |]. split.
  - now rewrite (Hhttp scheme Hs), (Hhttp scheme' Hs').
  - unfold authenticateToken. rewrite (split_noSpace token Ht).
    now destruct (truthy_string (Some token)).
Qed.

Lemma authentication_agrees_witness :
  noSpace "Bearer" = true /\ noSpace "Basic" = true
  /\ noSpace "jwt.b00000000000000000000002" = true
  /\ @Sockets.authenticate Reference.libraries Fixture.accounts
       (Some "jwt.b00000000000000000000002") Sample.store
     = inr (withoutPassword Sample.bob)
  /\ @authenticateToken Reference.libraries Fixture.accounts
       (Some "Bearer jwt.b00000000000000000000002") Sample.store
     = inr (withoutPassword Sample.bob)
  /\ @authenticateToken Reference.libraries Fixture.accounts
       (Some "Bearer jwt.b00000000000000000000002") Sample.store
     = @authenticateToken Reference.libraries Fixture.accounts
         (Some "Basic jwt.b00000000000000000000002") Sample.store
  /\ @authenticateToken Reference.libraries Fixture.accounts
       (Some "jwt.b00000000000000000000002") Sample.store
     = inl (mkResponse 401 (Message "Authentication token required")).
Proof.
  split; [reflexivity |]. split; [reflexivity |]. split; [reflexivity |].
  split; [reflexivity |].
  pose proof (@authentication_agrees Reference.libraries Fixture.accounts
                "Bearer" "Basic" "jwt.b00000000000000000000002" Sample.store
                eq_refl eq_refl eq_refl) as (Hsocket & Hsame & Hbare).
  split; [exact Hsocket |]. split; [exact Hsame | exact Hbare].
Defined.

(** X6: for a user with one of the three roles the legacy
    [authorizeRoles('admin')] decides as [checkPermission] does on every
    admin-only permission, and [authorizeRoles('admin', 'manager')] as
    [checkPermission] does on every permission a manager holds and a regular
    user does not.  Whatever the role, [authorizeRoles] answers 403 or lets
    the request through: it never ends in the error handler. *)
Theorem authorizeRoles_agrees (u : User) (r : string) :
  role u = Some r -> isRoleKey r ->
  (forall p, In p adminOnly ->
     authorizeRoles ["admin"] (Some u) = checkPermission p (Some u))
  /\ (forall p, In p managerLevel ->
        authorizeRoles ["admin"; "manager"] (Some u) = checkPermission p (Some u))
  /\ (forall (anyone : User) (roles : list string),
         authorizeRoles roles (Some anyone) = None
         \/ authorizeRoles roles (Some anyone) = Some forbidden).
Proof.
  intros Hr Hkey.
  assert (Hne : r <> "") by (destruct Hkey as [-> | [-> | ->]]; discriminate).
  assert (Hcheck : forall p,
             checkPermission p (Some u)
             = match lookup rolePermissions r with
               | Some perms => if str_mem p perms then None else Some forbidden
               | None => Some forbidden
               end).
  { intros p. unfold checkPermission.
    rewrite (RbacFacts.hasPermission_role u r p Hr Hne).
    apply RbacFacts.lookup_rolePermissions in Hkey. destruct Hkey as [perms ->].
    now destruct (str_mem p perms). }
  split; [| split].
  - intros p Hin. rewrite Hcheck. unfold authorizeRoles. rewrite Hr.
    cbn in Hin.
    destruct Hkey as [-> | [-> | ->]];
      repeat (destruct Hin as [<- | Hin]; [reflexivity |]); contradiction.
  - intros p Hin. rewrite Hcheck. unfold authorizeRoles. rewrite Hr.
    cbn in Hin.
    destruct Hkey as [-> | [-> | ->]];
      repeat (destruct Hin as [<- | Hin]; [reflexivity |]); contradiction.
  - intros anyone roles. unfold authorizeRoles.
    destruct (role anyone) as [r' |]; [| now right].
    destruct (includes roles r'); auto.
Qed.

Lemma authorizeRoles_agrees_witness :
  role Sample.carol = Some "manager" /\ isRoleKey "manager"
  /\ authorizeRoles ["admin"] (Some Sample.carol)
     = checkPermission "users:delete" (Some Sample.carol)
  /\ authorizeRoles ["admin"; "manager"] (Some Sample.carol)
     = checkPermission "reports:view" (Some Sample.carol).
Proof.
  split; [reflexivity |]. split; [right; left; reflexivity |].
  pose proof (authorizeRoles_agrees Sample.carol "manager" eq_refl
                (or_intror (or_introl eq_refl))) as (Hadmin & Hmanager & _).
  split.
  - apply Hadmin. cbn. tauto.
  - apply Hmanager. cbn. tauto.
Defined.

End MiddlewareFacts.

(** ** GET /api/tasks/:id *)

Module TaskViewFacts.
Import Js Model Http Reply Tasks TaskView ObjectFacts.

Lemma findTask_member `{Libraries} (id : string) (st : Store) (task : Task) :
  findTask id st = Some task -> In task (tasks st) /\ task_id task = id.
Proof.
  unfold findTask. intros Hf. apply find_some in Hf.
  split; [tauto | now apply String.eqb_eq].
Qed.

(** For a requester who is in the store, a populated reference is the
    requester exactly when the id stored in the task is the requester's. *)
Lemma refersTo_stored `{Libraries} (id : string) (u : User) (st : Store) :
  (exists stored, findUser (_id u) st = Some stored) ->
  refersTo id u st = String.eqb id (_id u).
Proof.
  intros [stored Hstored]. unfold refersTo.
  destruct (findUser id st) as [referred |] eqn:Hf.
  - now rewrite (UserFacts.findUser_id id st referred Hf).
  - symmetry. apply String.eqb_neq. intros ->. congruence.
Qed.

Lemma listed_all `{Libraries} (u : User) (st : Store) (t : Task) :
  In t (listed u [] st)
  <-> In t (tasks st) /\ (canSeeAllTasks u = true \/ ownsb u t = true).
Proof.
  unfold listed, findTasks. rewrite filter_In.
  destruct (canSeeAllTasks u) eqn:Hsee.
  - unfold listQuery. rewrite Hsee. cbn. tauto.
  - rewrite (TaskFacts.matches_listQuery_regular u [] t Hsee). cbn [filterQuery].
    cbn. split; intros [Hin Hown]; (split; [exact Hin |]).
    + now right.
    + destruct Hown as [Habs | Hown]; [discriminate | exact Hown].
Qed.

(** X8: GET /api/tasks/:id agrees with GET /api/tasks: for a requester
    in the store, a task that exists is sent (200) exactly when the
    unfiltered listing of the same requester selects it, and is answered
    403 otherwise. *)
Theorem view_iff_listed `{Libraries} (req : AuthRequest) (st : Store)
        (u : User) (task : Task) :
  user req = Some u ->
  (exists stored, findUser (_id u) st = Some stored) ->
  isValidObjectId (params_id req) = true ->
  findTask (params_id req) st = Some task ->
  (getTask req st = Sent 200 (populate st task) <-> In task (listed u [] st))
  /\ (~ In task (listed u [] st) ->
      getTask req st
      = Failed 403 "You do not have permission to view this task").
Proof.
  intros Hu Hstored Hvalid Hfind.
  pose proof (findTask_member _ _ _ Hfind) as [Hin _].
  unfold getTask. rewrite Hvalid, Hfind, Hu. cbn [negb].
  rewrite !(refersTo_stored _ u st Hstored).
  rewrite (listed_all u st task). unfold canSeeAllTasks, ownsb.
  destruct (String.eqb (createdBy task) (_id u)),
           (String.eqb (assignedTo task) (_id u)),
           (hasRole u "admin" || hasRole u "manager"); cbn;
    (split; [split; [intros _; tauto | intros _; reflexivity] | tauto])
    || (split; [split; [discriminate | intros [_ [Habs | Habs]]; discriminate]
               | intros _; reflexivity]).
Qed.

Lemma view_iff_listed_witness :
  user (Sample.request Sample.bob (task_id Sample.report) [] []) = Some Sample.bob
  /\ findUser (_id Sample.bob) Sample.store = Some Sample.bob
  /\ In Sample.report (@listed Reference.libraries Sample.bob [] Sample.store)
  /\ @getTask Reference.libraries
       (Sample.request Sample.bob (task_id Sample.report) [] []) Sample.store
     = Sent 200 (populate Sample.store Sample.report).
Proof.
  split; [reflexivity |]. split; [reflexivity |].
  assert (Hin : In Sample.report
                   (@listed Reference.libraries Sample.bob [] Sample.store))
    by (vm_compute; tauto).
  split; [exact Hin |].
  exact (proj2 (proj1 (@view_iff_listed Reference.libraries
                         (Sample.request Sample.bob (task_id Sample.report) [] [])
                         Sample.store Sample.bob Sample.report eq_refl
                         (ex_intro _ Sample.bob eq_refl) eq_refl eq_refl))
               Hin).
Defined.

(** X9: the three task routes are ordered by what they ask of the
    requester: whoever DELETE lets delete a task is not refused by PUT on
    it (no 403, whatever the body), and whoever PUT lets update a task is
    sent it by GET. *)
Theorem delete_update_view `{Libraries} (req : AuthRequest) (st : Store) (u : User) :
  user req = Some u ->
  (exists stored, findUser (_id u) st = Some stored) ->
  (code (fst (Tasks.deleteTask req st)) = 200%Z ->
   forall b,
     code (fst (putTask (mkRequest (user req) (params_id req) (query req) b) st))
     <> 403%Z)
  /\ (code (fst (putTask req st)) = 200%Z ->
      Reply.status (getTask req st) = 200%Z).
Proof.
  intros Hu Hstored. split.
  - unfold Tasks.deleteTask. intros Hdel b.
    destruct (isValidObjectId (params_id req)) eqn:Hvalid;
      [| discriminate Hdel].
    cbn [negb] in Hdel.
    destruct (findTask (params_id req) st) as [task |] eqn:Hfind;
      [| discriminate Hdel].
    rewrite Hu in Hdel.
    destruct (negb (String.eqb (createdBy task) (_id u))
              && negb (hasRole u "admin")) eqn:Hperm; [discriminate Hdel |].
    unfold putTask. cbn [body params_id user].
    destruct (negb (Validator.isEmpty _)); [discriminate |].
    rewrite Hvalid, Hfind, Hu. cbn [negb].
    replace (negb (String.eqb (createdBy task) (_id u))
             && negb (hasRole u "admin") && negb (hasRole u "manager"))
      with false by (now rewrite Hperm).
    destruct (isSome (parentTaskId task) && truthy (lookup b "isRecurring"));
      [discriminate |].
    destruct (castUpdate b task); discriminate.
  - unfold putTask. intros Hput.
    destruct (negb (Validator.isEmpty _)); [discriminate Hput |].
    destruct (isValidObjectId (params_id req)) eqn:Hvalid;
      [| discriminate Hput].
    cbn [negb] in Hput.
    destruct (findTask (params_id req) st) as [task |] eqn:Hfind;
      [| discriminate Hput].
    rewrite Hu in Hput.
    destruct (negb (String.eqb (createdBy task) (_id u))
              && negb (hasRole u "admin") && negb (hasRole u "manager"))
      eqn:Hperm; [discriminate Hput |].
    unfold getTask. rewrite Hvalid, Hfind, Hu. cbn [negb].
    rewrite !(refersTo_stored _ u st Hstored).
    destruct (String.eqb (createdBy task) (_id u)),
             (String.eqb (assignedTo task) (_id u)),
             (hasRole u "admin"), (hasRole u "manager");
      try reflexivity; discriminate Hperm.
Qed.

Lemma delete_update_view_witness :
  user (Sample.request Sample.bob (task_id Sample.report) [] [])
  = Some Sample.bob
  /\ findUser (_id Sample.bob) Sample.store = Some Sample.bob
  /\ code (fst (@Tasks.deleteTask Reference.libraries
                  (Sample.request Sample.bob (task_id Sample.report) [] [])
                  Sample.store)) = 200%Z
  /\ code (fst (@putTask Reference.libraries
                  (Sample.request Sample.bob (task_id Sample.report) []
                     [("status", JScalar (SStr "completed"))])
                  Sample.store)) <> 403%Z.
Proof.
  split; [reflexivity |]. split; [reflexivity |].
  split; [vm_compute; reflexivity |].
  exact (proj1 (@delete_update_view Reference.libraries
                  (Sample.request Sample.bob (task_id Sample.report) [] [])
                  Sample.store Sample.bob eq_refl
                  (ex_intro _ Sample.bob eq_refl))
               eq_refl [("status", JScalar (SStr "completed"))]).
Defined.

End TaskViewFacts.

(** ** GET /api/tasks/stats: the counts *)

Module StatsFacts.
Import Js Model Http Tasks Measure ObjectFacts.

Lemma lookup_assign_same {A} (k : string) (v : A) (o : object A) :
  lookup (assign k v o) k = Some v.
Proof.
  induction o as [| [k' v'] rest IH]; cbn.
  - now rewrite String.eqb_refl.
  - destruct (String.eqb_spec k k') as [-> | Hne]; cbn.
    + now rewrite String.eqb_refl.
    + destruct (String.eqb_spec k k') as [-> | _]; [contradiction | exact IH].
Qed.

Lemma total_assign (k : string) (v : nat) (o : object nat) :
  total (assign k v o) + match lookup o k with Some n => n | None => 0 end
  = total o + v.
Proof.
  induction o as [| [k' v'] rest IH]; cbn [assign lookup].
  - unfold total. cbn. lia.
  - unfold total in *.
    destruct (String.eqb_spec k k') as [-> | Hne]; cbn [fold_right snd] in *; lia.
Qed.

Lemma lookup_fold_bump (key : Task -> string) (ts : list Task) (acc : object nat)
      (k : string) :
  lookup (fold_left (bump key) ts acc) k
  = match lookup acc k with
    | Some n => Some (n + count key k ts)
    | None => match count key k ts with 0 => None | S n => Some (S n) end
    end.
Proof.
  revert acc. induction ts as [| t rest IH]; intros acc.
  - unfold count. cbn. destruct (lookup acc k); [f_equal; lia | reflexivity].
  - cbn [fold_left]. rewrite IH. unfold bump, count. cbn [filter].
    destruct (String.eqb_spec (key t) k) as [<- | Hne].
    + rewrite lookup_assign_same. cbn [length].
      destruct (lookup acc (key t)); f_equal; lia.
    + rewrite lookup_assign_other by congruence.
      reflexivity.
Qed.

Lemma total_fold_bump (key : Task -> string) (ts : list Task) (acc : object nat) :
  total (fold_left (bump key) ts acc) = total acc + length ts.
Proof.
  revert acc. induction ts as [| t rest IH]; intros acc; cbn [fold_left length].
  - lia.
  - rewrite IH. unfold bump.
    pose proof (total_assign (key t)
                  (S (match lookup acc (key t) with Some n => n | None => 0 end))
                  acc).
    lia.
Qed.

Lemma groupCounts_bump `{Libraries} (key : Task -> string) (q : object entry)
      (st : Store) :
  groupCounts key q st = fold_left (bump key) (findTasks q st) [].
Proof. reflexivity. Qed.

(** X10: the statistics count what the base query selects: the object of
    status counts (and likewise of priority counts) holds, at each value, the
    number of selected tasks with that value, and holds no key at all for a
    value no selected task has; the counts of either object add up to the
    number of selected tasks. *)
Theorem stats_count_the_selection `{Libraries} (u : User) (now : Z) (st : Store)
        (k : string) :
  let s := statsOf (statsQuery u) now st in
  let selected := findTasks (statsQuery u) st in
  lookup (statusCounts s) k
  = match count status k selected with 0 => None | S n => Some (S n) end
  /\ lookup (priorityCounts s) k
     = match count priority k selected with 0 => None | S n => Some (S n) end
  /\ total (statusCounts s) = length selected
  /\ total (priorityCounts s) = length selected.
Proof.
  cbn zeta. unfold statsOf. cbn [statusCounts priorityCounts].
  rewrite !groupCounts_bump, !lookup_fold_bump, !total_fold_bump.
  cbn [lookup total fold_right]. auto.
Qed.

Lemma filter_length_le {A} (f g : A -> bool) (l : list A) :
  (forall x, f x = true -> g x = true) ->
  length (filter f l) <= length (filter g l).
Proof.
  intros Himp. induction l as [| x rest IH]; cbn; [lia |].
  destruct (f x) eqn:Hf.
  - rewrite (Himp x Hf). cbn. lia.
  - destruct (g x); cbn; lia.
Qed.

Lemma filter_length_disjoint {A} (f g : A -> bool) (l : list A) :
  (forall x, f x = true -> g x = false) ->
  length (filter f l) + length (filter g l) <= length l.
Proof.
  intros Hdis. induction l as [| x rest IH]; cbn; [lia |].
  destruct (f x) eqn:Hf.
  - rewrite (Hdis x Hf). cbn. lia.
  - destruct (g x); cbn; lia.
Qed.

Lemma statsQuery_cases (u : User) :
  statsQuery u = [] \/ statsQuery u = [("$or", ownTasks u)].
Proof.
  unfold statsQuery.
  destruct (negb (hasRole u "admin") && negb (hasRole u "manager")); auto.
Qed.

Lemma lookup_statsQuery (u : User) (k : string) :
  k <> "$or" -> lookup (statsQuery u) k = None.
Proof.
  intros Hne. destruct (statsQuery_cases u) as [-> | ->]; cbn; [reflexivity |].
  now destruct (String.eqb_spec k "$or").
Qed.

Lemma findTasks_assign_fresh `{Libraries} (q : object entry) (k : string)
      (e : entry) (st : Store) :
  lookup q k = None ->
  findTasks (assign k e q) st
  = filter (fun t => holds t (k, e)) (findTasks q st).
Proof.
  intros Hfresh. unfold findTasks. rewrite TaskFacts.filter_twice.
  apply filter_ext. intros t. now apply TaskFacts.matches_assign_fresh.
Qed.

(** X11: the three due counts are counts over the selection: [dueToday]
    counts the selected tasks due in [[today, tomorrow)], [dueThisWeek] those
    due in [[today, nextWeek)], and [overdue] counts only tasks due before
    today.  So no task is counted both as overdue and as due this week, and,
    where tomorrow is not after next week, the tasks due today are among
    those due this week. *)
Theorem stats_due_windows `{Libraries} (u : User) (now : Z) (st : Store) :
  let s := statsOf (statsQuery u) now st in
  let selected := findTasks (statsQuery u) st in
  let today := startOfDay now in
  dueTodayCount s = dueWithin today (addDays today 1) selected
  /\ dueThisWeekCount s = dueWithin today (addDays today 7) selected
  /\ overdueCount s + dueThisWeekCount s <= length selected
  /\ ((addDays today 1 <= addDays today 7)%Z ->
      dueTodayCount s <= dueThisWeekCount s).
Proof.
  cbn zeta. unfold statsOf.
  cbn [dueTodayCount dueThisWeekCount overdueCount].
  unfold countDocuments, dueWithin.
  assert (Hdue : lookup (statsQuery u) "dueDate" = None)
    by (apply lookup_statsQuery; discriminate).
  assert (Hstatus : lookup (assign "dueDate"
                              (On (Range None (Some (startOfDay now))))
                              (statsQuery u)) "status" = None).
  { rewrite lookup_assign_other by discriminate.
    apply lookup_statsQuery. discriminate. }
  rewrite !(findTasks_assign_fresh (statsQuery u) "dueDate" _ st Hdue).
  rewrite (findTasks_assign_fresh _ "status" _ st Hstatus).
  rewrite (findTasks_assign_fresh (statsQuery u) "dueDate" _ st Hdue).
  rewrite TaskFacts.filter_twice.
  unfold holds. cbn [fst snd sat fieldOf String.eqb Ascii.eqb Bool.eqb].
  split; [reflexivity |]. split; [reflexivity |]. split.
  - apply filter_length_disjoint. intros t Hover.
    apply andb_true_iff in Hover. destruct Hover as [Hover _].
    cbn in Hover. apply Z.ltb_lt in Hover.
    apply andb_false_iff. left. apply Z.leb_gt. exact Hover.
  - intros Hle. apply filter_length_le. intros t Hin.
    apply andb_true_iff in Hin. destruct Hin as [Hfrom Hto].
    apply andb_true_iff. split; [exact Hfrom |].
    apply Z.ltb_lt in Hto. apply Z.ltb_lt. lia.
Qed.

Lemma stats_due_windows_witness :
  (Reference.addDays (Reference.startOfDay Sample.jan1) 1
   <= Reference.addDays (Reference.startOfDay Sample.jan1) 7)%Z
  /\ dueTodayCount (@statsOf Reference.libraries (statsQuery Sample.bob)
                      Sample.jan1 Sample.store)
     <= dueThisWeekCount (@statsOf Reference.libraries (statsQuery Sample.bob)
                            Sample.jan1 Sample.store).
Proof.
  assert (Hle : (Reference.addDays (Reference.startOfDay Sample.jan1) 1
                 <= Reference.addDays (Reference.startOfDay Sample.jan1) 7)%Z)
    by (vm_compute; discriminate).
  split; [exact Hle |].
  exact (proj2 (proj2 (proj2 (@stats_due_windows Reference.libraries Sample.bob
                                Sample.jan1 Sample.store))) Hle).
Defined.

End StatsFacts.

(** ** DELETE /api/tasks/:id: what a deletion changes *)

Module TaskEffectFacts.
Import Js Model Http Tasks ObjectFacts.

(** X12: a successful DELETE removes the documents with the id of the
    request and nothing else: the users are untouched, every other task
    stays, also the instances spawned from the deleted task, which keep
    their [parentTaskId] (the route does not cascade); the assignee, when
    not the requester, gets one unread [system] notification, and nobody
    else gets any. *)
Theorem delete_removes_one_task `{Libraries} (req : AuthRequest) (st : Store)
        (task : Task) (u : User) :
  isValidObjectId (params_id req) = true ->
  findTask (params_id req) st = Some task ->
  user req = Some u ->
  code (fst (Tasks.deleteTask req st)) = 200%Z ->
  let st' := snd (Tasks.deleteTask req st) in
  users st' = users st
  /\ (forall t, In t (tasks st') <-> In t (tasks st) /\ task_id t <> task_id task)
  /\ (forall t, In t (tasks st) -> parentTaskId t = Some (task_id task) ->
                task_id t <> task_id task -> In t (tasks st'))
  /\ (assignedTo task = _id u -> notifications st' = notifications st)
  /\ (assignedTo task <> _id u -> isValidObjectId (assignedTo task) = true ->
      notifications st'
      = (notifications st
         ++ [mkNotification (assignedTo task) ("Task deleted: " ++ title task)
               "system" false None])%list).
Proof.
  intros Hvalid Hfind Hu. unfold Tasks.deleteTask.
  rewrite Hvalid, Hfind, Hu. cbn [negb].
  destruct (negb (String.eqb (createdBy task) (_id u))
            && negb (hasRole u "admin")); [discriminate |].
  intros _. cbn zeta. cbn [snd].
  assert (Htasks : forall st0 t,
             tasks st0 = tasks st ->
             In t (tasks (Model.deleteTask (task_id task) st0))
             <-> In t (tasks st) /\ task_id t <> task_id task).
  { intros st0 t Hsame. unfold Model.deleteTask, with_tasks. cbn [tasks].
    rewrite filter_In, Hsame, negb_true_iff, String.eqb_neq. tauto. }
  assert (Hsame : tasks (if negb (String.eqb (assignedTo task) (_id u))
                         then Server.createNotification (assignedTo task)
                                ("Task deleted: " ++ title task) "system" None st
                         else st) = tasks st).
  { destruct (negb (String.eqb (assignedTo task) (_id u))); [| reflexivity].
    apply TaskFacts.tasks_createNotification. }
  split; [| split; [| split; [| split]]].
  - destruct (negb (String.eqb (assignedTo task) (_id u))); [| reflexivity].
    unfold Server.createNotification.
    now destruct (isValidObjectId (assignedTo task)).
  - intros t. now apply Htasks.
  - intros t Hin _ Hne. apply Htasks; [exact Hsame | tauto].
  - intros Hself. rewrite Hself, String.eqb_refl. reflexivity.
  - intros Hother Hassignee. apply String.eqb_neq in Hother.
    rewrite Hother. cbn [negb]. unfold Server.createNotification.
    rewrite Hassignee. reflexivity.
Qed.

Lemma delete_removes_one_task_witness :
  Reference.isValidObjectId (task_id Sample.standup) = true
  /\ findTask (task_id Sample.standup) Sample.store = Some Sample.standup
  /\ code (fst (@Tasks.deleteTask Reference.libraries
                  (Sample.request Sample.alice (task_id Sample.standup) [] [])
                  Sample.store)) = 200%Z
  /\ parentTaskId Sample.standupInstance = Some (task_id Sample.standup)
  /\ In Sample.standupInstance
        (tasks (snd (@Tasks.deleteTask Reference.libraries
                       (Sample.request Sample.alice (task_id Sample.standup) [] [])
                       Sample.store))).
Proof.
  split; [reflexivity |]. split; [reflexivity |].
  split; [vm_compute; reflexivity |]. split; [reflexivity |].
  apply (proj1 (proj2 (proj2 (@delete_removes_one_task Reference.libraries
                                (Sample.request Sample.alice
                                   (task_id Sample.standup) [] [])
                                Sample.store Sample.standup Sample.alice
                                eq_refl eq_refl eq_refl eq_refl)))).
  - vm_compute. tauto.
  - reflexivity.
  - vm_compute. discriminate.
Defined.

End TaskEffectFacts.

(** ** routes/notifications *)

Module NotificationFacts.
Import Js Model Http Reply Notifications.

Lemma unreadOf_markRead (u : User) (n : Notification) :
  unreadOf u (markRead n) = false.
Proof. unfold unreadOf, markRead. cbn. apply andb_false_r. Qed.

(** X13: PUT /api/notifications/read-all touches the requester's unread
    notifications and nothing else: afterwards the requester's unread count
    is 0, the notifications of every other user are what they were, no
    notification is added, removed, reordered or reworded, users and tasks
    are untouched, and a second call changes nothing. *)
Theorem readAll_clears_own_only (u w : User) (st : Store) :
  let st' := snd (readAll (Some u) st) in
  unreadCount (Some u) st' = Sent 200 0
  /\ (_id w <> _id u ->
      filter (mine w) (notifications st') = filter (mine w) (notifications st))
  /\ map content (notifications st') = map content (notifications st)
  /\ users st' = users st /\ tasks st' = tasks st
  /\ snd (readAll (Some u) st') = st'.
Proof.
  cbn zeta. unfold readAll, unreadCount. cbn [snd].
  unfold with_notifications. cbn [notifications users tasks].
  split; [| split; [| split; [| split; [| split]]]]; try reflexivity.
  - f_equal. induction (notifications st) as [| n rest IH]; [reflexivity |].
    cbn [map filter].
    destruct (unreadOf u n) eqn:Hn.
    + rewrite unreadOf_markRead. exact IH.
    + rewrite Hn. exact IH.
  - intros Hother.
    induction (notifications st) as [| n rest IH]; [reflexivity |].
    cbn [map filter].
    assert (Hsame : mine w (if unreadOf u n then markRead n else n) = mine w n)
      by (now destruct (unreadOf u n)).
    rewrite Hsame, IH. destruct (mine w n) eqn:Hw; [| reflexivity].
    f_equal. unfold unreadOf, mine in *. apply String.eqb_eq in Hw.
    destruct (String.eqb_spec (recipient n) (_id u)) as [Hmine | _];
      [congruence | reflexivity].
  - induction (notifications st) as [| n rest IH]; [reflexivity |].
    cbn [map]. rewrite IH. now destruct (unreadOf u n).
  - f_equal. induction (notifications st) as [| n rest IH]; [reflexivity |].
    cbn [map]. rewrite IH. f_equal.
    destruct (unreadOf u n) eqn:Hn.
    + now rewrite unreadOf_markRead.
    + now rewrite Hn.
Qed.

Lemma readAll_clears_own_only_witness :
  _id Sample.dave <> _id Sample.bob
  /\ unreadCount (Some Sample.bob) Fixture.inbox = Sent 200 1
  /\ unreadCount (Some Sample.bob) (snd (readAll (Some Sample.bob) Fixture.inbox))
     = Sent 200 0
  /\ filter (mine Sample.dave)
       (notifications (snd (readAll (Some Sample.bob) Fixture.inbox)))
     = filter (mine Sample.dave) (notifications Fixture.inbox).
Proof.
  assert (Hother : _id Sample.dave <> _id Sample.bob) by discriminate.
  split; [exact Hother |]. split; [reflexivity |].
  pose proof (readAll_clears_own_only Sample.bob Sample.dave Fixture.inbox)
    as (Hzero & Hframe & _).
  split; [exact Hzero | exact (Hframe Hother)].
Defined.

End NotificationFacts.

(** ** index: connected users *)

Module SocketFacts.
Import Js Model Sockets ObjectFacts.

(** X14: [connectedUsers] keeps one socket per user and follows the last
    event of the user: a new connection replaces the socket the user had, and
    the disconnect of any socket of the user, also of one that was replaced
    long ago, removes the entry, so that a notification is no longer emitted to
    the user although another socket is open.  The entries of the other users
    are never touched. *)
Theorem last_socket_event_decides `{Libraries} (m : connectedUsers)
        (s other : Socket) (id : string) :
  socketUser s = Some id ->
  lookup (onConnection s m) id = Some (socketId s)
  /\ (socketUser other = Some id ->
      lookup (onDisconnect other (onConnection s m)) id = None
      /\ emitsTo id (onDisconnect other (onConnection s m)) = None)
  /\ (forall id', id' <> id ->
        lookup (onConnection s m) id' = lookup m id'
        /\ lookup (onDisconnect s m) id' = lookup m id').
Proof.
  intros Hs. unfold onConnection, onDisconnect, emitsTo. rewrite Hs.
  split; [apply StatsFacts.lookup_assign_same |]. split.
  - intros ->. rewrite lookup_without_same.
    split; [reflexivity | now destruct (isValidObjectId id)].
  - intros id' Hne. split.
    + now apply lookup_assign_other.
    + now apply lookup_without_other.
Qed.

Lemma last_socket_event_decides_witness :
  socketUser Fixture.tab2 = Some Sample.bobId
  /\ socketUser Fixture.tab1 = Some Sample.bobId
  /\ socketId Fixture.tab1 <> socketId Fixture.tab2
  /\ lookup (onConnection Fixture.tab2 (onConnection Fixture.tab1 []))
            Sample.bobId
     = Some (socketId Fixture.tab2)
  /\ @emitsTo Reference.libraries Sample.bobId
       (onDisconnect Fixture.tab1
          (onConnection Fixture.tab2 (onConnection Fixture.tab1 [])))
     = None.
Proof.
  split; [reflexivity |]. split; [reflexivity |]. split; [discriminate |].
  pose proof (@last_socket_event_decides Reference.libraries
                (onConnection Fixture.tab1 []) Fixture.tab2 Fixture.tab1
                Sample.bobId eq_refl) as (Hlast & Hgone & _).
  split; [exact Hlast | exact (proj2 (Hgone eq_refl))].
Defined.

End SocketFacts.

(** ** routes/auth and the accounts *)

Module AuthFacts.
Import Js Model Validator Http Rbac Middleware Auth ObjectFacts.

Lemma check_nil (ok : bool) (p m : string) : check ok p m = [] <-> ok = true.
Proof. unfold check. destruct ok; split; intros; (reflexivity || discriminate). Qed.

Lemma roles_keys (r : string) : In r roles <-> isRoleKey r.
Proof. unfold roles, isRoleKey. cbn. intuition congruence. Qed.

(** A body that passes the validators of register holds its e-mail,
    password and name, and a role of the three when it holds one. *)
Lemma registerErrors_nil `{Accounts} (b : object string) :
  registerErrors b = [] ->
  exists email password name,
    lookup b "email" = Some email
    /\ lookup b "password" = Some password
    /\ lookup b "name" = Some name
    /\ (forall r, lookup b "role" = Some r -> In r roles).
Proof.
  unfold registerErrors. intros Hnil.
  apply app_eq_nil in Hnil. destruct Hnil as [He Hnil].
  apply app_eq_nil in Hnil. destruct Hnil as [Hp Hnil].
  apply app_eq_nil in Hnil. destruct Hnil as [Hn Hr].
  apply check_nil in He, Hp, Hn. unfold field in *.
  destruct (lookup b "email") as [email |];
    [| rewrite isEmail_empty in He; discriminate He].
  destruct (lookup b "password") as [password |]; [| discriminate Hp].
  destruct (lookup b "name") as [name |]; [| discriminate Hn].
  exists email, password, name. repeat split.
  intros r Hrole. rewrite Hrole in Hr. apply check_nil in Hr.
  now apply str_mem_In.
Qed.

Lemma postUserErrors_nil `{Accounts} (b : object string) :
  postUserErrors b = [] ->
  exists email password name role,
    lookup b "email" = Some email
    /\ lookup b "password" = Some password
    /\ lookup b "name" = Some name
    /\ lookup b "role" = Some role
    /\ In role roles.
Proof.
  unfold postUserErrors. intros Hnil.
  apply app_eq_nil in Hnil. destruct Hnil as [Hn Hnil].
  apply app_eq_nil in Hnil. destruct Hnil as [He Hnil].
  apply app_eq_nil in Hnil. destruct Hnil as [Hp Hr].
  apply check_nil in He, Hp, Hn, Hr. unfold field in *.
  destruct (lookup b "email") as [email |];
    [| rewrite isEmail_empty in He; discriminate He].
  destruct (lookup b "password") as [password |]; [| discriminate Hp].
  destruct (lookup b "name") as [name |]; [| discriminate Hn].
  destruct (lookup b "role") as [role |]; [| discriminate Hr].
  exists email, password, name, role. repeat split.
  now apply str_mem_In.
Qed.

Lemma isEmpty_nil (errors : list ValidationError) :
  isEmpty errors = true <-> errors = [].
Proof. destruct errors; split; intros; (reflexivity || discriminate). Qed.

Lemma checkPermission_held (u : User) (r p : string) :
  role u = Some r -> inTable r p -> checkPermission p (Some u) = None.
Proof.
  intros Hr Hin. unfold checkPermission.
  assert (Htrue : hasPermission (Some u) p = Return true).
  { apply RbacFacts.hasPermission_true_iff. now exists u, r. }
  now rewrite Htrue.
Qed.

Lemma create_needs_admin (u : User) (r : string) :
  role u = Some r -> isRoleKey r -> r <> "admin" ->
  checkPermission "users:create" (Some u) = Some forbidden.
Proof.
  intros Hr Hkey Hna. unfold checkPermission.
  assert (Hne : r <> "") by (destruct Hkey as [-> | [-> | ->]]; discriminate).
  rewrite (RbacFacts.hasPermission_role u r _ Hr Hne).
  destruct Hkey as [-> | [-> | ->]]; [contradiction | reflexivity | reflexivity].
Qed.

(** X15: POST /api/auth/register stands behind no middleware and stores
    the role the body asks for ('user' only when the body names none): a
    body that passes the validators, with an e-mail no user has, is answered
    201 and the new account has one of the three roles, the one asked for.
    Asked for 'admin', the account holds every permission of the table;
    the same body sent to POST /api/users by a manager or a regular user
    is answered 403 and nothing is stored. *)
Theorem register_grants_requested_role `{Libraries} `{Accounts}
        (b : object string) (st : Store) :
  registerErrors b = [] ->
  findByEmail (field b "email") st = None ->
  exists account,
    register b st
    = (Granted 201 "User registered successfully" (Some (sign (_id account)))
               (_id account) (email account) (name account) (role account),
       addUser account st)
    /\ role account
       = Some (match lookup b "role" with Some r => r | None => "user" end)
    /\ (exists r, role account = Some r /\ isRoleKey r)
    /\ (lookup b "role" = Some "admin" ->
        forall p, inTable "admin" p -> checkPermission p (Some account) = None)
    /\ (forall requester r,
           role requester = Some r -> isRoleKey r -> r <> "admin" ->
           postUser (Some requester) b st
           = (Refused 403 "You do not have permission to perform this action",
              st)).
Proof.
  intros Hvalid Hfresh.
  destruct (registerErrors_nil b Hvalid)
    as (email & password & name & He & Hp & Hn & Hrole).
  unfold field in Hfresh. rewrite He in Hfresh.
  assert (Hchosen : match lookup b "role" with
                    | Some r => if truthy_string (Some r) then r else "user"
                    | None => "user"
                    end
                    = match lookup b "role" with Some r => r | None => "user" end).
  { destruct (lookup b "role") as [r |]; [| reflexivity].
    specialize (Hrole r eq_refl). apply roles_keys in Hrole.
    destruct Hrole as [-> | [-> | ->]]; reflexivity. }
  eexists (mkUser (newObjectId st) name email (hashPassword password) (Some _)).
  split; [| split; [| split; [| split]]].
  - unfold register. rewrite Hvalid, He, Hp, Hn, Hfresh. cbn [isEmpty negb].
    cbn [_id Model.email Model.name Model.role]. reflexivity.
  - cbn [role]. now rewrite Hchosen.
  - cbn [role]. rewrite Hchosen. eexists. split; [reflexivity |].
    destruct (lookup b "role") as [r |]; [| right; right; reflexivity].
    apply roles_keys. now apply Hrole.
  - intros Hadmin p Hin. apply (checkPermission_held _ "admin"); [| exact Hin].
    cbn [role]. now rewrite Hadmin.
  - intros requester r Hr Hkey Hna. unfold postUser.
    now rewrite (create_needs_admin requester r Hr Hkey Hna).
Qed.

Lemma register_grants_requested_role_witness :
  @registerErrors Fixture.accounts Fixture.eveBody = []
  /\ findByEmail (field Fixture.eveBody "email") Sample.store = None
  /\ exists account,
       @register Reference.libraries Fixture.accounts Fixture.eveBody Sample.store
       = (Granted 201 "User registered successfully"
                  (Some (@sign Fixture.accounts (_id account)))
                  (_id account) (email account) (name account) (role account),
          addUser account Sample.store)
       /\ role account = Some "admin"
       /\ checkPermission "users:manage-roles" (Some account) = None.
Proof.
  split; [reflexivity |]. split; [reflexivity |].
  destruct (@register_grants_requested_role Reference.libraries Fixture.accounts
              Fixture.eveBody Sample.store eq_refl eq_refl)
    as (account & Hreg & Hrole & _ & Hadmin & _).
  exists account. split; [exact Hreg |]. split; [exact Hrole |].
  apply (Hadmin eq_refl). eexists. split; [reflexivity |]. cbn. tauto.
Defined.

Lemma findUser_addUser (id : string) (account : User) (st : Store) :
  findUser id st = None -> _id account = id ->
  findUser id (addUser account st) = Some account.
Proof.
  unfold findUser, addUser, with_users. cbn [users]. intros Hnone <-.
  induction (users st) as [| u rest IH]; cbn [app find] in *.
  - now rewrite String.eqb_refl.
  - destruct (String.eqb (_id u) (_id account)); [discriminate | now apply IH].
Qed.

Lemma split_bearer (token : string) :
  noSpace token = true -> split " " ("Bearer " ++ token) = ["Bearer"; token].
Proof.
  intros Hnone.
  change ("Bearer " ++ token)%string with ("Bearer" ++ " " ++ token)%string.
  rewrite (MiddlewareFacts.split_scheme "Bearer" token eq_refl).
  now rewrite (MiddlewareFacts.split_noSpace token Hnone).
Qed.

Lemma authenticate_bearer `{Libraries} `{Accounts} (token : string) (st : Store) :
  noSpace token = true -> token <> "" ->
  authenticateToken (Some ("Bearer " ++ token)) st
  = match verify token with
    | None => inl (mkResponse 403 (Message "Invalid token"))
    | Some userId =>
        if isValidObjectId userId then
          match findUser userId st with
          | None => inl (mkResponse 401 (Message "User not found"))
          | Some u => inr (withoutPassword u)
          end
        else inl (mkResponse 403 (Message "Invalid token"))
    end.
Proof.
  intros Hnone Hne. unfold authenticateToken.
  rewrite (split_bearer token Hnone).
  change (truthy_string (Some ("Bearer " ++ token))) with true.
  cbn [nth_error]. unfold truthy_string.
  apply String.eqb_neq in Hne. now rewrite Hne.
Qed.

(** X16: the token register hands out opens the session of the account
    it created: where the token verifies to the id it was signed for, and
    that id is a well-formed object id no stored user has, presenting the
    token to [authenticateToken] puts the new account on the request, with
    the role it registered and without its password. *)
Theorem register_then_authenticate `{Libraries} `{Accounts}
        (b : object string) (st st' : Store) (c : Z) (m token id e n : string)
        (r : option string) :
  register b st = (Granted c m (Some token) id e n r, st') ->
  verify token = Some id ->
  noSpace token = true -> token <> "" ->
  isValidObjectId id = true ->
  findUser id st = None ->
  exists account,
    authenticateToken (Some ("Bearer " ++ token)) st'
    = inr (withoutPassword account)
    /\ In account (users st')
    /\ _id account = id /\ role account = r /\ email account = e.
Proof.
  intros Hreg Hverify Hnone Hne Hid Hfresh. unfold register in Hreg.
  destruct (negb (isEmpty (registerErrors b))); [discriminate Hreg |].
  destruct (lookup b "email") as [email |]; [| discriminate Hreg].
  destruct (lookup b "password") as [password |]; [| discriminate Hreg].
  destruct (lookup b "name") as [name |]; [| discriminate Hreg].
  destruct (findByEmail email st); [discriminate Hreg |].
  cbn zeta in Hreg. cbn [_id Model.email Model.name Model.role] in Hreg.
  injection Hreg as _ _ _ Hnew He Hn Hr Hst. subst st'.
  match goal with
  | |- context [addUser ?account st] => exists account
  end.
  split; [| split; [| repeat split; assumption]].
  - rewrite (authenticate_bearer token _ Hnone Hne), Hverify, Hid.
    erewrite findUser_addUser; [reflexivity | exact Hfresh | exact Hnew].
  - unfold addUser, with_users. cbn [users]. apply in_or_app. right. now left.
Qed.

Lemma register_then_authenticate_witness :
  exists account,
    @authenticateToken Reference.libraries Fixture.accounts
      (Some ("Bearer " ++ @sign Fixture.accounts
                            (Reference.newObjectId Sample.store)))
      (snd (@register Reference.libraries Fixture.accounts Fixture.eveBody
              Sample.store))
    = inr (withoutPassword account)
    /\ role account = Some "admin".
Proof.
  destruct (@register_then_authenticate Reference.libraries Fixture.accounts
              Fixture.eveBody Sample.store _ _ _ _ _ _ _ _
              eq_refl eq_refl eq_refl ltac:(discriminate) eq_refl eq_refl)
    as (account & Hauth & _ & _ & Hrole & _).
  exists account. split; [exact Hauth | exact Hrole].
Defined.

Lemma findByEmail_member (e : string) (st : Store) (account : User) :
  findByEmail e st = Some account -> In account (users st) /\ email account = e.
Proof.
  unfold findByEmail. intros Hf. apply find_some in Hf.
  split; [tauto | now apply String.eqb_eq].
Qed.

(** X17: POST /api/auth/login grants a session only for the e-mail of a
    stored user together with a password that user's [comparePassword]
    accepts, and the token it hands out is signed for that user's id.
    Every refusal of a well-formed body is the same 401 'Invalid
    credentials', whether the e-mail is unknown or the password wrong. *)
Theorem login_sound `{Accounts} (b : object string) (st : Store) :
  (forall c m token id e n r,
      login b st = Granted c m token id e n r ->
      exists account,
        In account (users st)
        /\ lookup b "email" = Some (email account)
        /\ (exists candidate,
               lookup b "password" = Some candidate
               /\ comparePassword candidate (password account) = true)
        /\ c = 200%Z /\ id = _id account /\ r = role account
        /\ token = Some (sign (_id account)))
  /\ (forall c m, login b st = Refused c m ->
        c = 401%Z /\ m = "Invalid credentials").
Proof.
  unfold login. split.
  - intros c m token id e n r.
    destruct (negb (isEmpty (loginErrors b))); [discriminate |].
    destruct (lookup b "email") as [email |]; [| discriminate].
    destruct (lookup b "password") as [password |]; [| discriminate].
    destruct (findByEmail email st) as [account |] eqn:Hfind; [| discriminate].
    destruct (comparePassword password (Model.password account)) eqn:Hmatch;
      [| discriminate].
    cbn [negb]. intros Hgrant. injection Hgrant as <- _ <- <- _ _ <-.
    apply findByEmail_member in Hfind. destruct Hfind as [Hin <-].
    exists account. repeat split; try assumption.
    exists password. now split.
  - intros c m.
    destruct (isEmpty (loginErrors b)) eqn:Hvalid; [| discriminate].
    cbn [negb]. apply isEmpty_nil in Hvalid. unfold loginErrors in Hvalid.
    apply app_eq_nil in Hvalid. destruct Hvalid as [He Hp].
    apply check_nil in He, Hp. unfold field in He, Hp.
    destruct (lookup b "email") as [email |];
      [| rewrite isEmail_empty in He; discriminate He].
    destruct (lookup b "password") as [password |]; [| discriminate Hp].
    destruct (findByEmail email st) as [account |].
    + destruct (negb (comparePassword password (Model.password account)));
        [| discriminate].
      intros Hr. injection Hr as <- <-. now split.
    + intros Hr. injection Hr as <- <-. now split.
Qed.

Lemma login_sound_witness :
  exists account,
    In account (users (snd (@register Reference.libraries Fixture.accounts
                              Fixture.eveBody Sample.store)))
    /\ lookup Fixture.eveBody "email" = Some (email account)
    /\ Some "admin" = role account.
Proof.
  destruct (proj1 (@login_sound Fixture.accounts Fixture.eveBody
                     (snd (@register Reference.libraries Fixture.accounts
                             Fixture.eveBody Sample.store)))
                  _ _ _ _ _ _ _ eq_refl)
    as (account & Hin & Hemail & _ & _ & _ & Hrole & _).
  exists account. split; [exact Hin |]. split; [exact Hemail | exact Hrole].
Defined.

Lemma role_validated `{Libraries} (b : object jsval) (r : string) :
  isEmpty (validationResult Users.roleValidators b) = true ->
  lookup b "role" = Some (JScalar (SStr r)) ->
  isRoleKey r.
Proof.
  unfold validationResult, Users.roleValidators, run_chain, instances.
  cbn [flat_map selected isOptional steps app]. intros Hvalid Hrole.
  rewrite Hrole in Hvalid. unfold run_steps in Hvalid.
  cbn [flat_map passes standard stringify app] in Hvalid.
  destruct (str_mem r ["admin"; "manager"; "user"]) eqn:Hmem;
    [| discriminate Hvalid].
  apply str_mem_In in Hmem. now apply roles_keys.
Qed.

(** X18: the routes that write users keep the roles within the table:
    when every stored user has one of the three roles, this still holds
    after register, POST /api/users, PUT /api/users/:id/role and
    DELETE /api/users/:id, whatever the request.  For such a store no
    permission check of a stored user ends in the error handler: it lets the
    request through or answers 403. *)
Theorem roles_stay_valid `{Libraries} `{Accounts} (st : Store) :
  rolesValid st ->
  (forall b, rolesValid (snd (register b st)))
  /\ (forall requester b, rolesValid (snd (postUser requester b st)))
  /\ (forall req, rolesValid (snd (Users.putRole req st)))
  /\ (forall req, rolesValid (snd (Users.deleteUser req st)))
  /\ (forall u p, In u (users st) ->
        checkPermission p (Some u) = None
        \/ checkPermission p (Some u) = Some forbidden).
Proof.
  intros Hvalid.
  assert (Hadd : forall account r,
             role account = Some r -> isRoleKey r ->
             rolesValid (addUser account st)).
  { intros account r Hr Hkey u Hin. unfold addUser, with_users in Hin.
    cbn [users] in Hin. apply in_app_or in Hin.
    destruct Hin as [Hin | [<- | []]]; [now apply Hvalid | now exists r]. }
  split; [| split; [| split; [| split]]].
  - intros b. unfold register.
    destruct (isEmpty (registerErrors b)) eqn:Herrors; [| exact Hvalid].
    cbn [negb]. apply isEmpty_nil in Herrors.
    destruct (registerErrors_nil b Herrors)
      as (email & password & name & -> & -> & -> & Hrole).
    destruct (findByEmail email st); [exact Hvalid |]. cbn [snd].
    eapply Hadd; [reflexivity |].
    destruct (lookup b "role") as [r |]; [| right; right; reflexivity].
    specialize (Hrole r eq_refl). apply roles_keys in Hrole.
    destruct Hrole as [-> | [-> | ->]]; cbn; unfold isRoleKey; tauto.
  - intros requester b. unfold postUser.
    destruct (checkPermission "users:create" requester); [exact Hvalid |].
    destruct (isEmpty (postUserErrors b)) eqn:Herrors; [| exact Hvalid].
    cbn [negb]. apply isEmpty_nil in Herrors.
    destruct (postUserErrors_nil b Herrors)
      as (email & password & name & r & -> & -> & -> & -> & Hrole).
    destruct (findByEmail email st); [exact Hvalid |]. cbn [snd].
    eapply Hadd; [reflexivity | now apply roles_keys].
  - intros req. unfold Users.putRole.
    destruct (checkPermission "users:manage-roles" (user req)); [exact Hvalid |].
    destruct (isEmpty (validationResult Users.roleValidators (body req)))
      eqn:Herrors; [| exact Hvalid].
    cbn [negb].
    destruct (Users.findById (params_id req) st) as [[target |] | e];
      try exact Hvalid.
    destruct (Users.isRequester req target); [exact Hvalid |].
    destruct (lookup (body req) "role") as [[[| | | r] | items] |] eqn:Hrole;
      try exact Hvalid.
    cbn [snd]. intros u Hin. unfold replaceUser, with_users in Hin.
    cbn [users] in Hin. apply in_map_iff in Hin.
    destruct Hin as (old & Hu & Hold).
    destruct (String.eqb (_id old) _) in Hu.
    + subst u. exists r. split; [reflexivity |].
      exact (role_validated (body req) r Herrors Hrole).
    + subst u. now apply Hvalid.
  - intros req. unfold Users.deleteUser.
    destruct (checkPermission "users:delete" (user req)); [exact Hvalid |].
    destruct (Users.findById (params_id req) st) as [[target |] | e];
      try exact Hvalid.
    destruct (Users.isRequester req target); [exact Hvalid |].
    cbn [snd]. intros u Hin. unfold Model.deleteUser, with_users in Hin.
    cbn [users] in Hin. apply filter_In in Hin. now apply Hvalid.
  - intros u p Hin. destruct (Hvalid u Hin) as (r & Hr & Hkey).
    exact (UserFacts.checkPermission_role u r p Hr Hkey).
Qed.

Lemma rolesValid_sample : rolesValid Sample.store.
Proof.
  intros u [<- | [<- | [<- | [<- | []]]]]; eexists; (split; [reflexivity |]);
    unfold isRoleKey; cbn; tauto.
Qed.

Lemma roles_stay_valid_witness :
  rolesValid Sample.store
  /\ rolesValid (snd (@register Reference.libraries Fixture.accounts
                        Fixture.eveBody Sample.store))
  /\ rolesValid (snd (@Users.putRole Reference.libraries
                        (Sample.request Sample.alice Sample.bobId []
                           [("role", JScalar (SStr "manager"))])
                        Sample.store)).
Proof.
  pose proof (@roles_stay_valid Reference.libraries Fixture.accounts
                Sample.store rolesValid_sample) as (Hregister & _ & Hput & _).
  split; [exact rolesValid_sample |].
  split; [apply Hregister | apply Hput].
Defined.

Lemma findUser_deleteUser (id : string) (st : Store) :
  findUser id (Model.deleteUser id st) = None.
Proof.
  unfold findUser, Model.deleteUser, with_users. cbn [users].
  induction (users st) as [| u rest IH]; [reflexivity |]. cbn [filter].
  destruct (String.eqb (_id u) id) eqn:Hu; cbn [negb]; [exact IH |].
  cbn [find]. now rewrite Hu.
Qed.

(** X19: a successful DELETE /api/users/:id locks the account out and
    removes nothing else: a token that verifies to the deleted id is from
    then on answered 401 'User not found', while the tasks and the
    notifications are untouched, so that the tasks the user created or was
    assigned stay, with a reference that populates to nothing. *)
Theorem deleted_user_locked_out `{Libraries} `{Accounts}
        (req : AuthRequest) (st : Store) :
  code (fst (Users.deleteUser req st)) = 200%Z ->
  let st' := snd (Users.deleteUser req st) in
  (forall token,
      verify token = Some (params_id req) ->
      noSpace token = true -> token <> "" ->
      authenticateToken (Some ("Bearer " ++ token)) st'
      = inl (mkResponse 401 (Message "User not found")))
  /\ tasks st' = tasks st
  /\ notifications st' = notifications st
  /\ (forall t, assignedTo t = params_id req -> assignee (populate st' t) = None)
  /\ (forall u, In u (users st') <-> In u (users st) /\ _id u <> params_id req).
Proof.
  unfold Users.deleteUser.
  destruct (checkPermission "users:delete" (user req)) as [denied |] eqn:Hperm.
  { intros Hcode. exfalso. cbn [fst] in Hcode.
    unfold checkPermission in Hperm.
    destruct (user req) as [u |]; [| injection Hperm as <-; discriminate Hcode].
    destruct (hasPermission (Some u) "users:delete") as [[|] | [msg]];
      [discriminate Hperm | |]; injection Hperm as <-; discriminate Hcode. }
  unfold Users.findById.
  destruct (isValidObjectId (params_id req)) eqn:Hid; [| discriminate].
  destruct (findUser (params_id req) st) as [target |] eqn:Hfind;
    [| discriminate].
  destruct (Users.isRequester req target); [discriminate |].
  intros _. cbn zeta. cbn [snd].
  rewrite (UserFacts.findUser_id _ _ _ Hfind).
  split; [| split; [| split; [| split]]]; try reflexivity.
  - intros token Hverify Hnone Hne.
    now rewrite (authenticate_bearer token _ Hnone Hne), Hverify, Hid,
                findUser_deleteUser.
  - intros t Ht. unfold populate. cbn [assignee].
    now rewrite Ht, findUser_deleteUser.
  - intros u. unfold Model.deleteUser, with_users. cbn [users].
    rewrite filter_In, negb_true_iff, String.eqb_neq. tauto.
Qed.

Lemma deleted_user_locked_out_witness :
  code (fst (@Users.deleteUser Reference.libraries
               (Sample.request Sample.alice Sample.bobId [] []) Sample.store))
  = 200%Z
  /\ @authenticateToken Reference.libraries Fixture.accounts
       (Some "Bearer jwt.b00000000000000000000002") Sample.store
     = inr (withoutPassword Sample.bob)
  /\ @authenticateToken Reference.libraries Fixture.accounts
       (Some ("Bearer " ++ "jwt.b00000000000000000000002"))
       (snd (@Users.deleteUser Reference.libraries
               (Sample.request Sample.alice Sample.bobId [] []) Sample.store))
     = inl (mkResponse 401 (Message "User not found")).
Proof.
  split; [vm_compute; reflexivity |]. split; [reflexivity |].
  apply (proj1 (@deleted_user_locked_out Reference.libraries Fixture.accounts
                  (Sample.request Sample.alice Sample.bobId [] []) Sample.store
                  eq_refl)).
  - reflexivity.
  - reflexivity.
  - discriminate.
Defined.

End AuthFacts.

(** ** Strings *)

Module TextFacts.
Import Js Text.

Lemma length_append (a b : string) :
  String.length (a ++ b) = String.length a + String.length b.
Proof. induction a as [| c a IH]; cbn; [reflexivity | now rewrite IH]. Qed.

Lemma take_append (a b : string) : take (String.length a) (a ++ b) = a.
Proof. induction a as [| c a IH]; cbn; [now destruct b | now rewrite IH]. Qed.

Lemma sliceEnd_append (a b : string) : sliceEnd (String.length b) (a ++ b) = a.
Proof.
  unfold sliceEnd. rewrite length_append.
  replace (String.length a + String.length b - String.length b)
    with (String.length a) by lia.
  apply take_append.
Qed.

Lemma endsWith_append (suffix a : string) : endsWith suffix (a ++ suffix) = true.
Proof.
  induction a as [| c a IH].
  - cbn [append]. destruct suffix; cbn [endsWith]; now rewrite String.eqb_refl.
  - change ((String c a ++ suffix)%string) with (String c (a ++ suffix)).
    cbn [endsWith]. rewrite IH. apply orb_true_r.
Qed.

Lemma endsWith_inv (suffix s : string) :
  endsWith suffix s = true -> exists a, s = (a ++ suffix)%string.
Proof.
  induction s as [| c s IH]; cbn [endsWith]; intros Hends.
  - rewrite orb_false_r in Hends. apply String.eqb_eq in Hends.
    exists "". now subst.
  - apply orb_true_iff in Hends. destruct Hends as [Hsame | Hrest].
    + apply String.eqb_eq in Hsame. exists "". now subst.
    + destruct (IH Hrest) as [a ->]. now exists (String c a).
Qed.

End TextFacts.

(** ** index: CORS *)

Module CorsFacts.
Import Js Text Cors ObjectFacts TextFacts.

(** X20: the origins the CORS options let in are: no origin at all, the
    empty origin, and the two allowed origins, each with or without one
    trailing slash.  Nothing else gets through: not a second slash, not a
    path, not another port. *)
Theorem origin_allowed_iff (origin : option string) :
  originAllowed origin = true
  <-> origin = None \/ origin = Some ""
      \/ exists a, In a allowedOrigins
                   /\ (origin = Some a \/ origin = Some (a ++ "/")%string).
Proof.
  split.
  - destruct origin as [o |]; [| now left].
    destruct (String.eqb_spec o "") as [-> | Hne]; [now right; left |].
    unfold originAllowed, truthy_string.
    apply String.eqb_neq in Hne. rewrite Hne. cbn [negb]. rewrite orb_false_r.
    intros Hmem. right. right.
    destruct (endsWith "/" o) eqn:Hends.
    + apply endsWith_inv in Hends. destruct Hends as [a ->].
      pose proof (sliceEnd_append a "/") as Hslice.
      cbn [String.length] in Hslice. rewrite Hslice in Hmem.
      apply str_mem_In in Hmem.
      exists a. split; [exact Hmem | now right].
    + apply str_mem_In in Hmem. exists o. split; [exact Hmem | now left].
  - intros [-> | [-> | (a & Hin & Horigin)]]; [reflexivity | reflexivity |].
    destruct Hin as [<- | [<- | []]]; destruct Horigin as [-> | ->];
      reflexivity.
Qed.

End CorsFacts.

(** ** The route tables *)

Module RoutingFacts.
Import Js Text Routing.

(** X21: the update of the users page has no route: PUT /api/users/:id,
    which the page sends for the user it edits, is taken by no route of the
    users router unless the id reads 'profile' or 'password'.  Every other
    request the tasks page, the dashboard and the users page send for a
    document id is taken by the route meant for it; /stats, registered
    before /:id, is not taken for an id. *)
Theorem users_page_update_has_no_route (id : string) :
  id <> "" ->
  toLowerCase id <> "profile" -> toLowerCase id <> "password" ->
  toLowerCase id <> "stats" ->
  map (fun c => dispatch usersRouter (fst c) (snd c)) (usersPageCalls id)
  = [Some "getUsers"; None; Some "postUser"; Some "deleteUser"]
  /\ map (fun c => dispatch tasksRouter (fst c) (snd c)) (tasksPageCalls id)
     = [ Some "getTasks"; Some "getTask"; Some "putTask"; Some "postTask";
         Some "deleteTask"; Some "getStats" ].
Proof.
  intros Hne Hprofile Hpassword Hstats.
  apply String.eqb_neq in Hne.
  assert (Hp : String.eqb "profile" (toLowerCase id) = false)
    by (apply String.eqb_neq; congruence).
  assert (Hw : String.eqb "password" (toLowerCase id) = false)
    by (apply String.eqb_neq; congruence).
  assert (Hs : String.eqb "stats" (toLowerCase id) = false)
    by (apply String.eqb_neq; congruence).
  unfold usersPageCalls, tasksPageCalls, dispatch, usersRouter, tasksRouter.
  cbn [map fst snd find verb pattern handler method_eqb pathMatches
       segmentMatches andb option_map].
  change (toLowerCase "profile") with "profile".
  change (toLowerCase "password") with "password".
  change (toLowerCase "stats") with "stats".
  rewrite Hp, Hw, Hs, Hne. cbn. split; reflexivity.
Qed.

Lemma users_page_update_has_no_route_witness :
  Sample.bobId <> "" /\ toLowerCase Sample.bobId <> "profile"
  /\ dispatch usersRouter PUT [Sample.bobId] = None
  /\ dispatch usersRouter PUT [Sample.bobId; "role"] = Some "putRole".
Proof.
  split; [discriminate |]. split; [discriminate |].
  pose proof (users_page_update_has_no_route Sample.bobId
                ltac:(discriminate) ltac:(discriminate) ltac:(discriminate)
                ltac:(discriminate)) as [Husers _].
  split; [| reflexivity].
  exact (f_equal (fun answers => nth 1 answers (Some "")) Husers).
Defined.

End RoutingFacts.

(** ** frontend: lib/auth, lib/api, lib/socket *)

Module BrowserFacts.
Import Js Text Browser ObjectFacts TextFacts.

Lemma sessionKey_inj (a b : string) : sessionKey a = sessionKey b -> a = b.
Proof. unfold sessionKey. cbn. intros Hk. now injection Hk. Qed.

Lemma sessionKey_global (a : string) : sessionKey a = "auth-storage" -> a = "storage".
Proof. unfold sessionKey. cbn. intros Hk. now injection Hk. Qed.

(** The session id [saveAuthData] works with. *)
Lemma getOrCreateSessionId_spec (fresh : string) (s : Storage) :
  fresh <> "" ->
  fst (getOrCreateSessionId fresh s) <> ""
  /\ lookup (sessionStorage (snd (getOrCreateSessionId fresh s))) "sessionId"
     = Some (fst (getOrCreateSessionId fresh s))
  /\ localStorage (snd (getOrCreateSessionId fresh s)) = localStorage s.
Proof.
  intros Hfresh. unfold getOrCreateSessionId.
  destruct (lookup (sessionStorage s) "sessionId") as [sessionId |] eqn:Hid.
  - unfold truthy_string.
    destruct (String.eqb_spec sessionId "") as [-> | Hne]; cbn [negb fst snd].
    + cbn [sessionStorage localStorage].
      now rewrite StatsFacts.lookup_assign_same.
    + now rewrite Hid.
  - cbn [fst snd sessionStorage localStorage].
    now rewrite StatsFacts.lookup_assign_same.
Qed.

Lemma saveAuthData_unfold (fresh token : string) (user : object string)
      (s : Storage) :
  fresh <> "" ->
  saveAuthData fresh token user s
  = let sessionId := fst (getOrCreateSessionId fresh s) in
    let s1 := snd (getOrCreateSessionId fresh s) in
    let authState := mkAuthState token user true in
    mkStorage
      (assign "auth-storage" (Wrapped authState)
              (assign (sessionKey sessionId) (State authState) (localStorage s)))
      (assign "currentPath" "/dashboard" (sessionStorage s1)).
Proof.
  intros Hfresh.
  destruct (getOrCreateSessionId_spec fresh s Hfresh) as (Hne & _ & Hlocal).
  unfold saveAuthData.
  destruct (getOrCreateSessionId fresh s) as [sessionId s1].
  cbn [fst snd] in *. unfold truthy_string.
  apply String.eqb_neq in Hne. rewrite Hne. cbn [negb]. now rewrite Hlocal.
Qed.

Lemma saveAuthData_saved (fresh token : string) (user : object string)
      (s : Storage) (sid : string) :
  fresh <> "" ->
  fst (getOrCreateSessionId fresh s) = sid ->
  localStorage (saveAuthData fresh token user s)
  = assign "auth-storage" (Wrapped (mkAuthState token user true))
      (assign (sessionKey sid) (State (mkAuthState token user true))
              (localStorage s))
  /\ lookup (sessionStorage (saveAuthData fresh token user s)) "sessionId"
     = Some sid
  /\ sid <> "".
Proof.
  intros Hfresh <-.
  destruct (getOrCreateSessionId_spec fresh s Hfresh) as (Hne & Hsid & _).
  rewrite (saveAuthData_unfold fresh token user s Hfresh). cbn zeta.
  cbn [localStorage sessionStorage].
  split; [reflexivity |]. split; [| exact Hne].
  now rewrite lookup_assign_other by discriminate.
Qed.

(** What a tab with session id [sid] reads. *)
Lemma getAuthData_session (s : Storage) (sid : string) :
  lookup (sessionStorage s) "sessionId" = Some sid -> sid <> "" ->
  getAuthData s
  = match lookup (localStorage s) (sessionKey sid) with
    | Some authData => Some authData
    | None =>
        match lookup (localStorage s) "auth-storage" with
        | Some (Wrapped state) => Some (State state)
        | _ => None
        end
    end.
Proof.
  intros Hsid Hne. unfold getAuthData. rewrite Hsid. unfold truthy_string.
  apply String.eqb_neq in Hne. rewrite Hne. cbn [negb].
  destruct (lookup (localStorage s) (sessionKey sid)); [reflexivity |].
  now destruct (lookup (localStorage s) "auth-storage") as [[|] |].
Qed.

Lemma getAuthData_saved (fresh token : string) (user : object string)
      (s : Storage) :
  fresh <> "" ->
  fst (getOrCreateSessionId fresh s) <> "storage" ->
  getAuthData (saveAuthData fresh token user s)
  = Some (State (mkAuthState token user true)).
Proof.
  intros Hfresh Hstorage.
  destruct (saveAuthData_saved fresh token user s _ Hfresh eq_refl)
    as (Hlocal & Hsession & Hne).
  rewrite (getAuthData_session _ _ Hsession Hne), Hlocal.
  rewrite lookup_assign_other
    by (intros Hk; apply sessionKey_global in Hk; contradiction).
  now rewrite StatsFacts.lookup_assign_same.
Qed.

Lemma authorizationHeader_saved (fresh token : string) (user : object string)
      (s : Storage) :
  fresh <> "" ->
  fst (getOrCreateSessionId fresh s) <> "storage" ->
  token <> "" ->
  authorizationHeader (saveAuthData fresh token user s)
  = Some ("Bearer " ++ token)%string.
Proof.
  intros Hfresh Hstorage Htoken. unfold authorizationHeader, getToken.
  rewrite (getAuthData_saved fresh token user s Hfresh Hstorage).
  cbn [Browser.token]. unfold truthy_string.
  apply String.eqb_neq in Htoken. now rewrite Htoken.
Qed.

(** X22: within one tab, what [saveAuthData] saved is what the readers
    give back, and [logout] removes it: after saving, [getAuthData] is the
    saved state, [getUser] the saved user, the request interceptor sends
    'Bearer <token>' for a non-empty token and no header for an empty one;
    after [logout] there is no auth data, no header, and neither key is
    left in [localStorage].  The session id must not read 'storage', the
    one id whose key is the global key. *)
Theorem save_get_logout (fresh token : string) (user : object string)
        (s : Storage) :
  fresh <> "" ->
  fst (getOrCreateSessionId fresh s) <> "storage" ->
  let sid := fst (getOrCreateSessionId fresh s) in
  let s' := saveAuthData fresh token user s in
  getAuthData s' = Some (State (mkAuthState token user true))
  /\ getUser s' = Some user
  /\ authenticated s' = true
  /\ (token <> "" -> authorizationHeader s' = Some ("Bearer " ++ token)%string)
  /\ (token = "" -> authorizationHeader s' = None)
  /\ getAuthData (logout s') = None
  /\ authorizationHeader (logout s') = None
  /\ lookup (localStorage (logout s')) (sessionKey sid) = None
  /\ lookup (localStorage (logout s')) "auth-storage" = None.
Proof.
  intros Hfresh Hstorage. cbn zeta.
  destruct (getOrCreateSessionId_spec fresh s Hfresh) as (Hne & Hsid & Hlocal).
  rewrite (saveAuthData_unfold fresh token user s Hfresh). cbn zeta.
  set (sid := fst (getOrCreateSessionId fresh s)) in *.
  set (s1 := snd (getOrCreateSessionId fresh s)) in *.
  set (saved := mkStorage _ _).
  assert (Hsession : lookup (sessionStorage saved) "sessionId" = Some sid).
  { unfold saved. cbn [sessionStorage].
    rewrite lookup_assign_other by discriminate. exact Hsid. }
  assert (Hkey : sessionKey sid <> "auth-storage").
  { intros Hk. apply sessionKey_global in Hk. contradiction. }
  assert (Hget : getAuthData saved = Some (State (mkAuthState token user true))).
  { rewrite (getAuthData_session saved sid Hsession Hne). unfold saved.
    cbn [localStorage]. rewrite lookup_assign_other by exact Hkey.
    now rewrite StatsFacts.lookup_assign_same. }
  assert (Hout : getAuthData (logout saved) = None).
  { unfold getAuthData, logout. cbn [sessionStorage].
    rewrite lookup_without_other by discriminate.
    now rewrite lookup_without_same. }
  split; [exact Hget |].
  split; [unfold getUser; now rewrite Hget |].
  split; [unfold authenticated; now rewrite Hget |].
  split; [| split; [| split; [exact Hout | split; [| split]]]].
  - intros Htoken. unfold authorizationHeader, getToken. rewrite Hget.
    cbn [Browser.token]. unfold truthy_string. apply String.eqb_neq in Htoken.
    now rewrite Htoken.
  - intros ->. unfold authorizationHeader, getToken. now rewrite Hget.
  - unfold authorizationHeader, getToken. now rewrite Hout.
  - unfold logout. rewrite Hsession. unfold truthy_string.
    apply String.eqb_neq in Hne. rewrite Hne. cbn [negb localStorage].
    rewrite lookup_without_other by exact Hkey.
    apply lookup_without_same.
  - unfold logout. cbn [localStorage]. apply lookup_without_same.
Qed.

Lemma save_get_logout_witness :
  getAuthData (saveAuthData (generateSessionId "1735689600000" "k3x9a1b")
                 "jwt.b00000000000000000000002" [("id", Sample.bobId)]
                 (mkStorage [] []))
  = Some (State (mkAuthState "jwt.b00000000000000000000002"
                   [("id", Sample.bobId)] true))
  /\ authorizationHeader
       (saveAuthData (generateSessionId "1735689600000" "k3x9a1b")
          "jwt.b00000000000000000000002" [("id", Sample.bobId)]
          (mkStorage [] []))
     = Some "Bearer jwt.b00000000000000000000002".
Proof.
  pose proof (save_get_logout (generateSessionId "1735689600000" "k3x9a1b")
                "jwt.b00000000000000000000002" [("id", Sample.bobId)]
                (mkStorage [] []) ltac:(discriminate) ltac:(discriminate))
    as (Hget & _ & _ & Hheader & _).
  split; [exact Hget | exact (Hheader ltac:(discriminate))].
Defined.

(** X23: the tabs of one browser share [localStorage] but not the session
    id.  When tab A saves a login and then tab B, under another session id,
    saves another, tab A still reads its own login, also after tab B logs
    out; a third tab that has a session id of its own but never saved
    anything reads the login saved last, by whichever tab, through the
    global key, until somebody logs out. *)
Theorem tabs_share_the_global_key
        (local : object document) (sessionA sessionB sessionC : object string)
        (freshA freshB tokenA tokenB a b c : string)
        (userA userB : object string) :
  freshA <> "" -> freshB <> "" ->
  fst (getOrCreateSessionId freshA (mkStorage local sessionA)) = a ->
  fst (getOrCreateSessionId freshB (mkStorage local sessionB)) = b ->
  lookup sessionC "sessionId" = Some c ->
  a <> b -> c <> a -> c <> b -> c <> "" ->
  a <> "storage" -> b <> "storage" -> c <> "storage" ->
  lookup local (sessionKey c) = None ->
  let afterA := saveAuthData freshA tokenA userA (mkStorage local sessionA) in
  let afterB := saveAuthData freshB tokenB userB (inTab sessionB afterA) in
  let tabA s := inTab (sessionStorage afterA) s in
  getAuthData (tabA afterB) = Some (State (mkAuthState tokenA userA true))
  /\ getAuthData afterB = Some (State (mkAuthState tokenB userB true))
  /\ getAuthData (tabA (logout afterB))
     = Some (State (mkAuthState tokenA userA true))
  /\ getAuthData (inTab sessionC afterB)
     = Some (State (mkAuthState tokenB userB true))
  /\ getAuthData (inTab sessionC (logout afterB)) = None.
Proof.
  intros HfreshA HfreshB Ha Hb Hc Hab Hca Hcb Hcne HaS HbS HcS Hnone. cbn zeta.
  destruct (saveAuthData_saved freshA tokenA userA (mkStorage local sessionA)
              a HfreshA Ha) as (HlocalA & HsessA & HaNe).
  set (afterA := saveAuthData freshA tokenA userA (mkStorage local sessionA)) in *.
  assert (HbId : fst (getOrCreateSessionId freshB (inTab sessionB afterA)) = b).
  { rewrite <- Hb. unfold getOrCreateSessionId, inTab. cbn [sessionStorage].
    destruct (lookup sessionB "sessionId") as [sessionId |]; [| reflexivity].
    now destruct (truthy_string (Some sessionId)). }
  destruct (saveAuthData_saved freshB tokenB userB (inTab sessionB afterA)
              b HfreshB HbId) as (HlocalB & HsessB & HbNe).
  set (afterB := saveAuthData freshB tokenB userB (inTab sessionB afterA)) in *.
  unfold inTab in HlocalB. cbn [localStorage] in HlocalA, HlocalB.
  rewrite HlocalA in HlocalB.
  assert (HkeyA : sessionKey a <> "auth-storage")
    by (intros Hk; apply sessionKey_global in Hk; contradiction).
  assert (HkeyB : sessionKey b <> "auth-storage")
    by (intros Hk; apply sessionKey_global in Hk; contradiction).
  assert (HkeyC : sessionKey c <> "auth-storage")
    by (intros Hk; apply sessionKey_global in Hk; contradiction).
  assert (HkeyAB : sessionKey a <> sessionKey b)
    by (intros Hk; apply sessionKey_inj in Hk; contradiction).
  assert (HkeyCA : sessionKey c <> sessionKey a)
    by (intros Hk; apply sessionKey_inj in Hk; contradiction).
  assert (HkeyCB : sessionKey c <> sessionKey b)
    by (intros Hk; apply sessionKey_inj in Hk; contradiction).
  assert (HownA : lookup (localStorage afterB) (sessionKey a)
                  = Some (State (mkAuthState tokenA userA true))).
  { rewrite HlocalB.
    rewrite lookup_assign_other by exact HkeyA.
    rewrite lookup_assign_other by exact HkeyAB.
    rewrite lookup_assign_other by exact HkeyA.
    apply StatsFacts.lookup_assign_same. }
  assert (HownB : lookup (localStorage afterB) (sessionKey b)
                  = Some (State (mkAuthState tokenB userB true))).
  { rewrite HlocalB. rewrite lookup_assign_other by exact HkeyB.
    apply StatsFacts.lookup_assign_same. }
  assert (HownC : lookup (localStorage afterB) (sessionKey c) = None).
  { rewrite HlocalB.
    rewrite lookup_assign_other by exact HkeyC.
    rewrite lookup_assign_other by exact HkeyCB.
    rewrite lookup_assign_other by exact HkeyC.
    rewrite lookup_assign_other by exact HkeyCA.
    exact Hnone. }
  assert (Hglobal : lookup (localStorage afterB) "auth-storage"
                    = Some (Wrapped (mkAuthState tokenB userB true)))
    by (rewrite HlocalB; apply StatsFacts.lookup_assign_same).
  assert (Hlogout : localStorage (logout afterB)
                    = without "auth-storage"
                        (without (sessionKey b) (localStorage afterB))).
  { unfold logout. rewrite HsessB. unfold truthy_string.
    apply String.eqb_neq in HbNe. now rewrite HbNe. }
  split; [| split; [| split; [| split]]].
  - rewrite (getAuthData_session (inTab (sessionStorage afterA) afterB) a
               HsessA HaNe).
    unfold inTab. cbn [localStorage]. now rewrite HownA.
  - rewrite (getAuthData_session afterB b HsessB HbNe). now rewrite HownB.
  - rewrite (getAuthData_session
               (inTab (sessionStorage afterA) (logout afterB)) a HsessA HaNe).
    unfold inTab. cbn [localStorage]. rewrite Hlogout.
    rewrite lookup_without_other by exact HkeyA.
    rewrite lookup_without_other by exact HkeyAB.
    now rewrite HownA.
  - rewrite (getAuthData_session (inTab sessionC afterB) c Hc Hcne).
    unfold inTab. cbn [localStorage]. now rewrite HownC, Hglobal.
  - rewrite (getAuthData_session (inTab sessionC (logout afterB)) c Hc Hcne).
    unfold inTab. cbn [localStorage]. rewrite Hlogout.
    rewrite lookup_without_other by exact HkeyC.
    rewrite lookup_without_other by exact HkeyCB.
    rewrite HownC. now rewrite lookup_without_same.
Qed.

Lemma tabs_share_the_global_key_witness :
  getAuthData
    (inTab [("sessionId", "session_1_a")]
       (saveAuthData "session_3_c" "token-carol" [("name", "Carol")]
          (inTab [("sessionId", "session_2_b")]
             (saveAuthData "session_3_c" "token-bob" [("name", "Bob")]
                (mkStorage [] [("sessionId", "session_1_a")])))))
  = Some (State (mkAuthState "token-bob" [("name", "Bob")] true))
  /\ getAuthData
       (inTab [("sessionId", "session_9_z")]
          (saveAuthData "session_3_c" "token-carol" [("name", "Carol")]
             (inTab [("sessionId", "session_2_b")]
                (saveAuthData "session_3_c" "token-bob" [("name", "Bob")]
                   (mkStorage [] [("sessionId", "session_1_a")])))))
     = Some (State (mkAuthState "token-carol" [("name", "Carol")] true)).
Proof.
  pose proof (tabs_share_the_global_key [] [("sessionId", "session_1_a")]
                [("sessionId", "session_2_b")] [("sessionId", "session_9_z")]
                "session_3_c" "session_3_c" "token-bob" "token-carol"
                "session_1_a" "session_2_b" "session_9_z"
                [("name", "Bob")] [("name", "Carol")]
                ltac:(discriminate) ltac:(discriminate) eq_refl eq_refl eq_refl
                ltac:(discriminate) ltac:(discriminate) ltac:(discriminate)
                ltac:(discriminate) ltac:(discriminate) ltac:(discriminate)
                ltac:(discriminate) eq_refl)
    as (HtabA & _ & _ & HtabC & _).
  split; [exact HtabA | exact HtabC].
Defined.

End BrowserFacts.

(** ** frontend: the pages against the backend *)

Module PageFacts.
Import Js Model Validator Http Reply Rbac Middleware Browser Pages ObjectFacts
       TextFacts.

(** X24: the socket client connects to the host of the API: for an API
    URL that ends in '/api', [getBaseUrl] is that URL without the suffix, so
    that adding '/api' gives the base URL of the axios instance back; any
    other URL is used as it is; without a setting the socket goes to
    http://localhost:5000.  Only one suffix is removed. *)
Theorem socket_connects_to_api_host (env : option string) :
  (forall base, getBaseUrl (Some (base ++ "/api")%string) = base)
  /\ (Text.endsWith "/api" (apiBaseUrl env) = true ->
      (getBaseUrl env ++ "/api")%string = apiBaseUrl env)
  /\ (Text.endsWith "/api" (apiBaseUrl env) = false ->
      getBaseUrl env = apiBaseUrl env)
  /\ getBaseUrl None = "http://localhost:5000"
  /\ getBaseUrl (Some "") = "http://localhost:5000".
Proof.
  assert (Hbase : forall e, getBaseUrl e
                            = if Text.endsWith "/api" (apiBaseUrl e)
                              then Text.sliceEnd 4 (apiBaseUrl e)
                              else apiBaseUrl e) by reflexivity.
  split; [| split; [| split; [| split]]]; try reflexivity.
  - intros base. rewrite Hbase.
    assert (Hurl : apiBaseUrl (Some (base ++ "/api")%string)
                   = (base ++ "/api")%string) by (now destruct base).
    rewrite Hurl, (endsWith_append "/api" base).
    exact (sliceEnd_append base "/api").
  - intros Hends. rewrite Hbase, Hends.
    apply endsWith_inv in Hends. destruct Hends as [a ->].
    now rewrite (sliceEnd_append a "/api" : Text.sliceEnd 4 _ = a).
  - intros Hends. now rewrite Hbase, Hends.
Qed.

Lemma socket_connects_to_api_host_witness :
  Text.endsWith "/api" (apiBaseUrl (Some "https://tasks.example.org/api")) = true
  /\ getBaseUrl (Some "https://tasks.example.org/api")
     = "https://tasks.example.org".
Proof.
  split; [reflexivity |].
  exact (proj1 (socket_connects_to_api_host None) "https://tasks.example.org").
Defined.

(** X25: the gates of the dashboard agree with the permission table,
    except for the users page: for each of the three roles the layout shows
    the reports exactly when the role holds 'reports:view', calls the task
    list 'All Tasks' exactly when it holds 'tasks:read-all', and the tasks
    page fetches the users exactly when it holds 'users:read'; the link to
    the users page is shown to admins only, although a manager holds
    'users:read' too.  'All Tasks' is shown exactly to the users whose
    listing the backend does not narrow to their own tasks. *)
Theorem gates_match_permissions (r : string) :
  isRoleKey r ->
  (canAccessReports (Some r) = true <-> inTable r "reports:view")
  /\ (canAccessAllTasks (Some r) = true <-> inTable r "tasks:read-all")
  /\ (fetchesUsers (Some r) = true <-> inTable r "users:read")
  /\ (canAccessUsers (Some r) = true -> inTable r "users:read")
  /\ (canAccessUsers (Some "manager") = false /\ inTable "manager" "users:read")
  /\ (forall u : User, canAccessAllTasks (Model.role u) = Tasks.canSeeAllTasks u).
Proof.
  intros Hkey.
  assert (Hmem : forall p, inTable r p
                           <-> match lookup rolePermissions r with
                               | Some perms => str_mem p perms = true
                               | None => False
                               end).
  { intros p. destruct (proj2 (RbacFacts.lookup_rolePermissions r) Hkey)
      as [perms Hl].
    rewrite Hl, (MiddlewareFacts.inTable_iff r p perms Hl). symmetry.
    apply str_mem_In. }
  split; [| split; [| split; [| split; [| split]]]].
  - rewrite Hmem. destruct Hkey as [-> | [-> | ->]]; cbn;
      split; (reflexivity || discriminate).
  - rewrite Hmem. destruct Hkey as [-> | [-> | ->]]; cbn;
      split; (reflexivity || discriminate).
  - rewrite Hmem. destruct Hkey as [-> | [-> | ->]]; cbn;
      split; (reflexivity || discriminate).
  - rewrite Hmem. destruct Hkey as [-> | [-> | ->]]; cbn;
      (reflexivity || discriminate).
  - split; [reflexivity |].
    apply (MiddlewareFacts.inTable_iff "manager" _ _ eq_refl). cbn. tauto.
  - intros u. unfold canAccessAllTasks, isAdmin, isManager,
      Tasks.canSeeAllTasks, hasRole.
    now destruct (Model.role u).
Qed.

Lemma gates_match_permissions_witness :
  isRoleKey "manager"
  /\ canAccessReports (Some "manager") = true
  /\ inTable "manager" "reports:view"
  /\ canAccessUsers (Some "manager") = false
  /\ inTable "manager" "users:read".
Proof.
  assert (Hkey : isRoleKey "manager") by (right; left; reflexivity).
  pose proof (gates_match_permissions "manager" Hkey)
    as (Hreports & _ & _ & _ & [Hhidden Hheld] & _).
  split; [exact Hkey |]. split; [reflexivity |].
  split; [exact (proj1 Hreports eq_refl) |].
  split; [exact Hhidden | exact Hheld].
Defined.

Lemma login_granted_member `{Accounts} (b : object string) (st : Store)
      (c : Z) (m : string) (t : option string) (id e n : string)
      (r : option string) :
  Auth.login b st = Auth.Granted c m t id e n r ->
  exists account, In account (users st) /\ _id account = id.
Proof.
  unfold Auth.login.
  destruct (negb (isEmpty (Auth.loginErrors b))); [discriminate |].
  destruct (lookup b "email") as [email |]; [| discriminate].
  destruct (lookup b "password") as [password |]; [| discriminate].
  destruct (Auth.findByEmail email st) as [account |] eqn:Hfind; [| discriminate].
  destruct (negb (comparePassword password (Model.password account)));
    [discriminate |].
  intros Hgrant. injection Hgrant as _ _ _ Hid _ _ _.
  apply AuthFacts.findByEmail_member in Hfind. exists account. tauto.
Qed.

(** X26: a login carries through to the backend: when POST
    /api/auth/login grants a session and the login page saves the answer,
    the request interceptor sends 'Bearer <token>', and [authenticateToken]
    on that header puts a stored user with the id of the login on the
    request, provided the token verifies to the id it was signed for, is
    not empty and holds no space, and the id is a well-formed object id. *)
Theorem session_round_trip `{Libraries} `{Accounts}
        (b : object string) (st : Store) (s : Storage) (fresh : string)
        (c : Z) (m t id e n : string) (r : option string) :
  Auth.login b st = Auth.Granted c m (Some t) id e n r ->
  verify t = Some id -> noSpace t = true -> t <> "" ->
  isValidObjectId id = true ->
  fresh <> "" -> fst (getOrCreateSessionId fresh s) <> "storage" ->
  let s' := loginPage fresh (Auth.login b st) s in
  authorizationHeader s' = Some ("Bearer " ++ t)%string
  /\ getUser s' = Some (userJson id e n r)
  /\ exists u,
       authenticateToken (authorizationHeader s') st = inr (withoutPassword u)
       /\ In u (users st) /\ _id u = id.
Proof.
  intros Hlogin Hverify Hnone Hne Hid Hfresh Hstorage. cbn zeta.
  rewrite Hlogin. cbn [loginPage].
  rewrite (BrowserFacts.authorizationHeader_saved fresh t _ s Hfresh Hstorage Hne).
  split; [reflexivity |].
  split; [unfold getUser;
          now rewrite (BrowserFacts.getAuthData_saved fresh t _ s Hfresh Hstorage) |].
  destruct (login_granted_member b st _ _ _ _ _ _ _ Hlogin)
    as (account & Hin & Haccount).
  destruct (UserFacts.findUser_member account st Hin) as (u & Hfind & Hu).
  rewrite Haccount in Hfind, Hu.
  exists u. split; [| split; [| exact Hu]].
  - now rewrite (AuthFacts.authenticate_bearer t st Hnone Hne), Hverify, Hid,
                Hfind.
  - unfold findUser in Hfind. apply find_some in Hfind. tauto.
Qed.

Lemma session_round_trip_witness :
  exists u,
    @authenticateToken Reference.libraries Fixture.accounts
      (authorizationHeader
         (loginPage "session_1_a"
            (@Auth.login Fixture.accounts Fixture.eveBody Fixture.withEve)
            (mkStorage [] [])))
      Fixture.withEve
    = inr (withoutPassword u)
    /\ _id u = Reference.newObjectId Sample.store.
Proof.
  destruct (@session_round_trip Reference.libraries Fixture.accounts
              Fixture.eveBody Fixture.withEve (mkStorage [] []) "session_1_a"
              _ _ _ _ _ _ _ eq_refl eq_refl eq_refl ltac:(discriminate) eq_refl
              ltac:(discriminate) ltac:(discriminate))
    as (_ & _ & u & Hauth & _ & Hid).
  exists u. split; [exact Hauth | exact Hid].
Defined.

Lemma lookup_userJson_id (id e n : string) (r : option string) :
  lookup (userJson id e n r) "_id" = None
  /\ lookup (userJson id e n r) "role" = r.
Proof. now destruct r. Qed.

(** The members [handleSubmit] always sets, and the one it may leave
    out. *)
Lemma handleSubmit_members (parseIntJs : string -> option Z) (form : TaskForm)
      (editing : bool) (userData : option UserData) :
  let b := handleSubmit parseIntJs form editing userData in
  let recurring := match lookup (entries form) "isRecurring" with
                   | Some v => String.eqb v "on"
                   | None => false
                   end in
  lookup b "isRecurring" = Some (JScalar (SBool recurring))
  /\ (recurring = true ->
      lookup b "recurringType" = Some (text (lookup (entries form) "recurringType")))
  /\ (truthy_string (lookup (entries form) "assignedTo") = false ->
      editing = false ->
      (forall u, userData = Some u -> id u = None) ->
      lookup b "assignedTo" = None).
Proof.
  cbn zeta. unfold handleSubmit.
  set (recurring := match lookup (entries form) "isRecurring" with
                    | Some v => String.eqb v "on"
                    | None => false
                    end).
  split; [| split].
  - destruct recurring.
    + destruct (lookup (entries form) "recurringType") as [kind |];
        [destruct (String.eqb kind "weekly"), (String.eqb kind "monthly"),
                  (String.eqb kind "custom") |];
        destruct (truthy_string (lookup (entries form) "recurringEndDate"));
        repeat (rewrite lookup_assign_other by discriminate);
        apply StatsFacts.lookup_assign_same.
    + apply StatsFacts.lookup_assign_same.
  - intros ->.
    destruct (lookup (entries form) "recurringType") as [kind |];
      [destruct (String.eqb kind "weekly"), (String.eqb kind "monthly"),
                (String.eqb kind "custom") |];
      destruct (truthy_string (lookup (entries form) "recurringEndDate"));
      repeat (rewrite lookup_assign_other by discriminate);
      apply StatsFacts.lookup_assign_same.
  - intros Hnone -> Hid. rewrite Hnone. cbn [negb].
    assert (Hbase : match userData with
                    | Some u =>
                        match id u with
                        | Some i =>
                            assign "assignedTo" (JScalar (SStr i))
                              [ ("title", text (lookup (entries form) "title"));
                                ("description",
                                 text (lookup (entries form) "description"));
                                ("dueDate", text (lookup (entries form) "dueDate"));
                                ("priority", text (lookup (entries form) "priority"));
                                ("status",
                                 if truthy_string (lookup (entries form) "status")
                                 then text (lookup (entries form) "status")
                                 else JScalar (SStr "todo")) ]
                        | None =>
                              [ ("title", text (lookup (entries form) "title"));
                                ("description",
                                 text (lookup (entries form) "description"));
                                ("dueDate", text (lookup (entries form) "dueDate"));
                                ("priority", text (lookup (entries form) "priority"));
                                ("status",
                                 if truthy_string (lookup (entries form) "status")
                                 then text (lookup (entries form) "status")
                                 else JScalar (SStr "todo")) ]
                        end
                    | None =>
                              [ ("title", text (lookup (entries form) "title"));
                                ("description",
                                 text (lookup (entries form) "description"));
                                ("dueDate", text (lookup (entries form) "dueDate"));
                                ("priority", text (lookup (entries form) "priority"));
                                ("status",
                                 if truthy_string (lookup (entries form) "status")
                                 then text (lookup (entries form) "status")
                                 else JScalar (SStr "todo")) ]
                    end
                    = [ ("title", text (lookup (entries form) "title"));
                        ("description", text (lookup (entries form) "description"));
                        ("dueDate", text (lookup (entries form) "dueDate"));
                        ("priority", text (lookup (entries form) "priority"));
                        ("status",
                         if truthy_string (lookup (entries form) "status")
                         then text (lookup (entries form) "status")
                         else JScalar (SStr "todo")) ]).
    { destruct userData as [u |]; [| reflexivity].
      now rewrite (Hid u eq_refl). }
    rewrite Hbase.
    destruct recurring;
      [destruct (lookup (entries form) "recurringType") as [kind |];
       [destruct (String.eqb kind "weekly"), (String.eqb kind "monthly"),
                 (String.eqb kind "custom") |];
       destruct (truthy_string (lookup (entries form) "recurringEndDate")) |];
      repeat (rewrite lookup_assign_other by discriminate); reflexivity.
Qed.

(** The assignee [handleSubmit] sends when the form holds one. *)
Lemma handleSubmit_assignee (parseIntJs : string -> option Z) (form : TaskForm)
      (editing : bool) (userData : option UserData) (v : string) :
  lookup (entries form) "assignedTo" = Some v -> v <> "" ->
  lookup (handleSubmit parseIntJs form editing userData) "assignedTo"
  = Some (JScalar (SStr v)).
Proof.
  intros Hentry Hne.
  assert (Htruthy : truthy_string (Some v) = true)
    by (cbn [truthy_string]; apply String.eqb_neq in Hne; now rewrite Hne).
  unfold handleSubmit. rewrite Hentry, Htruthy. cbn [text].
  destruct (match lookup (entries form) "isRecurring" with
            | Some x => String.eqb x "on"
            | None => false
            end);
    [destruct (lookup (entries form) "recurringType") as [kind |];
     [destruct (String.eqb kind "weekly"), (String.eqb kind "monthly"),
               (String.eqb kind "custom") |];
     destruct (truthy_string (lookup (entries form) "recurringEndDate")) |];
    repeat (rewrite lookup_assign_other by discriminate);
    apply StatsFacts.lookup_assign_same.
Qed.

Lemma denied_is_no_201 (p : string) (u : option User) (denied : Response) :
  checkPermission p u = Some denied -> code denied <> 201%Z.
Proof.
  unfold checkPermission. destruct u as [usr |].
  - destruct (hasPermission (Some usr) p) as [[|] | [msg]]; intros Hd;
      [discriminate Hd | |]; injection Hd as <-; discriminate.
  - intros Hd. injection Hd as <-. discriminate.
Qed.

(** POST /api/tasks creates nothing unless [assignedTo] is the id of a
    stored user. *)
Lemma post_needs_a_stored_assignee `{Libraries} (req : AuthRequest) (st : Store) :
  (forall v, lookup (body req) "assignedTo" = Some (JScalar (SStr v)) ->
             findUser v st = None) ->
  snd (Tasks.postTask req st) = st
  /\ code (fst (Tasks.postTask req st)) <> 201%Z.
Proof.
  intros Hnobody. unfold Tasks.postTask.
  destruct (checkPermission "tasks:create" (user req)) as [denied |] eqn:Hperm.
  { split; [reflexivity | exact (denied_is_no_201 _ _ _ Hperm)]. }
  destruct (negb (isEmpty (validationResult Tasks.postValidators (body req))));
    [split; [reflexivity | discriminate] |].
  unfold Tasks.findUserByValue.
  destruct (lookup (body req) "assignedTo") as [[[| flag | z | v] | items] |];
    try (split; [reflexivity | discriminate]).
  destruct (isValidObjectId v); [| split; [reflexivity | discriminate]].
  rewrite (Hnobody v eq_refl). split; [reflexivity | discriminate].
Qed.

(** X27: a regular user who logged in through the login page sends no
    user id as assignee.  The [user] object of the login answer names the
    id [id], the tasks page reads [_id], so [userData.id] is undefined; the
    users query then gives the one entry built from [userData], whose [_id]
    is undefined; the assignee select has that one option, without a value
    attribute, so its value is its text, and, the text not being empty
    (the select is [required]), [handleSubmit] sends the text as
    [assignedTo].  Unless the text is the id of a stored user, POST
    /api/tasks stores nothing and never answers 201; when the requester
    may create tasks, the body passes the validators and the text is no
    well-formed object id, the answer is 500 'Server error'. *)
Theorem regular_user_sends_no_assignee_id `{Libraries}
        (parseIntJs : string -> option Z) (optionText : PageUser -> string)
        (fresh t uid e n : string) (r : option string) (c : Z) (m : string)
        (s : Storage) (fetched : list PageUser) (form : TaskForm)
        (req : AuthRequest) (st : Store) :
  fresh <> "" -> fst (getOrCreateSessionId fresh s) <> "storage" ->
  isAdmin r = false -> isManager r = false ->
  let s' := loginPage fresh (Auth.Granted c m (Some t) uid e n r) s in
  let users := pageUsers fetched (loadUserData s') in
  let label := optionText (mkPageUser None (Some n) (Some e) r) in
  label <> "" ->
  findUser label st = None ->
  body req
  = handleSubmit parseIntJs
      (withAssignee (assigneeEntry optionText users 0) form) false
      (loadUserData s') ->
  loadUserData s' = Some (mkUserData None (Some n) (Some e) r)
  /\ users = [mkPageUser None (Some n) (Some e) r]
  /\ assigneeEntry optionText users 0 = Some label
  /\ lookup (body req) "assignedTo" = Some (JScalar (SStr label))
  /\ snd (Tasks.postTask req st) = st
  /\ code (fst (Tasks.postTask req st)) <> 201%Z
  /\ (isValidObjectId label = false ->
      checkPermission "tasks:create" (user req) = None ->
      validationResult Tasks.postValidators (body req) = [] ->
      Tasks.postTask req st = (serverError, st)).
Proof.
  intros Hfresh Hstorage Hadmin Hmanager. cbn zeta. cbn [loginPage].
  intros Hne Hnobody Hbody.
  assert (Hload : loadUserData (saveAuthData fresh t (userJson uid e n r) s)
                  = Some (mkUserData None (Some n) (Some e) r)).
  { unfold loadUserData, getUser.
    rewrite (BrowserFacts.getAuthData_saved fresh t _ s Hfresh Hstorage).
    cbn [account]. now destruct r. }
  rewrite Hload in Hbody |- *.
  assert (Husers : pageUsers fetched (Some (mkUserData None (Some n) (Some e) r))
                   = [mkPageUser None (Some n) (Some e) r]).
  { unfold pageUsers, fetchesUsers. cbn [role id name email].
    now rewrite Hadmin, Hmanager. }
  rewrite Husers in Hbody |- *.
  set (label := optionText (mkPageUser None (Some n) (Some e) r)) in *.
  assert (Hentry : assigneeEntry optionText
                     [mkPageUser None (Some n) (Some e) r] 0 = Some label)
    by reflexivity.
  rewrite Hentry in Hbody.
  assert (Hform : lookup (entries (withAssignee (Some label) form)) "assignedTo"
                  = Some label)
    by (cbn [withAssignee entries]; apply StatsFacts.lookup_assign_same).
  assert (Hassignee : lookup (body req) "assignedTo"
                      = Some (JScalar (SStr label))).
  { rewrite Hbody.
    exact (handleSubmit_assignee parseIntJs _ false _ label Hform Hne). }
  assert (Hbad : forall v,
             lookup (body req) "assignedTo" = Some (JScalar (SStr v)) ->
             findUser v st = None).
  { intros v Hv. rewrite Hassignee in Hv. now injection Hv as <-. }
  destruct (post_needs_a_stored_assignee req st Hbad) as [Hstore Hcode].
  split; [reflexivity |]. split; [reflexivity |]. split; [reflexivity |].
  split; [exact Hassignee |]. split; [exact Hstore |]. split; [exact Hcode |].
  intros Hinvalid Hperm Hvalid.
  unfold Tasks.postTask. rewrite Hperm, Hvalid. cbn [isEmpty negb].
  unfold Tasks.findUserByValue. now rewrite Hassignee, Hinvalid.
Qed.

Lemma regular_user_sends_no_assignee_id_witness :
  loadUserData Fixture.bobSession
  = Some (mkUserData None (Some "Bob") (Some "bob@example.org") (Some "user"))
  /\ assigneeEntry Fixture.optionText
       (pageUsers [] (loadUserData Fixture.bobSession)) 0
     = Some "Bob (user)"
  /\ validationResult (H := Reference.libraries) Tasks.postValidators
       (handleSubmit Reference.parseInt
          (withAssignee
             (assigneeEntry Fixture.optionText
                (pageUsers [] (loadUserData Fixture.bobSession)) 0)
             Fixture.bareForm)
          false (loadUserData Fixture.bobSession))
     = []
  /\ @Tasks.postTask Reference.libraries
       (Sample.request Sample.bob "" []
          (handleSubmit Reference.parseInt
             (withAssignee
                (assigneeEntry Fixture.optionText
                   (pageUsers [] (loadUserData Fixture.bobSession)) 0)
                Fixture.bareForm)
             false (loadUserData Fixture.bobSession)))
       Sample.store
     = (serverError, Sample.store).
Proof.
  pose proof (@regular_user_sends_no_assignee_id Reference.libraries
                Reference.parseInt Fixture.optionText
                "session_1_a" "jwt.b00000000000000000000002" Sample.bobId
                "bob@example.org" "Bob" (Some "user") 200%Z "Login successful"
                (mkStorage [] []) [] Fixture.bareForm
                (Sample.request Sample.bob "" []
                   (handleSubmit Reference.parseInt
                      (withAssignee
                         (assigneeEntry Fixture.optionText
                            (pageUsers [] (loadUserData Fixture.bobSession)) 0)
                         Fixture.bareForm)
                      false (loadUserData Fixture.bobSession)))
                Sample.store ltac:(discriminate) ltac:(discriminate)
                eq_refl eq_refl ltac:(discriminate) eq_refl eq_refl)
    as (Hload & _ & Hentry & _ & _ & _ & Hserver).
  assert (Hvalid : validationResult (H := Reference.libraries) Tasks.postValidators
                     (handleSubmit Reference.parseInt
                        (withAssignee
                           (assigneeEntry Fixture.optionText
                              (pageUsers [] (loadUserData Fixture.bobSession)) 0)
                           Fixture.bareForm)
                        false (loadUserData Fixture.bobSession))
                   = []) by (vm_compute; reflexivity).
  split; [exact Hload |]. split; [exact Hentry |]. split; [exact Hvalid |].
  apply Hserver; [vm_compute; reflexivity | reflexivity | exact Hvalid].
Defined.

Lemma denied_is_no_400 (p : string) (u : option User) (denied : Response) :
  checkPermission p u = Some denied -> code denied <> 400%Z.
Proof.
  unfold checkPermission. destruct u as [usr |].
  - destruct (hasPermission (Some usr) p) as [[|] | [msg]]; intros Hd;
      [discriminate Hd | |]; injection Hd as <-; discriminate.
  - intros Hd. injection Hd as <-. discriminate.
Qed.

(** X28: the 400 'Recurring type is required for recurring tasks' of
    POST /api/tasks cannot be reached from the task form: [handleSubmit]
    sends [recurringType] with every recurring task, as the chosen string
    or as [null], and a [null] or unknown type is refused by the validators
    before the handler looks at it. *)
Theorem form_never_misses_the_type `{Libraries}
        (parseIntJs : string -> option Z) (form : TaskForm) (editing : bool)
        (userData : option UserData) (req : AuthRequest) (st : Store) :
  body req = handleSubmit parseIntJs form editing userData ->
  fst (Tasks.postTask req st)
  <> mkResponse 400 (Message "Recurring type is required for recurring tasks").
Proof.
  intros Hbody.
  destruct (handleSubmit_members parseIntJs form editing userData)
    as (Hflag & Htype & _).
  rewrite <- Hbody in Hflag, Htype.
  unfold Tasks.postTask.
  destruct (checkPermission "tasks:create" (user req)) as [denied |] eqn:Hperm.
  { cbn [fst]. intros ->. now apply (denied_is_no_400 _ _ _ Hperm). }
  destruct (isEmpty (validationResult Tasks.postValidators (body req)))
    eqn:Hvalid; cbn [negb]; [| discriminate].
  destruct (Tasks.findUserByValue (lookup (body req) "assignedTo") st)
    as [[found |] | e]; [| discriminate | discriminate].
  rewrite Hflag.
  destruct (match lookup (entries form) "isRecurring" with
            | Some v => String.eqb v "on"
            | None => false
            end) eqn:Hrecurring.
  - rewrite (Htype eq_refl).
    destruct (lookup (entries form) "recurringType") as [kind |] eqn:Hkind.
    + cbn [text truthy truthy_scalar].
      destruct (String.eqb_spec kind "") as [-> | Hne].
      * exfalso.
        assert (Hbad : run_chain (body req) Tasks.recurringTypeChain <> []).
        { apply (TaskFacts.recurringType_rejected (body req) (SStr ""));
            [exact (Htype eq_refl) |].
          intros x Hx Heq. injection Heq as <-.
          cbn in Hx. intuition discriminate. }
        rewrite (TaskFacts.validationResult_error Tasks.postValidators
                   Tasks.recurringTypeChain (body req)) in Hvalid;
          [discriminate | cbn; tauto | exact Hbad].
      * cbn [negb andb].
        destruct (castTask _ _); discriminate.
    + exfalso.
      assert (Hbad : run_chain (body req) Tasks.recurringTypeChain <> []).
      { apply (TaskFacts.recurringType_rejected (body req) SNull);
          [exact (Htype eq_refl) |].
        intros x _. discriminate. }
      rewrite (TaskFacts.validationResult_error Tasks.postValidators
                 Tasks.recurringTypeChain (body req)) in Hvalid;
        [discriminate | cbn; tauto | exact Hbad].
  - cbn [truthy truthy_scalar andb].
    destruct (castTask _ _); discriminate.
Qed.

Lemma form_never_misses_the_type_witness :
  code (fst (@Tasks.postTask Reference.libraries
               (Sample.request Sample.bob "" []
                  (handleSubmit Reference.parseInt Fixture.untypedForm false None))
               Sample.store)) = 400%Z
  /\ fst (@Tasks.postTask Reference.libraries
            (Sample.request Sample.bob "" []
               (handleSubmit Reference.parseInt Fixture.untypedForm false None))
            Sample.store)
     <> mkResponse 400 (Message "Recurring type is required for recurring tasks").
Proof.
  split; [vm_compute; reflexivity |].
  exact (@form_never_misses_the_type Reference.libraries Reference.parseInt
           Fixture.untypedForm false None
           (Sample.request Sample.bob "" []
              (handleSubmit Reference.parseInt Fixture.untypedForm false None))
           Sample.store eq_refl).
Defined.

(** X29: the update of the tasks page reads the creator of the task
    before it sends the PUT.  A task whose creator is no longer in the
    store can therefore not be updated from the page by anyone: the
    mutation is rejected and nothing is written, although PUT itself does
    not ask for the creator.  While the creator is in the store the
    fetch never stands in the way: whenever PUT answers 200 to a stored
    requester, the mutation resolves with that answer and that store. *)
Theorem page_update_needs_the_creator `{Libraries} (req : AuthRequest)
        (st : Store) (task : Task) :
  isValidObjectId (params_id req) = true ->
  findTask (params_id req) st = Some task ->
  (findUser (createdBy task) st = None ->
   exists status, updateTask req st = (Rejected status, st))
  /\ (forall u,
         user req = Some u ->
         (exists stored, findUser (_id u) st = Some stored) ->
         findUser (createdBy task) st <> None ->
         code (fst (Tasks.putTask req st)) = 200%Z ->
         updateTask req st
         = (Resolved (fst (Tasks.putTask req st)), snd (Tasks.putTask req st))).
Proof.
  intros Hvalid Hfind. split.
  - intros Hgone. unfold updateTask, TaskView.getTask.
    rewrite Hvalid, Hfind. cbn [negb].
    destruct (user req) as [u |]; [| eexists; reflexivity].
    destruct (negb (TaskView.refersTo (createdBy task) u st)
              && negb (TaskView.refersTo (assignedTo task) u st)
              && negb (hasRole u "admin" || hasRole u "manager"));
      [eexists; reflexivity |].
    unfold populate. cbn [creator]. rewrite Hgone. cbn [option_map].
    eexists; reflexivity.
  - intros u Hu Hstored Hcreator Hput.
    assert (Hallowed : negb (String.eqb (createdBy task) (_id u))
                       && negb (hasRole u "admin") && negb (hasRole u "manager")
                       = false).
    { unfold Tasks.putTask in Hput.
      destruct (negb (isEmpty _)); [discriminate Hput |].
      rewrite Hvalid, Hfind, Hu in Hput. cbn [negb] in Hput.
      destruct (negb (String.eqb (createdBy task) (_id u))
                && negb (hasRole u "admin") && negb (hasRole u "manager"));
        [discriminate Hput | reflexivity]. }
    unfold updateTask, TaskView.getTask. rewrite Hvalid, Hfind, Hu. cbn [negb].
    rewrite !(TaskViewFacts.refersTo_stored _ u st Hstored).
    assert (Hview : negb (String.eqb (createdBy task) (_id u))
                    && negb (String.eqb (assignedTo task) (_id u))
                    && negb (hasRole u "admin" || hasRole u "manager") = false).
    { destruct (String.eqb (createdBy task) (_id u)),
               (String.eqb (assignedTo task) (_id u)),
               (hasRole u "admin"), (hasRole u "manager");
        try reflexivity; discriminate Hallowed. }
    rewrite Hview. unfold populate. cbn [creator].
    destruct (findUser (createdBy task) st) as [creator |];
      [| contradiction]. cbn [option_map].
    destruct (Tasks.putTask req st) as [response st'].
    cbn [fst snd] in *. now rewrite Hput.
Qed.

Lemma page_update_needs_the_creator_witness :
  findUser (createdBy Sample.audit) Fixture.withoutDave = None
  /\ code (fst (@Tasks.putTask Reference.libraries
                  (Sample.request Sample.alice (task_id Sample.audit) []
                     [("priority", JScalar (SStr "high"))])
                  Fixture.withoutDave)) = 200%Z
  /\ exists status,
       @updateTask Reference.libraries
         (Sample.request Sample.alice (task_id Sample.audit) []
            [("priority", JScalar (SStr "high"))])
         Fixture.withoutDave
       = (Rejected status, Fixture.withoutDave).
Proof.
  split; [reflexivity |]. split; [vm_compute; reflexivity |].
  exact (proj1 (@page_update_needs_the_creator Reference.libraries
                  (Sample.request Sample.alice (task_id Sample.audit) []
                     [("priority", JScalar (SStr "high"))])
                  Fixture.withoutDave Sample.audit eq_refl eq_refl)
               eq_refl).
Defined.

Lemma lookup_assign (k k' : string) (v : string) (o : object string) :
  lookup (assign k v o) k' = if String.eqb k' k then Some v else lookup o k'.
Proof.
  destruct (String.eqb_spec k' k) as [-> | Hne].
  - apply StatsFacts.lookup_assign_same.
  - now apply lookup_assign_other.
Qed.

Lemma lookup_setIf (k k' v : string) (o : object string) :
  lookup (setIf k v o) k'
  = if String.eqb k' k && truthy_string (Some v) then Some v else lookup o k'.
Proof.
  unfold setIf. destruct (truthy_string (Some v)).
  - rewrite lookup_assign. now rewrite andb_true_r.
  - now rewrite andb_false_r.
Qed.

(** The parameters the page sends, apart from the search term and the
    assignee filter. *)
Lemma lookup_taskParams (search status priority assignee sortBy sortOrder k : string) :
  k <> "search" -> k <> "assignedTo" ->
  lookup (taskParams search status priority assignee sortBy sortOrder) k
  = lookup (taskParams "" status priority "" sortBy sortOrder) k.
Proof.
  intros Hsearch Hassignee. unfold taskParams.
  apply String.eqb_neq in Hsearch, Hassignee.
  rewrite !lookup_assign, !lookup_setIf, Hsearch, Hassignee.
  reflexivity.
Qed.

(** X30: for a regular user the search box and the assignee filter of the
    tasks page change nothing: whatever is typed or chosen there, GET
    /api/tasks answers as it does with both left empty; only the status and
    priority filters and the sort order reach the listing. *)
Theorem page_filters_of_regular_users `{Libraries} (u : User) (id : string)
        (b : object jsval) (st : Store)
        (search status priority assignee sortBy sortOrder : string) :
  Model.role u <> Some "admin" -> Model.role u <> Some "manager" ->
  Tasks.getTasks
    (mkRequest (Some u) id
       (taskParams search status priority assignee sortBy sortOrder) b) st
  = Tasks.getTasks
      (mkRequest (Some u) id (taskParams "" status priority "" sortBy sortOrder) b)
      st.
Proof.
  intros Hadmin Hmanager.
  pose proof (TaskFacts.canSeeAllTasks_false u Hadmin Hmanager) as Hsee.
  assert (Hquery : Tasks.listQuery u
                     (taskParams search status priority assignee sortBy sortOrder)
                   = Tasks.listQuery u
                       (taskParams "" status priority "" sortBy sortOrder)).
  { unfold Tasks.listQuery. rewrite Hsee. cbn [negb].
    rewrite !TaskFacts.assign_assignIfSet. f_equal.
    unfold Tasks.filterQuery.
    now rewrite !(lookup_taskParams search status priority assignee sortBy
                    sortOrder) by discriminate. }
  unfold Tasks.getTasks, Tasks.listed. cbn [user query].
  rewrite Hquery.
  now rewrite !(lookup_taskParams search status priority assignee sortBy sortOrder)
    by discriminate.
Qed.

Lemma page_filters_of_regular_users_witness :
  Model.role Sample.bob <> Some "admin" /\ Model.role Sample.bob <> Some "manager"
  /\ @Tasks.getTasks Reference.libraries
       (mkRequest (Some Sample.bob) ""
          (taskParams "audit" "todo" "" Sample.daveId "dueDate" "asc") []) Sample.store
     = @Tasks.getTasks Reference.libraries
         (mkRequest (Some Sample.bob) ""
            (taskParams "" "todo" "" "" "dueDate" "asc") []) Sample.store.
Proof.
  assert (Hadmin : Model.role Sample.bob <> Some "admin") by discriminate.
  assert (Hmanager : Model.role Sample.bob <> Some "manager") by discriminate.
  split; [exact Hadmin |]. split; [exact Hmanager |].
  exact (@page_filters_of_regular_users Reference.libraries Sample.bob "" []
           Sample.store "audit" "todo" "" Sample.daveId "dueDate" "asc"
           Hadmin Hmanager).
Defined.

End PageFacts.
